(** * Exchange execution engine: order sizing, formatting, protection and
    order lifecycle of the live trading system.

    Shallow embedding of [bybit_live_trading_system.py] (class
    [LiveTradingEngine]) and of [ai_prompts_manager.py] (class
    [ExtremeMarketProtection]).

    Numbers.  Python [float] values are modelled as exact rationals [Q]:
    comparisons, [min], [max], [abs], [+ - * /] are the rational ones and
    results are stated up to [==].  [round], [int] and [round(x, n)] are
    modelled on the rationals (ties to even, truncation toward zero).
    Division by zero raises in Python; every function that can divide by a
    zero denominator returns an explicit exceptional outcome here.

    Exchange.  Every answer the exchange (or the policy, or the clock) gives
    at a call site is an input of the function that makes the call; every
    request that changes the exchange (create order, cancel order, set
    trading stop) is appended to the engine's [api_log]. *)

From stdpp Require Import gmap strings pretty list.
From Stdlib Require Import Ascii QArith Qround Qabs Lqa.

Local Open Scope Q_scope.

(** ** Python numeric primitives on rationals *)

Definition Qltb (x y : Q) : bool := negb (Qle_bool y x).
Definition Qleb (x y : Q) : bool := Qle_bool x y.
Definition Qgtb (x y : Q) : bool := Qltb y x.
Definition Qgeb (x y : Q) : bool := Qleb y x.
Definition Qeqb (x y : Q) : bool := Qeq_bool x y.

(** [min(a, b)] and [max(a, b)] of Python: the first argument wins ties. *)
Definition py_min (a b : Q) : Q := if Qltb b a then b else a.
Definition py_max (a b : Q) : Q := if Qgtb b a then b else a.

(** [int(x)]: truncation toward zero. *)
Definition py_int (x : Q) : Z :=
  if Qleb 0 x then Qfloor x else Qceiling x.

(** [round(x)]: nearest integer, ties to the even one. *)
Definition py_round (x : Q) : Z :=
  let f := Qfloor x in
  match Qcompare (x - inject_Z f) (1 # 2) with
  | Lt => f
  | Gt => (f + 1)%Z
  | Eq => if Z.even f then f else (f + 1)%Z
  end.

Definition pow10 (n : nat) : Q := inject_Z (10 ^ Z.of_nat n).

(** [round(x, n)]: nearest multiple of [10^-n], ties to even. *)
Definition py_round_nd (x : Q) (n : nat) : Q :=
  inject_Z (py_round (x * pow10 n)) / pow10 n.

(** ** [str(x)] of a float, for the digit count of a step

    [str] prints the shortest decimal that reads back as the same float:
    for a step given by the exchange as a short decimal this is that
    decimal.  Values with decimal exponent in [-4, 16) print positionally
    ("0.001"), the others in scientific notation ("1e-05").  The model
    covers finite decimals; other rationals are cut at 17 fractional
    digits. *)

Fixpoint scale_of (fuel : nat) (a : Q) (d : nat) : nat :=
  match fuel with
  | O => d
  | S fuel' =>
      if Qeqb (inject_Z (Qfloor (a * pow10 d))) (a * pow10 d) then d
      else scale_of fuel' a (S d)
  end.

Fixpoint string_rev_acc (s acc : string) : string :=
  match s with
  | EmptyString => acc
  | String c s' => string_rev_acc s' (String c acc)
  end.
Definition string_rev (s : string) : string := string_rev_acc s EmptyString.

Fixpoint lstrip_char (c : ascii) (s : string) : string :=
  match s with
  | String c' s' => if Ascii.eqb c c' then lstrip_char c s' else s
  | EmptyString => EmptyString
  end.

(** [s.rstrip('0')] *)
Definition rstrip (c : ascii) (s : string) : string :=
  string_rev (lstrip_char c (string_rev s)).

(** [s.split('.')[-1]]: what follows the last dot, or all of [s]. *)
Fixpoint after_last (c : ascii) (s : string) : string :=
  match s with
  | EmptyString => EmptyString
  | String c' s' =>
      let r := after_last c s' in
      if Ascii.eqb c c' then r
      else if existsb (Ascii.eqb c) (String.list_ascii_of_string s') then r
      else String c' s'
  end.

Fixpoint zeros (n : nat) : string :=
  match n with O => EmptyString | S n' => String "0" (zeros n') end.

Definition str_take (n : nat) (s : string) : string := String.substring 0 n s.
Definition str_drop (n : nat) (s : string) : string :=
  String.substring n (String.length s - n) s.

Definition positional (ds : string) (d : nat) : string :=
  let k := String.length ds in
  if Nat.eqb d 0 then ds +:+ ".0"
  else if Nat.ltb d k then str_take (k - d) ds +:+ "." +:+ str_drop (k - d) ds
  else "0." +:+ zeros (d - k) +:+ ds.

Definition scientific (ds : string) (e10 : Z) : string :=
  let frac := rstrip "0" (str_drop 1 ds) in
  let mant := if Nat.eqb (String.length frac) 0 then str_take 1 ds
              else str_take 1 ds +:+ "." +:+ frac in
  let ex := pretty (Z.to_N (Z.abs e10)) in
  let ex2 := if Nat.ltb (String.length ex) 2 then "0" +:+ ex else ex in
  mant +:+ "e" +:+ (if (e10 <? 0)%Z then "-" else "+") +:+ ex2.

Definition float_str (x : Q) : string :=
  let a := Qabs x in
  if Qeqb a 0 then "0.0"
  else
    let d := scale_of 17 a 0 in
    let ds := pretty (Z.to_N (Qfloor (a * pow10 d))) in
    let e10 := (Z.of_nat (String.length ds) - 1 - Z.of_nat d)%Z in
    let body := if ((-4 <=? e10) && (e10 <? 16))%Z then positional ds d
                else scientific ds e10 in
    if Qltb x 0 then "-" +:+ body else body.

(** [len(str(step).split('.')[-1].rstrip('0'))] *)
Definition str_decimals (step : Q) : nat :=
  String.length (rstrip "0" (after_last "." (float_str step))).

(** [s.replace(old, '')]: every occurrence of [old] removed, left to right. *)
Fixpoint remove_all_fuel (fuel : nat) (old s : string) : string :=
  match fuel with
  | O => s
  | S fuel' =>
      match s with
      | EmptyString => EmptyString
      | String c s' =>
          if String.prefix old s
          then remove_all_fuel fuel' old
                 (str_drop (String.length old) s)
          else String c (remove_all_fuel fuel' old s')
      end
  end.

Definition str_remove (old s : string) : string :=
  if Nat.eqb (String.length old) 0 then s
  else remove_all_fuel (S (String.length s)) old s.

(** [symbol.replace('_PERPETUAL', '')] *)
Definition bybit_symbol_of (symbol : string) : string :=
  str_remove "_PERPETUAL" symbol.

(** Truthiness of an optional string: [None] and [''] are false. *)
Definition truthy (o : option string) : bool :=
  match o with
  | Some s => negb (String.eqb s "")
  | None => false
  end.

(** [d.get(key, default)] on an optional entry. *)
Definition get {A} (o : option A) (dflt : A) : A :=
  match o with Some v => v | None => dflt end.

(** ** Market data as the protection system reads it *)

(** One timeframe entry of a symbol's market data; an absent key reads as
    [0] ([.get(key, 0)]). *)
Record Candle := {
  c_open : option Q;
  c_close : option Q;
  c_low : option Q;
  c_volume : option Q;
  c_atr : option Q
}.

Definition empty_candle : Candle :=
  {| c_open := None; c_close := None; c_low := None;
     c_volume := None; c_atr := None |}.

(** [market_data.get('timestamp')]: a [datetime] carries its minute; any
    other truthy value makes the code read the wall clock. *)
Inductive Timestamp :=
| TsDatetime (minute : nat)
| TsOther.

Record MarketData := {
  md_15m : option Candle;
  md_4h : option Candle;
  md_timestamp : option Timestamp
}.

Definition empty_market_data : MarketData :=
  {| md_15m := None; md_4h := None; md_timestamp := None |}.

(** ** ExtremeMarketProtection ([ai_prompts_manager.py]) *)

Inductive TriggerType :=
| multi_asset_crash
| flash_crash
| liquidity_crisis
| volatility_surge
| consecutive_stops.

(** A reason string, kept as its detector and the numbers printed in it. *)
Inductive Reason :=
| ReasonMultiAssetCrash (details : list (string * Q))
| ReasonFlashCrash (candle_drop : Q)
| ReasonLowerWick (wick_drop : Q)
| ReasonLiquidity (volume_drop_pct : Q)
| ReasonVolatility (surge_pct : Q)
| ReasonConsecutiveStops (n : nat)
| ReasonDailyLoss (daily_loss_pct : Q).

Definition reason_type (r : Reason) : option TriggerType :=
  match r with
  | ReasonMultiAssetCrash _ => Some multi_asset_crash
  | ReasonFlashCrash _ | ReasonLowerWick _ => Some flash_crash
  | ReasonLiquidity _ => Some liquidity_crisis
  | ReasonVolatility _ => Some volatility_surge
  | ReasonConsecutiveStops _ => Some consecutive_stops
  | ReasonDailyLoss _ => None
  end.

Record Trigger := {
  trg_timestamp : Q;
  trg_type : TriggerType;
  trg_reason : Reason
}.

(** Timestamps are seconds on the clock the caller reads; the calendar day
    of a timestamp is its whole number of days. *)
Definition date_of (timestamp : Q) : Z := Qfloor (timestamp / 86400).

Record ExtremeMarketProtection := {
  recent_stop_losses : list Q;
  daily_start_balance : option Q;
  current_day : option Z;
  protection_triggers : list Trigger
}.

(** [reset()], called by [__init__]. *)
Definition protection_reset : ExtremeMarketProtection :=
  {| recent_stop_losses := [];
     daily_start_balance := None;
     current_day := None;
     protection_triggers := [] |}.

(** Thresholds set in [__init__] and never reassigned. *)
Definition flash_crash_threshold : Q := 0.08.
Definition volume_drop_threshold : Q := 0.70.
Definition atr_surge_threshold : Q := 1.50.
Definition multi_asset_crash_threshold : Q := 0.05.
Definition max_stops_in_period : nat := 3.
Definition stop_loss_window_hours : Q := 4.
Definition max_daily_loss_pct : Q := 15.

Definition check_flash_crash (market_data : MarketData) : option Reason :=
  let data_15m := get (md_15m market_data) empty_candle in
  let open_price := get (c_open data_15m) 0 in
  let close_price := get (c_close data_15m) 0 in
  let low_price := get (c_low data_15m) 0 in
  if Qleb open_price 0 then None
  else
    let candle_drop := (open_price - close_price) / open_price in
    let wick_drop := (open_price - low_price) / open_price in
    if Qgtb candle_drop flash_crash_threshold
    then Some (ReasonFlashCrash candle_drop)
    else if Qgtb wick_drop (flash_crash_threshold * 1.5)
    then Some (ReasonLowerWick wick_drop)
    else None.

(** [1 - self.volume_drop_threshold]: both operands are constants, and
    the subtraction of the doubles 1 and 0.70 gives the double
    0.30000000000000004, which is 1351079888211149 / 2^52 and not three
    tenths. *)
Definition volume_keep_fraction : Q :=
  1351079888211149 # 4503599627370496.

(** [now_minute] is the minute of [datetime.now()], read when the
    timestamp is not a [datetime]. *)
Definition check_liquidity_crisis (now_minute : nat)
    (market_data : MarketData) : option Reason :=
  let data_15m := get (md_15m market_data) empty_candle in
  let data_4h := get (md_4h market_data) empty_candle in
  let current_volume := get (c_volume data_15m) 0 in
  let avg_volume_4h := get (c_volume data_4h) 0 in
  if Qleb avg_volume_4h 0 then None
  else
    let just_opened :=
      match md_timestamp market_data with
      | Some ts =>
          let current_minute :=
            match ts with TsDatetime m => m | TsOther => now_minute end in
          Nat.ltb (current_minute mod 15) 5
      | None => false
      end in
    if just_opened then None
    else
      let expected_volume_15m := avg_volume_4h / 16 in
      if Qltb current_volume (expected_volume_15m * volume_keep_fraction)
      then
        let volume_drop_pct := (1 - current_volume / expected_volume_15m) * 100 in
        if Qltb current_volume (expected_volume_15m * 0.1) then None
        else Some (ReasonLiquidity volume_drop_pct)
      else None.

Definition check_volatility_surge (market_data : MarketData) : option Reason :=
  let data_15m := get (md_15m market_data) empty_candle in
  let data_4h := get (md_4h market_data) empty_candle in
  let atr_15m := get (c_atr data_15m) 0 in
  let atr_4h := get (c_atr data_4h) 0 in
  if Qgtb atr_4h 0 && Qgtb atr_15m (atr_4h * atr_surge_threshold)
  then Some (ReasonVolatility ((atr_15m / atr_4h - 1) * 100))
  else None.

(** The test of one loop round of [check_multi_asset_crash]: the drop of
    the symbol's 15m candle when it counts, [None] otherwise. *)
Definition crash_drop (market_data : MarketData) : option Q :=
  let data_15m := get (md_15m market_data) empty_candle in
  let open_price := get (c_open data_15m) 0 in
  let close_price := get (c_close data_15m) 0 in
  if Qleb open_price 0 then None
  else
    let drop_pct := (open_price - close_price) / open_price in
    if Qgtb drop_pct multi_asset_crash_threshold then Some drop_pct else None.

(** The loop of [check_multi_asset_crash] over [all_market_data.items()]:
    [crash_details], whose length is [crash_count]. *)
Fixpoint crash_scan (items : list (string * MarketData)) : list (string * Q) :=
  match items with
  | [] => []
  | (symbol, market_data) :: rest =>
      match crash_drop market_data with
      | Some drop_pct =>
          (str_remove "USDT_PERPETUAL" symbol, drop_pct) :: crash_scan rest
      | None => crash_scan rest
      end
  end.

Definition check_multi_asset_crash
    (all_market_data : gmap string MarketData) : option Reason :=
  let crash_details := crash_scan (map_to_list all_market_data) in
  let crash_count := length crash_details in
  if Nat.leb 2 crash_count then Some (ReasonMultiAssetCrash crash_details)
  else None.

(** [check_consecutive_stops]: prunes the window, then counts. *)
Definition check_consecutive_stops (self : ExtremeMarketProtection)
    (timestamp : Q) : ExtremeMarketProtection * option Reason :=
  let current_time := timestamp in
  let window_start := current_time - stop_loss_window_hours * 3600 in
  let kept := filter (fun t => Qgtb t window_start = true)
                (recent_stop_losses self) in
  let self' := {| recent_stop_losses := kept;
                  daily_start_balance := daily_start_balance self;
                  current_day := current_day self;
                  protection_triggers := protection_triggers self |} in
  if Nat.leb max_stops_in_period (length kept)
  then (self', Some (ReasonConsecutiveStops (length kept)))
  else (self', None).

Definition record_stop_loss (self : ExtremeMarketProtection)
    (timestamp : Q) : ExtremeMarketProtection :=
  {| recent_stop_losses := recent_stop_losses self ++ [timestamp];
     daily_start_balance := daily_start_balance self;
     current_day := current_day self;
     protection_triggers := protection_triggers self |}.

Definition set_daily (self : ExtremeMarketProtection)
    (day : option Z) (balance : option Q) : ExtremeMarketProtection :=
  {| recent_stop_losses := recent_stop_losses self;
     daily_start_balance := balance;
     current_day := day;
     protection_triggers := protection_triggers self |}.

(** [check_max_daily_loss]; [DailyRaised] stands for the
    [ZeroDivisionError] of a zero baseline. *)
Inductive DailyLoss :=
| DailyOk
| DailyTriggered (r : Reason)
| DailyRaised.

Definition check_max_daily_loss (self : ExtremeMarketProtection)
    (current_balance : Q) (timestamp : Q)
  : ExtremeMarketProtection * DailyLoss :=
  let current_date := date_of timestamp in
  if negb (bool_decide (current_day self = Some current_date))
  then (set_daily self (Some current_date) (Some current_balance), DailyOk)
  else
    match daily_start_balance self with
    | None => (set_daily self (current_day self) (Some current_balance), DailyOk)
    | Some start =>
        if Qeqb start 0 then (self, DailyRaised)
        else
          let daily_loss_pct := (start - current_balance) / start * 100 in
          if Qgtb daily_loss_pct max_daily_loss_pct
          then (self, DailyTriggered (ReasonDailyLoss daily_loss_pct))
          else (self, DailyOk)
    end.

Definition add_trigger (self : ExtremeMarketProtection) (timestamp : Q)
    (ty : TriggerType) (r : Reason) : ExtremeMarketProtection :=
  {| recent_stop_losses := recent_stop_losses self;
     daily_start_balance := daily_start_balance self;
     current_day := current_day self;
     protection_triggers :=
       protection_triggers self ++
       [{| trg_timestamp := timestamp; trg_type := ty; trg_reason := r |}] |}.

(** One detector's outcome appended to [reasons] and [protection_triggers]. *)
Definition note (timestamp : Q) (ty : TriggerType) (found : option Reason)
    (acc : ExtremeMarketProtection * list Reason)
  : ExtremeMarketProtection * list Reason :=
  match found with
  | Some r => (add_trigger (fst acc) timestamp ty r, snd acc ++ [r])
  | None => acc
  end.

(** [comprehensive_check]; [current_balance] is received and not read. *)
Definition comprehensive_check (self : ExtremeMarketProtection)
    (now_minute : nat)
    (all_market_data : gmap string MarketData) (current_balance : Q)
    (timestamp : Q) (has_position : bool) (current_symbol : option string)
  : ExtremeMarketProtection * (bool * list Reason) :=
  let acc := (self, []) in
  let acc := note timestamp multi_asset_crash
               (check_multi_asset_crash all_market_data) acc in
  let held :=
    if has_position && truthy current_symbol
    then all_market_data !! get current_symbol "" else None in
  let acc :=
    match held with
    | Some market_data =>
        let acc := note timestamp flash_crash
                     (check_flash_crash market_data) acc in
        let acc := note timestamp liquidity_crisis
                     (check_liquidity_crisis now_minute market_data) acc in
        note timestamp volatility_surge
          (check_volatility_surge market_data) acc
    | None => acc
    end in
  let '(self', found) := check_consecutive_stops (fst acc) timestamp in
  let acc := note timestamp consecutive_stops found (self', snd acc) in
  let reasons := snd acc in
  let should_protect := Nat.ltb 0 (length reasons) in
  (fst acc, (should_protect, reasons)).

(** ** Instrument rules ([self.trading_rules[symbol]]) *)

Record Rules := {
  qty_step : Q;
  min_order_qty : Q;
  max_order_qty : Q;
  min_order_amt : Q;
  max_order_amt : Q;
  tick_size : Q;
  min_price : Q;
  max_price : Q;
  status : string;
  unified_margin_trade : bool
}.

(** [_format_quantity]; the result is the number whose [str] is returned.
    [None] is the [ZeroDivisionError] of a zero step. *)
Definition _format_quantity (trading_rules : gmap string Rules)
    (symbol : string) (qty : Q) : option Q :=
  match trading_rules !! symbol with
  | None => Some (py_round_nd qty 3)
  | Some rules =>
      let qty_step := qty_step rules in
      let min_qty := min_order_qty rules in
      let max_qty := max_order_qty rules in
      let stepped :=
        if Qgeb qty_step 1
        then Some (inject_Z (py_int (qty / qty_step)) * qty_step)
        else
          let decimals := str_decimals qty_step in
          if Qeqb qty_step 0 then None
          else
            let formatted_qty := inject_Z (py_round (qty / qty_step)) * qty_step in
            Some (py_round_nd formatted_qty decimals) in
      match stepped with
      | None => None
      | Some formatted_qty =>
          let formatted_qty :=
            if Qltb formatted_qty min_qty then min_qty else formatted_qty in
          let formatted_qty :=
            if Qgtb formatted_qty max_qty then max_qty else formatted_qty in
          Some formatted_qty
      end
  end.

(** [_format_price]: the second definition in the class body, which
    replaces the first one of the same name. *)
Definition _format_price (trading_rules : gmap string Rules)
    (symbol : string) (price : Q) : option Q :=
  match trading_rules !! symbol with
  | None => Some (py_round_nd price 2)
  | Some rules =>
      let tick_size := tick_size rules in
      let min_price := min_price rules in
      let max_price := max_price rules in
      let stepped :=
        if Qgeb tick_size 1
        then Some (inject_Z (py_int (price / tick_size)) * tick_size)
        else
          let decimals := str_decimals tick_size in
          if Qeqb tick_size 0 then None
          else
            let formatted_price :=
              inject_Z (py_round (price / tick_size)) * tick_size in
            Some (py_round_nd formatted_price decimals) in
      match stepped with
      | None => None
      | Some formatted_price =>
          let formatted_price :=
            if Qltb formatted_price min_price then min_price
            else formatted_price in
          let formatted_price :=
            if Qgtb formatted_price max_price then max_price
            else formatted_price in
          Some formatted_price
      end
  end.

Inductive OrderCheck :=
| OrderValid
| RulesNotLoaded
| StatusNotTrading
| NoUnifiedMargin
| QtyBelowMin
| QtyAboveMax
| AmountBelowMin
| AmountAboveMax
| PriceBelowMin
| PriceAboveMax.

Definition _validate_order (trading_rules : gmap string Rules)
    (symbol : string) (qty price : Q) : OrderCheck :=
  match trading_rules !! symbol with
  | None => RulesNotLoaded
  | Some rules =>
      if negb (String.eqb (status rules) "Trading") then StatusNotTrading
      else if negb (unified_margin_trade rules) then NoUnifiedMargin
      else if Qltb qty (min_order_qty rules) then QtyBelowMin
      else if Qgtb qty (max_order_qty rules) then QtyAboveMax
      else
        let order_value := qty * price in
        if Qgtb (min_order_amt rules) 0 && Qltb order_value (min_order_amt rules)
        then AmountBelowMin
        else if Qgtb (max_order_amt rules) 0
                && Qgtb order_value (max_order_amt rules)
        then AmountAboveMax
        else if Qltb price (min_price rules) then PriceBelowMin
        else if Qgtb price (max_price rules) then PriceAboveMax
        else OrderValid
  end.

(** ** Stop-loss / take-profit validation *)

Inductive StopCheck :=
| StopValid
| StopWrongSide
| StopTooClose
| StopTooFar
| TakeProfitWrongSide
| StopCheckRaised.

Definition is_valid (c : StopCheck) : bool :=
  match c with StopValid => true | _ => false end.

Definition min_stop_distance_pct : Q := 0.3.
Definition max_stop_distance_pct : Q := 20.

(** [take_profit[0]] guarded by [len(take_profit) > 0]. *)
Definition first_target (take_profit : list Q) : option Q := head take_profit.

Definition _validate_stop_loss_take_profit (action : string)
    (entry_price stop_loss : Q) (take_profit : list Q) : StopCheck :=
  if String.eqb action "LONG" then
    let stop_part :=
      if Qgtb stop_loss 0 then
        if Qgeb stop_loss entry_price then StopWrongSide
        else if Qeqb entry_price 0 then StopCheckRaised
        else
          let stop_pct := Qabs (entry_price - stop_loss) / entry_price * 100 in
          if Qltb stop_pct min_stop_distance_pct then StopTooClose
          else if Qgtb stop_pct max_stop_distance_pct then StopTooFar
          else StopValid
      else StopValid in
    if negb (is_valid stop_part) then stop_part
    else
      match first_target take_profit with
      | Some tp =>
          if Qgtb tp 0 && Qleb tp entry_price then TakeProfitWrongSide
          else StopValid
      | None => StopValid
      end
  else if String.eqb action "SHORT" then
    let stop_part :=
      if Qgtb stop_loss 0 then
        if Qleb stop_loss entry_price then StopWrongSide
        else if Qeqb entry_price 0 then StopCheckRaised
        else
          let stop_pct := Qabs (stop_loss - entry_price) / entry_price * 100 in
          if Qltb stop_pct min_stop_distance_pct then StopTooClose
          else if Qgtb stop_pct max_stop_distance_pct then StopTooFar
          else StopValid
      else StopValid in
    if negb (is_valid stop_part) then stop_part
    else
      match first_target take_profit with
      | Some tp =>
          if Qgtb tp 0 && Qgeb tp entry_price then TakeProfitWrongSide
          else StopValid
      | None => StopValid
      end
  else StopValid.

(** ** Decisions, tracked orders and the engine state *)

(** The decision dict; an absent key is [None] and reads as the default of
    the [.get] that reads it. *)
Record Decision := {
  d_action : option string;
  d_target_symbol : option string;
  d_confidence : option Q;
  d_position_size : option Q;
  d_leverage : option Q;
  d_reason : option string;
  d_order_type : option string;
  d_entry_price : option Q;
  d_stop_loss : option Q;
  d_take_profit : option (list Q)
}.

Definition empty_decision : Decision :=
  {| d_action := None; d_target_symbol := None; d_confidence := None;
     d_position_size := None; d_leverage := None; d_reason := None;
     d_order_type := None; d_entry_price := None; d_stop_loss := None;
     d_take_profit := None |}.

(** An entry of [self.pending_limit_orders]. *)
Record OrderInfo := {
  oi_symbol : string;
  oi_create_time : Q;
  oi_side : string;
  oi_price : Q;
  oi_qty : Q;
  oi_order_type : string;
  oi_decision : Decision;
  oi_market_data : MarketData;
  oi_ai_symbol : string
}.

(** Requests that change the exchange, in the order they are sent. *)
Inductive ApiRequest :=
| PlaceOrder (symbol side order_type : string) (qty : Q) (price : option Q)
    (reduce_only : bool) (stop_loss take_profit : option Q)
| CancelOrder (symbol order_id : string)
| SetTradingStop (symbol : string) (stop_loss : Q).

(** The configuration file as [__init__] reads it, with the instrument
    rules loaded once at start-up. *)
Record Config := {
  cfg_min_position_pct : option Q;
  cfg_max_position_pct : option Q;
  cfg_max_leverage : option Q;
  cfg_min_balance : option Q;
  cfg_limit_order_timeout : option Q;
  cfg_use_trailing_stop : option bool;
  cfg_trailing_stop_distance_atr_multiplier : option Q;
  cfg_trailing_stop_trigger_atr_multiplier : option Q;
  cfg_trailing_stop_check_interval : option Q;
  trading_rules : gmap string Rules
}.

Definition default_config (rules : gmap string Rules) : Config :=
  {| cfg_min_position_pct := None; cfg_max_position_pct := None;
     cfg_max_leverage := None; cfg_min_balance := None;
     cfg_limit_order_timeout := None; cfg_use_trailing_stop := None;
     cfg_trailing_stop_distance_atr_multiplier := None;
     cfg_trailing_stop_trigger_atr_multiplier := None;
     cfg_trailing_stop_check_interval := None;
     trading_rules := rules |}.

(** Attributes computed from the configuration in [__init__]. *)
Definition max_position_pct (cfg : Config) : Q :=
  let max_position := get (cfg_max_position_pct cfg) 0.30 in
  if Qgtb max_position 1 then max_position / 100 else max_position.
Definition min_balance (cfg : Config) : Q := get (cfg_min_balance cfg) 10.
Definition limit_order_timeout (cfg : Config) : Q :=
  get (cfg_limit_order_timeout cfg) 300.
Definition use_trailing_stop (cfg : Config) : bool :=
  get (cfg_use_trailing_stop cfg) true.
Definition trailing_stop_distance_multiplier (cfg : Config) : Q :=
  get (cfg_trailing_stop_distance_atr_multiplier cfg) 1.5.
Definition trailing_stop_trigger_multiplier (cfg : Config) : Q :=
  get (cfg_trailing_stop_trigger_atr_multiplier cfg) 1.0.
Definition trailing_stop_check_interval (cfg : Config) : Q :=
  inject_Z (py_int (get (cfg_trailing_stop_check_interval cfg) 60)).

Record Engine := {
  current_position : option string;
  current_symbol : option string;
  entry_price : Q;
  pending_limit_orders : gmap string OrderInfo;
  position_entry_time : option Q;
  position_entry_reason : string;
  current_trade_id : option string;
  total_trades : nat;
  successful_trades : nat;
  failed_trades : nat;
  trailing_stop_updates : nat;
  last_trailing_stop_check : Q;
  peak_balance : Q;
  max_drawdown_pct : Q;
  drawdown_analysis_triggered : bool;
  extreme_protection : ExtremeMarketProtection;
  api_log : list ApiRequest
}.

(** The state [__init__] leaves. *)
Definition initial_engine : Engine :=
  {| current_position := None; current_symbol := None; entry_price := 0;
     pending_limit_orders := ∅; position_entry_time := None;
     position_entry_reason := ""; current_trade_id := None;
     total_trades := 0; successful_trades := 0; failed_trades := 0;
     trailing_stop_updates := 0; last_trailing_stop_check := 0;
     peak_balance := 0; max_drawdown_pct := 0;
     drawdown_analysis_triggered := false;
     extreme_protection := protection_reset; api_log := [] |}.

(** Field updates. *)
Definition set_position (st : Engine) (pos sym : option string) (price : Q)
  : Engine :=
  {| current_position := pos; current_symbol := sym; entry_price := price;
     pending_limit_orders := pending_limit_orders st;
     position_entry_time := position_entry_time st;
     position_entry_reason := position_entry_reason st;
     current_trade_id := current_trade_id st;
     total_trades := total_trades st;
     successful_trades := successful_trades st;
     failed_trades := failed_trades st;
     trailing_stop_updates := trailing_stop_updates st;
     last_trailing_stop_check := last_trailing_stop_check st;
     peak_balance := peak_balance st;
     max_drawdown_pct := max_drawdown_pct st;
     drawdown_analysis_triggered := drawdown_analysis_triggered st;
     extreme_protection := extreme_protection st;
     api_log := api_log st |}.

Definition set_pending (st : Engine) (p : gmap string OrderInfo) : Engine :=
  {| current_position := current_position st;
     current_symbol := current_symbol st; entry_price := entry_price st;
     pending_limit_orders := p;
     position_entry_time := position_entry_time st;
     position_entry_reason := position_entry_reason st;
     current_trade_id := current_trade_id st;
     total_trades := total_trades st;
     successful_trades := successful_trades st;
     failed_trades := failed_trades st;
     trailing_stop_updates := trailing_stop_updates st;
     last_trailing_stop_check := last_trailing_stop_check st;
     peak_balance := peak_balance st;
     max_drawdown_pct := max_drawdown_pct st;
     drawdown_analysis_triggered := drawdown_analysis_triggered st;
     extreme_protection := extreme_protection st;
     api_log := api_log st |}.

Definition set_entry_record (st : Engine) (time : option Q) (why : string)
    (trade_id : option string) : Engine :=
  {| current_position := current_position st;
     current_symbol := current_symbol st; entry_price := entry_price st;
     pending_limit_orders := pending_limit_orders st;
     position_entry_time := time;
     position_entry_reason := why;
     current_trade_id := trade_id;
     total_trades := total_trades st;
     successful_trades := successful_trades st;
     failed_trades := failed_trades st;
     trailing_stop_updates := trailing_stop_updates st;
     last_trailing_stop_check := last_trailing_stop_check st;
     peak_balance := peak_balance st;
     max_drawdown_pct := max_drawdown_pct st;
     drawdown_analysis_triggered := drawdown_analysis_triggered st;
     extreme_protection := extreme_protection st;
     api_log := api_log st |}.

Definition set_counters (st : Engine) (total ok failed : nat) : Engine :=
  {| current_position := current_position st;
     current_symbol := current_symbol st; entry_price := entry_price st;
     pending_limit_orders := pending_limit_orders st;
     position_entry_time := position_entry_time st;
     position_entry_reason := position_entry_reason st;
     current_trade_id := current_trade_id st;
     total_trades := total;
     successful_trades := ok;
     failed_trades := failed;
     trailing_stop_updates := trailing_stop_updates st;
     last_trailing_stop_check := last_trailing_stop_check st;
     peak_balance := peak_balance st;
     max_drawdown_pct := max_drawdown_pct st;
     drawdown_analysis_triggered := drawdown_analysis_triggered st;
     extreme_protection := extreme_protection st;
     api_log := api_log st |}.

Definition set_trailing (st : Engine) (updates : nat) (last_check : Q)
  : Engine :=
  {| current_position := current_position st;
     current_symbol := current_symbol st; entry_price := entry_price st;
     pending_limit_orders := pending_limit_orders st;
     position_entry_time := position_entry_time st;
     position_entry_reason := position_entry_reason st;
     current_trade_id := current_trade_id st;
     total_trades := total_trades st;
     successful_trades := successful_trades st;
     failed_trades := failed_trades st;
     trailing_stop_updates := updates;
     last_trailing_stop_check := last_check;
     peak_balance := peak_balance st;
     max_drawdown_pct := max_drawdown_pct st;
     drawdown_analysis_triggered := drawdown_analysis_triggered st;
     extreme_protection := extreme_protection st;
     api_log := api_log st |}.

Definition set_drawdown (st : Engine) (peak max_dd : Q) (triggered : bool)
  : Engine :=
  {| current_position := current_position st;
     current_symbol := current_symbol st; entry_price := entry_price st;
     pending_limit_orders := pending_limit_orders st;
     position_entry_time := position_entry_time st;
     position_entry_reason := position_entry_reason st;
     current_trade_id := current_trade_id st;
     total_trades := total_trades st;
     successful_trades := successful_trades st;
     failed_trades := failed_trades st;
     trailing_stop_updates := trailing_stop_updates st;
     last_trailing_stop_check := last_trailing_stop_check st;
     peak_balance := peak;
     max_drawdown_pct := max_dd;
     drawdown_analysis_triggered := triggered;
     extreme_protection := extreme_protection st;
     api_log := api_log st |}.

Definition set_protection (st : Engine) (p : ExtremeMarketProtection)
  : Engine :=
  {| current_position := current_position st;
     current_symbol := current_symbol st; entry_price := entry_price st;
     pending_limit_orders := pending_limit_orders st;
     position_entry_time := position_entry_time st;
     position_entry_reason := position_entry_reason st;
     current_trade_id := current_trade_id st;
     total_trades := total_trades st;
     successful_trades := successful_trades st;
     failed_trades := failed_trades st;
     trailing_stop_updates := trailing_stop_updates st;
     last_trailing_stop_check := last_trailing_stop_check st;
     peak_balance := peak_balance st;
     max_drawdown_pct := max_drawdown_pct st;
     drawdown_analysis_triggered := drawdown_analysis_triggered st;
     extreme_protection := p;
     api_log := api_log st |}.

(** A request goes out to the exchange. *)
Definition send (st : Engine) (r : ApiRequest) : Engine :=
  {| current_position := current_position st;
     current_symbol := current_symbol st; entry_price := entry_price st;
     pending_limit_orders := pending_limit_orders st;
     position_entry_time := position_entry_time st;
     position_entry_reason := position_entry_reason st;
     current_trade_id := current_trade_id st;
     total_trades := total_trades st;
     successful_trades := successful_trades st;
     failed_trades := failed_trades st;
     trailing_stop_updates := trailing_stop_updates st;
     last_trailing_stop_check := last_trailing_stop_check st;
     peak_balance := peak_balance st;
     max_drawdown_pct := max_drawdown_pct st;
     drawdown_analysis_triggered := drawdown_analysis_triggered st;
     extreme_protection := extreme_protection st;
     api_log := api_log st ++ [r] |}.

Definition count_success (st : Engine) : Engine :=
  set_counters st (S (total_trades st)) (S (successful_trades st))
    (failed_trades st).
Definition count_failure (st : Engine) : Engine :=
  set_counters st (total_trades st) (successful_trades st)
    (S (failed_trades st)).

(** ** Exchange answers *)

(** A row of [api.get_positions(...)], fields already read with [float]. *)
Record PositionRow := {
  pr_symbol : string;
  pr_side : string;
  pr_size : Q;
  pr_avg_price : Q;
  pr_stop_loss : Q
}.

(** [if positions:] — neither [None] nor an empty list. *)
Definition nonempty {A} (o : option (list A)) : bool :=
  match o with
  | Some (_ :: _) => true
  | _ => false
  end.

(** What [_get_position_info] reads: the position list and the USDT wallet
    balance ([0] when the wallet cannot be read). *)
Record InfoAnswers := {
  ia_positions : option (list PositionRow);
  ia_balance : Q
}.

(** [_get_position_info]: returns the balance entry of [position_info] and
    mirrors the first row with a positive size into the engine. *)
Definition _get_position_info (st : Engine) (a : InfoAnswers) : Engine * Q :=
  let balance := ia_balance a in
  if nonempty (ia_positions a) then
    match List.find (fun pos => Qgtb (pr_size pos) 0)
            (get (ia_positions a) []) with
    | Some pos =>
        (set_position st (Some (pr_side pos))
           (Some (pr_symbol pos +:+ "_PERPETUAL")) (pr_avg_price pos),
         balance)
    | None => (st, balance)
    end
  else (set_position st None None 0, balance).

(** ** Opening *)

Record OpenAnswers := {
  oa_ticker : option Q;          (* [lastPrice] of [get_ticker], if any *)
  oa_info : InfoAnswers;
  oa_order_id : option string;   (* answer of [place_order] *)
  oa_create_time : Q;            (* [time.time()] when a limit order is tracked *)
  oa_entry_time : Q;             (* [time.time()] when the entry is recorded *)
  oa_trade_id : option string    (* answer of the trade journal *)
}.

(** The sizing lines of [_open_position]: [position_value] and [qty] before
    step rounding; [None] is the [ZeroDivisionError] of a zero price. *)
Definition open_sizing (balance position_size_pct leverage current_price : Q)
  : option (Q * Q) :=
  let position_value := balance * position_size_pct * leverage in
  if Qeqb current_price 0 then None
  else Some (position_value, position_value / current_price).

(** The order price and type [_open_position] settles on. *)
Definition open_order_price (order_type : string) (entry_price current_price : Q)
  : Q * string :=
  if String.eqb order_type "Market" || Qeqb entry_price 0
  then (current_price, "Market")
  else (entry_price, "Limit").

Definition opt_bind {A B} (o : option A) (f : A -> option B) : option B :=
  match o with Some a => f a | None => None end.

(** The [order_params] of [_open_position]; [None] when formatting a price
    raises. *)
Definition open_order_request (rules : gmap string Rules)
    (bybit_symbol side order_type : string) (qty order_price stop_loss : Q)
    (take_profit : list Q) : option ApiRequest :=
  let price :=
    if String.eqb order_type "Limit"
    then option_map Some (_format_price rules bybit_symbol order_price)
    else Some None in
  let sl :=
    if Qgtb stop_loss 0
    then option_map Some (_format_price rules bybit_symbol stop_loss)
    else Some None in
  let tp :=
    match first_target take_profit with
    | Some tp0 =>
        if Qgtb tp0 0
        then option_map Some (_format_price rules bybit_symbol tp0)
        else Some None
    | None => Some None
    end in
  opt_bind price (fun price =>
  opt_bind sl (fun sl =>
  opt_bind tp (fun tp =>
  Some (PlaceOrder bybit_symbol side order_type qty price false sl tp)))).

Definition _open_position (cfg : Config) (st : Engine) (a : OpenAnswers)
    (action symbol : string) (position_size_pct leverage : Q)
    (reason order_type : string) (entry_price stop_loss : Q)
    (take_profit : list Q) (market_data : MarketData) (decision : Decision)
  : Engine :=
  let bybit_symbol := bybit_symbol_of symbol in
  match oa_ticker a with
  | None => st
  | Some current_price =>
      let '(st, balance) := _get_position_info st (oa_info a) in
      if Qltb balance (min_balance cfg) then st
      else
        match open_sizing balance position_size_pct leverage current_price with
        | None => count_failure st
        | Some (position_value, qty) =>
            match _format_quantity (trading_rules cfg) bybit_symbol qty with
            | None => count_failure st
            | Some qty =>
                match _validate_order (trading_rules cfg) bybit_symbol qty
                        current_price with
                | OrderValid =>
                    let side :=
                      if String.eqb action "LONG" then "Buy" else "Sell" in
                    let '(order_price, order_type) :=
                      open_order_price order_type entry_price current_price in
                    match _validate_stop_loss_take_profit action order_price
                            stop_loss take_profit with
                    | StopValid =>
                        match open_order_request (trading_rules cfg)
                                bybit_symbol side order_type qty order_price
                                stop_loss take_profit with
                        | None => count_failure st
                        | Some request =>
                            let st := send st request in
                            if truthy (oa_order_id a) then
                              let order_id := get (oa_order_id a) "" in
                              let st := count_success st in
                              let st :=
                                if String.eqb order_type "Limit" then
                                  set_pending st
                                    (<[order_id :=
                                        {| oi_symbol := bybit_symbol;
                                           oi_create_time := oa_create_time a;
                                           oi_side := side;
                                           oi_price := order_price;
                                           oi_qty := qty;
                                           oi_order_type := order_type;
                                           oi_decision := decision;
                                           oi_market_data := market_data;
                                           oi_ai_symbol := symbol |}]>
                                       (pending_limit_orders st))
                                else st in
                              let st :=
                                set_position st (Some side) (Some symbol)
                                  order_price in
                              set_entry_record st (Some (oa_entry_time a)) reason
                                (oa_trade_id a)
                            else count_failure st
                        end
                    | StopCheckRaised => count_failure st
                    | _ => st
                    end
                | _ => st
                end
            end
        end
  end.

(** ** Closing *)

(** [_check_drawdown_after_close]: the engine fields it writes and whether
    it asked for the drawdown review. *)
Definition _check_drawdown_after_close (st : Engine) (current_balance : Q)
  : Engine * bool :=
  if Qgtb current_balance (peak_balance st)
  then (set_drawdown st current_balance (max_drawdown_pct st) false, false)
  else if Qgtb (peak_balance st) 0 then
    let current_drawdown :=
      (peak_balance st - current_balance) / peak_balance st * 100 in
    let max_dd :=
      if Qgtb current_drawdown (max_drawdown_pct st) then current_drawdown
      else max_drawdown_pct st in
    if Qgeb current_drawdown 10 && negb (drawdown_analysis_triggered st)
    then (set_drawdown st (peak_balance st) max_dd true, true)
    else (set_drawdown st (peak_balance st) max_dd
            (drawdown_analysis_triggered st), false)
  else (st, false).

(** [_check_drawdown_and_analyze], the loop's own drawdown check. *)
Definition _check_drawdown_and_analyze (st : Engine) (current_balance : Q)
  : Engine :=
  let st :=
    if Qgtb current_balance (peak_balance st)
    then set_drawdown st current_balance (max_drawdown_pct st) false
    else st in
  if Qgtb (peak_balance st) 0 then
    let current_drawdown :=
      (peak_balance st - current_balance) / peak_balance st * 100 in
    let max_dd :=
      if Qgtb current_drawdown (max_drawdown_pct st) then current_drawdown
      else max_drawdown_pct st in
    if Qgeb current_drawdown 10 && negb (drawdown_analysis_triggered st)
    then set_drawdown st (peak_balance st) max_dd true
    else set_drawdown st (peak_balance st) max_dd
           (drawdown_analysis_triggered st)
  else st.

(** How the bookkeeping between an accepted close and the clearing of the
    position ends.  It reads the fill price ([get_order_history],
    [float(avgPrice)], [get_ticker], [float(lastPrice)]), works out the
    profit and writes the journal before the balance is refreshed, and it
    reads the candles after the close and writes them to the journal
    after the drawdown check.  Any of these may raise; the [except] of
    [_close_position] then counts a failure and returns, and the lines
    that clear the position are not reached.  In between,
    [_get_position_info], [_get_post_close_klines] and
    [_trigger_drawdown_analysis] catch what they raise. *)
Inductive CloseBookkeeping :=
| BookkeepingDone
| RaisedBeforeRefresh
| RaisedAfterDrawdownCheck.

Record CloseAnswers := {
  ca_positions : option (list PositionRow);  (* [get_positions(symbol)] *)
  ca_order_id : option string;               (* answer of [place_order] *)
  ca_bookkeeping : CloseBookkeeping;
  ca_info : InfoAnswers                      (* [_get_position_info] after the fill *)
}.

(** [_close_position].  The close price, the profit and the candles read
    after the close go to the trade journal only and are left out, apart
    from the exception they may end in; the [reason] goes to the journal
    and the log. *)
Definition _close_position (st : Engine) (a : CloseAnswers) (reason : string)
  : Engine :=
  if negb (truthy (current_position st)) || negb (truthy (current_symbol st))
  then st
  else
    let bybit_symbol := bybit_symbol_of (get (current_symbol st) "") in
    match ca_positions a with
    | Some (pos :: _) =>
        let qty := pr_size pos in
        if Qeqb qty 0
        then set_position st None None (entry_price st)
        else
          let side :=
            if String.eqb (get (current_position st) "") "Buy"
            then "Sell" else "Buy" in
          let st :=
            send st (PlaceOrder bybit_symbol side "Market" qty None true
                       None None) in
          if truthy (ca_order_id a) then
            let st := count_success st in
            match ca_bookkeeping a with
            | RaisedBeforeRefresh => count_failure st
            | _ =>
                let '(st, balance) := _get_position_info st (ca_info a) in
                let '(st, _) := _check_drawdown_after_close st balance in
                match ca_bookkeeping a with
                | RaisedAfterDrawdownCheck => count_failure st
                | _ =>
                    let st := set_position st None None 0 in
                    set_entry_record st None "" None
                end
            end
          else count_failure st
    | _ => set_position st None None (entry_price st)
    end.

(** ** Executing a decision *)

Record ExecAnswers := {
  xa_close : CloseAnswers;
  xa_open : OpenAnswers
}.

(** How a call ends: normally, or with an exception leaving the method. *)
Inductive Outcome :=
| Returned (st : Engine)
| Raised (st : Engine).

Definition outcome_state (o : Outcome) : Engine :=
  match o with Returned st | Raised st => st end.

(** The clamps at the head of [_execute_decision]. *)
Definition clamp_position_size (cfg : Config) (decision : Decision) : Q :=
  let min_position_pct := get (cfg_min_position_pct cfg) 0.03 in
  let raw_position_size := get (d_position_size decision) 0.15 in
  py_min (py_max raw_position_size min_position_pct) (max_position_pct cfg).

Definition clamp_leverage (cfg : Config) (decision : Decision) : Q :=
  let max_leverage := get (cfg_max_leverage cfg) 15 in
  let raw_leverage := get (d_leverage decision) 15 in
  py_min (py_max raw_leverage 1) max_leverage.

(** The duplicate-order scan over [self.pending_limit_orders.items()]. *)
Definition has_pending_order (pending : gmap string OrderInfo)
    (bybit_symbol target_side : string) : bool :=
  existsb (fun item =>
             String.eqb (oi_symbol (snd item)) bybit_symbol
             && String.eqb (oi_side (snd item)) target_side)
    (map_to_list pending).

Definition need_switch (st : Engine) (action target_symbol : string) : bool :=
  let same := bool_decide (current_symbol st = Some target_symbol) in
  negb same
  || (same
      && ((String.eqb action "LONG"
           && String.eqb (get (current_position st) "") "Short")
          || (String.eqb action "SHORT"
              && String.eqb (get (current_position st) "") "Buy"))).

Definition _execute_decision (cfg : Config) (st : Engine) (a : ExecAnswers)
    (decision : Decision) (all_market_data : gmap string MarketData)
  : Outcome :=
  let action := get (d_action decision) "HOLD" in
  let position_size_pct := clamp_position_size cfg decision in
  let leverage := clamp_leverage cfg decision in
  if String.eqb action "HOLD" then Returned st
  else if String.eqb action "CLOSE" then
    if truthy (current_position st)
    then Returned (_close_position st (xa_close a) "AI主动平仓")
    else Returned st
  else if String.eqb action "LONG" || String.eqb action "SHORT" then
    match d_target_symbol decision with
    | None => Raised st
    | Some target_symbol =>
        let bybit_symbol := bybit_symbol_of target_symbol in
        let target_side := if String.eqb action "LONG" then "Buy" else "Sell" in
        if has_pending_order (pending_limit_orders st) bybit_symbol target_side
        then Returned st
        else
          let st :=
            if truthy (current_position st)
               && need_switch st action target_symbol
            then _close_position st (xa_close a) "换仓"
            else st in
          Returned
            (_open_position cfg st (xa_open a) action target_symbol
               position_size_pct leverage
               (get (d_reason decision) "")
               (get (d_order_type decision) "Market")
               (get (d_entry_price decision) 0)
               (get (d_stop_loss decision) 0)
               (get (d_take_profit decision) [])
               (get (all_market_data !! target_symbol) empty_market_data)
               decision)
    end
  else Returned st.

(** ** Trailing stop *)

(** One data frame of [get_realtime_data]: [len(df)] and the last [atr]
    ([None] for NaN). *)
Record AtrFrame := {
  af_len : nat;
  af_atr : option Q
}.

Record TrailMarket := {
  tm_15m : option AtrFrame;
  tm_1h : option AtrFrame
}.

Record TrailAnswers := {
  ta_now : Q;                                (* [time.time()] *)
  ta_positions : option (list PositionRow);  (* [get_positions(symbol)] *)
  ta_ticker : option Q;                      (* [lastPrice] *)
  ta_market : option TrailMarket;            (* [get_realtime_data] *)
  ta_set_ok : bool                           (* answer of [set_trading_stop] *)
}.

(** The frame the ATR is read from: 15m when it has 14 rows, else 1h. *)
Definition trailing_atr (market_data : TrailMarket) : option (option Q) :=
  let usable (f : option AtrFrame) :=
    match f with
    | Some f => if Nat.ltb (af_len f) 14 then None else Some (af_atr f)
    | None => None
    end in
  match usable (tm_15m market_data) with
  | Some atr => Some atr
  | None => usable (tm_1h market_data)
  end.

(** The [if side == "Buy" ... elif side == "Sell" ...] block: the new stop
    when [should_update] is set. *)
Definition trailing_candidate (cfg : Config) (side : string)
    (entry_price current_stop_loss current_price atr : Q) : option Q :=
  let trailing_distance := atr * trailing_stop_distance_multiplier cfg in
  let trigger_distance := atr * trailing_stop_trigger_multiplier cfg in
  if String.eqb side "Buy" then
    let profit := current_price - entry_price in
    if Qgeb profit trigger_distance then
      let potential_stop := current_price - trailing_distance in
      if Qgtb current_stop_loss 0 then
        if Qgtb potential_stop current_stop_loss then Some potential_stop
        else None
      else Some (py_max potential_stop entry_price)
    else None
  else if String.eqb side "Sell" then
    let profit := entry_price - current_price in
    if Qgeb profit trigger_distance then
      let potential_stop := current_price + trailing_distance in
      if Qgtb current_stop_loss 0 then
        if Qltb potential_stop current_stop_loss then Some potential_stop
        else None
      else Some (py_min potential_stop entry_price)
    else None
  else None.

Definition _check_and_update_trailing_stop (cfg : Config) (st : Engine)
    (a : TrailAnswers) : Engine :=
  if negb (use_trailing_stop cfg) then st
  else
    let current_time := ta_now a in
    if Qltb (current_time - last_trailing_stop_check st)
         (trailing_stop_check_interval cfg)
    then st
    else
      let st := set_trailing st (trailing_stop_updates st) current_time in
      if negb (truthy (current_position st))
         || negb (truthy (current_symbol st))
      then st
      else
        let bybit_symbol := bybit_symbol_of (get (current_symbol st) "") in
        match ta_positions a with
        | Some (position :: _) =>
            let side := pr_side position in
            if Qeqb (pr_size position) 0 then st
            else
              let entry_price := pr_avg_price position in
              let current_stop_loss := pr_stop_loss position in
              match ta_ticker a with
              | None => st
              | Some current_price =>
                  match opt_bind (ta_market a) trailing_atr with
                  | Some (Some atr) =>
                      if Qeqb atr 0 then st
                      else
                        match trailing_candidate cfg side entry_price
                                current_stop_loss current_price atr with
                        | Some new_stop_loss =>
                            if Qgtb new_stop_loss 0 then
                              match _format_price (trading_rules cfg)
                                      bybit_symbol new_stop_loss with
                              | Some formatted_stop =>
                                  let st :=
                                    send st (SetTradingStop bybit_symbol
                                               formatted_stop) in
                                  if ta_set_ok a
                                  then set_trailing st
                                         (S (trailing_stop_updates st))
                                         (last_trailing_stop_check st)
                                  else st
                              | None => st
                              end
                            else st
                        | None => st
                        end
                  | _ => st
                  end
              end
        | _ => st
        end.

(** ** Pending limit orders *)

(** A row of [get_open_orders]. *)
Record OpenOrder := {
  oo_order_id : string;
  oo_status : option string
}.

Definition _get_order_status (orders : option (list OpenOrder))
    (order_id : string) : option string :=
  match List.find (fun order => String.eqb (oo_order_id order) order_id)
          (get orders []) with
  | Some order => oo_status order
  | None => Some "Filled"
  end.

Record ModifyAnswers := {
  ma_ticker : option Q;                    (* [lastPrice] *)
  ma_cancel_ok : bool;                     (* answer of [cancel_order] *)
  ma_orders : option (list OpenOrder);     (* open orders after a failed cancel *)
  ma_new_order_id : option string;         (* answer of [place_order] *)
  ma_now : Q                               (* [time.time()] at re-submission *)
}.

(** Truthiness of an optional number: [None] and [0] are false. *)
Definition truthy_num (o : option Q) : bool :=
  match o with
  | Some q => negb (Qeqb q 0)
  | None => false
  end.

Definition with_price_time (info : OrderInfo) (price time : Q) : OrderInfo :=
  {| oi_symbol := oi_symbol info; oi_create_time := time;
     oi_side := oi_side info; oi_price := price; oi_qty := oi_qty info;
     oi_order_type := oi_order_type info; oi_decision := oi_decision info;
     oi_market_data := oi_market_data info;
     oi_ai_symbol := oi_ai_symbol info |}.

(** [_modify_limit_order_price]: the state and the returned new price. *)
Definition _modify_limit_order_price (cfg : Config) (st : Engine)
    (a : ModifyAnswers) (order_id : string) (order_info : OrderInfo)
    (suggested_price : option Q) : Engine * option Q :=
  match ma_ticker a with
  | None => (st, None)
  | Some current_price =>
      let side := oi_side order_info in
      let new_price :=
        if truthy_num suggested_price then get suggested_price 0
        else if String.eqb side "Buy" then current_price * 0.98
        else current_price * 1.02 in
      match _format_price (trading_rules cfg) (oi_symbol order_info)
              new_price with
      | None => (st, None)
      | Some new_price_str =>
          let st := send st (CancelOrder (oi_symbol order_info) order_id) in
          if negb (ma_cancel_ok a)
             && bool_decide (_get_order_status (ma_orders a) order_id
                             = Some "Filled")
          then (st, None)
          else
            let original_decision := oi_decision order_info in
            let sl :=
              if truthy_num (d_stop_loss original_decision)
              then option_map Some
                     (_format_price (trading_rules cfg) (oi_symbol order_info)
                        (get (d_stop_loss original_decision) 0))
              else Some None in
            let tp :=
              match first_target (get (d_take_profit original_decision) []) with
              | Some tp0 =>
                  option_map Some
                    (_format_price (trading_rules cfg) (oi_symbol order_info)
                       tp0)
              | None => Some None
              end in
            match sl, tp with
            | Some sl, Some tp =>
                let st :=
                  send st (PlaceOrder (oi_symbol order_info)
                             (oi_side order_info) "Limit" (oi_qty order_info)
                             (Some new_price_str) false sl tp) in
                if truthy (ma_new_order_id a) then
                  let new_order_id := get (ma_new_order_id a) "" in
                  let pending := delete order_id (pending_limit_orders st) in
                  let new_order_info :=
                    with_price_time order_info new_price (ma_now a) in
                  (set_pending st (<[new_order_id := new_order_info]> pending),
                   Some new_price)
                else (st, None)
            | _, _ => (st, None)
            end
      end
  end.

(** [_cancel_and_place_market_order] *)
Definition _cancel_and_place_market_order (st : Engine) (cancel_ok : bool)
    (order_id : string) (order_info : OrderInfo) : Engine :=
  let st := send st (CancelOrder (oi_symbol order_info) order_id) in
  if negb cancel_ok then st
  else
    send st (PlaceOrder (oi_symbol order_info) (oi_side order_info) "Market"
               (oi_qty order_info) None false None None).

(** What one round of the loop of [_check_pending_limit_orders] is told. *)
Record PendingAnswers := {
  pa_orders : option (list OpenOrder);   (* [get_open_orders(symbol)] *)
  pa_ai_action : option string;          (* ['action'] of the policy's answer *)
  pa_new_price : option Q;               (* ['new_price'] of the policy's answer *)
  pa_modify : ModifyAnswers;
  pa_cancel_ok : bool                    (* [cancel_order] in [cancel_and_market] *)
}.

Definition is_closed_status (s : string) : bool :=
  String.eqb s "Filled" || String.eqb s "Cancelled" || String.eqb s "Rejected".
Definition is_open_status (s : string) : bool :=
  String.eqb s "New" || String.eqb s "PartiallyFilled".

(** The loop body of [_check_pending_limit_orders] for one snapshot item;
    the second component is [orders_to_remove].  After a [modify] the code
    writes the new price and time into the old entry, which is no longer
    in the dict: that write does not reach the state. *)
Definition check_one_order (cfg : Config) (current_time : Q)
    (a : PendingAnswers) (acc : Engine * list string)
    (item : string * OrderInfo) : Engine * list string :=
  let '(st, orders_to_remove) := acc in
  let '(order_id, order_info) := item in
  let wait_time := current_time - oi_create_time order_info in
  match _get_order_status (pa_orders a) order_id with
  | None => acc
  | Some order_status =>
      if is_closed_status order_status
      then (st, orders_to_remove ++ [order_id])
      else if Qgeb wait_time (limit_order_timeout cfg)
              && is_open_status order_status then
        let ai_action := get (pa_ai_action a) "continue_wait" in
        if String.eqb ai_action "cancel_and_market" then
          (_cancel_and_place_market_order st (pa_cancel_ok a) order_id
             order_info,
           orders_to_remove ++ [order_id])
        else if String.eqb ai_action "modify" then
          (fst (_modify_limit_order_price cfg st (pa_modify a) order_id
                  order_info (pa_new_price a)),
           orders_to_remove)
        else if String.eqb ai_action "cancel" then
          (send st (CancelOrder (oi_symbol order_info) order_id),
           orders_to_remove ++ [order_id])
        else acc
      else acc
  end.

Definition _check_pending_limit_orders (cfg : Config) (st : Engine)
    (current_time : Q) (answers : string -> PendingAnswers) : Engine :=
  let '(st, orders_to_remove) :=
    fold_left (fun acc item =>
                 check_one_order cfg current_time (answers (fst item)) acc item)
      (map_to_list (pending_limit_orders st)) (st, []) in
  set_pending st
    (fold_left (fun p order_id => delete order_id p) orders_to_remove
       (pending_limit_orders st)).

(** ** One iteration of [_trading_loop] *)

Record LoopAnswers := {
  la_time : Q;                               (* [time.time()] of the order check *)
  la_pending : string -> PendingAnswers;
  la_market : gmap string MarketData;        (* the symbols whose data came *)
  la_info : InfoAnswers;
  la_timestamp : Q;                          (* [datetime.now()] *)
  la_now_minute : nat;
  la_emergency : CloseAnswers;
  la_decision : Decision;                    (* the policy's decision *)
  la_exec : ExecAnswers;
  la_trail : TrailAnswers
}.

(** How the iteration goes on. *)
Inductive LoopStep :=
| NoMarketData           (* sleep one interval, next iteration *)
| ProtectionPause (reasons : list Reason)   (* sleep 600 s, next iteration *)
| DecisionExecuted       (* the decision was run; sleep one interval *)
| IterationRaised.       (* exception caught by the loop; sleep 60 s *)

Definition trading_loop_iteration (cfg : Config) (st : Engine)
    (a : LoopAnswers) : Engine * LoopStep :=
  let st := _check_pending_limit_orders cfg st (la_time a) (la_pending a) in
  let all_market_data := la_market a in
  if bool_decide (all_market_data = ∅) then (st, NoMarketData)
  else
    let '(st, current_balance) := _get_position_info st (la_info a) in
    let st :=
      if Qgtb current_balance 0
      then _check_drawdown_and_analyze st current_balance else st in
    let '(protection, (should_protect, reasons)) :=
      comprehensive_check (extreme_protection st) (la_now_minute a)
        all_market_data current_balance (la_timestamp a)
        (bool_decide (current_position st <> None)) (current_symbol st) in
    let st := set_protection st protection in
    if should_protect then
      let st :=
        if truthy (current_position st)
        then _close_position st (la_emergency a) "极端行情保护"
        else st in
      (st, ProtectionPause reasons)
    else
      match _execute_decision cfg st (la_exec a) (la_decision a)
              all_market_data with
      | Raised st => (st, IterationRaised)
      | Returned st =>
          let st :=
            if truthy (current_position st)
            then _check_and_update_trailing_stop cfg st (la_trail a)
            else st in
          (st, DecisionExecuted)
      end.

(** ** BybitAPIClient: clock, response codes and order parameters *)

(** The fields of the client the requests read. *)
Record BybitAPIClient := {
  recv_window : Z;
  time_offset : Z      (* server time minus local time, in milliseconds *)
}.

(** [__init__] before its call of [_sync_server_time]. *)
Definition new_client : BybitAPIClient :=
  {| recv_window := 5000; time_offset := 0 |}.

(** The answer of [/v5/market/time]: the HTTP status, [retCode], and
    [result.timeSecond] read with [int] ([None] when the key is missing
    or is not a number, which raises inside the [try]). *)
Record TimeResponse := {
  tr_status_code : Z;
  tr_retCode : option Z;
  tr_timeSecond : option Z
}.

(** [_sync_server_time]; [response] is [None] when [requests.get] raises,
    [now] is the [time.time()] read after the answer. *)
Definition _sync_server_time (self : BybitAPIClient)
    (response : option TimeResponse) (now : Q) : BybitAPIClient :=
  match response with
  | None => self
  | Some response =>
      if Z.eqb (tr_status_code response) 200 then
        if bool_decide (tr_retCode response = Some 0%Z) then
          match tr_timeSecond response with
          | Some seconds =>
              let server_time := (seconds * 1000)%Z in
              let local_time := py_int (now * 1000) in
              {| recv_window := recv_window self;
                 time_offset := (server_time - local_time)%Z |}
          | None => self
          end
        else self
      else self
  end.

(** [_get_timestamp]: the integer whose [str] is returned. *)
Definition _get_timestamp (self : BybitAPIClient) (now : Q) : Z :=
  (py_int (now * 1000) + time_offset self)%Z.

(** The JSON body of an answer: [retCode], [retMsg] and the [result]
    entry ([None] when it is missing or empty). *)
Record ApiResult (R : Type) := {
  js_retCode : option Z;
  js_retMsg : option string;
  js_result : option R
}.
Arguments js_retCode {R} _.
Arguments js_retMsg {R} _.
Arguments js_result {R} _.

(** What the HTTP layer hands to [_send_request]: an exception (timeout,
    HTTP status, network, JSON decoding), or the decoded body. *)
Inductive HttpOutcome (R : Type) :=
| HttpRaised
| HttpJson (result : ApiResult R).
Arguments HttpRaised {R}.
Arguments HttpJson {R} _.

(** [needle in hay]. *)
Definition str_in (needle hay : string) : bool :=
  match String.index 0 needle hay with Some _ => true | None => false end.

(** [_send_request] from the answer on: the result it returns. *)
Definition _send_request {R} (answer : HttpOutcome R) : option (ApiResult R) :=
  match answer with
  | HttpRaised => None
  | HttpJson result =>
      if negb (bool_decide (js_retCode result = Some 0%Z)) then
        let ret_code := js_retCode result in
        let ret_msg := get (js_retMsg result) "Unknown error" in
        if bool_decide (ret_code = Some 10002%Z) then None
        else if bool_decide (ret_code = Some 10003%Z) then None
        else if bool_decide (ret_code = Some 10004%Z) then None
        else if bool_decide (ret_code = Some 10006%Z) then None
        else if bool_decide (ret_code = Some 110043%Z) then Some result
        else if bool_decide (ret_code = Some 10001%Z)
                && str_in "zero position" ret_msg then None
        else None
      else Some result
  end.

(** [cancel_order] and [set_leverage]: [result is not None]. *)
Definition cancel_order {R} (answer : HttpOutcome R) : bool :=
  bool_decide (_send_request answer <> None).
Definition set_leverage {R} (answer : HttpOutcome R) : bool :=
  bool_decide (_send_request answer <> None).

(** [set_trading_stop]: whether a request was posted, and the answer. *)
Definition set_trading_stop {R} (stop_loss take_profit : option string)
    (answer : HttpOutcome R) : bool * bool :=
  if negb (truthy stop_loss) && negb (truthy take_profit) then (false, false)
  else (true, bool_decide (_send_request answer <> None)).

(** The parameters [place_order] posts besides the category and the
    position index; a flag is set when its key is present. *)
Record OrderParams := {
  op_symbol : string;
  op_side : string;
  op_orderType : string;
  op_qty : string;
  op_price : option string;
  op_timeInForce : option string;
  op_reduceOnly : bool;
  op_closeOnTrigger : bool;
  op_stopLoss : option string;
  op_takeProfit : option string
}.

(** The [params] of [place_order]; [None] when it returns before posting. *)
Definition place_order_params (symbol side order_type qty : string)
    (price : option string) (time_in_force : string)
    (reduce_only close_on_trigger : bool)
    (stop_loss take_profit : option string) : option OrderParams :=
  if String.eqb order_type "Limit" && negb (truthy price) then None
  else
    let limit := String.eqb order_type "Limit" in
    let time_in_force_key :=
      if String.eqb order_type "Market" && reduce_only
      then (if limit then Some time_in_force else None)
      else if String.eqb order_type "Market" then Some "IOC"
      else (if limit then Some time_in_force else None) in
    Some {| op_symbol := symbol; op_side := side; op_orderType := order_type;
            op_qty := qty;
            op_price := if limit then price else None;
            op_timeInForce := time_in_force_key;
            op_reduceOnly := reduce_only;
            op_closeOnTrigger := close_on_trigger;
            op_stopLoss := if truthy stop_loss then stop_loss else None;
            op_takeProfit := if truthy take_profit then take_profit
                             else None |}.

(** [place_order]: what was posted and the order id returned; the
    [result] entry of the answer carries [orderId]. *)
Definition place_order (symbol side order_type qty : string)
    (price : option string) (time_in_force : string)
    (reduce_only close_on_trigger : bool)
    (stop_loss take_profit : option string)
    (answer : HttpOutcome (option string))
  : option OrderParams * option string :=
  match place_order_params symbol side order_type qty price time_in_force
          reduce_only close_on_trigger stop_loss take_profit with
  | None => (None, None)
  | Some params =>
      (Some params,
       match _send_request answer with
       | Some result =>
           match js_result result with
           | Some order_id => order_id
           | None => None
           end
       | None => None
       end)
  end.

(** ** Restatements used by the theorems *)

(** The two [if] lines that bound a formatted value. *)
Definition py_clamp (lo hi v : Q) : Q :=
  let v := if Qltb v lo then lo else v in
  if Qgtb v hi then hi else v.

(** The step-rounding block shared by [_format_quantity] and
    [_format_price], before the bounds are applied. *)
Definition step_round (step x : Q) : option Q :=
  if Qgeb step 1 then Some (inject_Z (py_int (x / step)) * step)
  else if Qeqb step 0 then None
  else Some (py_round_nd (inject_Z (py_round (x / step)) * step)
               (str_decimals step)).

(** The bounded step rounding both formatters reduce to. *)
Definition bounded_round (step lo hi x : Q) : option Q :=
  option_map (py_clamp lo hi) (step_round step x).

(** [x] is a whole number of steps. *)
Definition is_multiple (step x : Q) : bool :=
  Qeqb (inject_Z (Qfloor (x / step)) * step) x.

(** The digit count read off [str(step)] is the real number of decimals of
    [step]: rounding to that many digits keeps every multiple of the
    step.  It holds for steps printed positionally (0.1, 0.01, 0.001, 0.5)
    and fails for most steps printed in scientific notation. *)
Definition decimals_exact (step : Q) : bool :=
  Qgeb step 1 || is_multiple (1 / pow10 (str_decimals step)) step.

(** Rules a formatter can keep its promises on: positive step with exact
    digit count, ordered bounds that are whole numbers of steps. *)
Definition grid_ok (step lo hi : Q) : bool :=
  Qgtb step 0 && decimals_exact step && Qleb lo hi
  && is_multiple step lo && is_multiple step hi.

(** The spec's clamp: the value, or the bound it passes. *)
Definition spec_clamp (x lo hi : Q) : Q :=
  if Qltb x lo then lo else if Qgtb x hi then hi else x.

(** The stop distance [_validate_stop_loss_take_profit] measures, in
    percent of the order price. *)
Definition stop_distance_pct (price stop : Q) : Q :=
  Qabs (price - stop) / price * 100.

(** A positive stop on the wrong side of the order price, or nearer than
    0.3% or farther than 20%. *)
Definition bad_stop (action : string) (price stop : Q) : Prop :=
  0 < stop
  /\ ((action = "LONG"
       /\ (price <= stop \/ stop_distance_pct price stop < 0.3
           \/ 20 < stop_distance_pct price stop))
      \/ (action = "SHORT"
          /\ (stop <= price \/ stop_distance_pct price stop < 0.3
              \/ 20 < stop_distance_pct price stop))).

(** The engine's view of its position. *)
Definition position_fields (st : Engine) : option string * option string * Q :=
  (current_position st, current_symbol st, entry_price st).

(** A request that opens or adds to a position: an order that is not
    reduce-only. *)
Definition is_opening (r : ApiRequest) : bool :=
  match r with
  | PlaceOrder _ _ _ _ _ reduce_only _ _ => negb reduce_only
  | _ => false
  end.

Definition request_qty (r : ApiRequest) : option Q :=
  match r with
  | PlaceOrder _ _ _ qty _ _ _ _ => Some qty
  | _ => None
  end.

(** The spec's test on a tracked symbol: its latest 15m candle opened
    above zero and fell by more than 5% from open to close. *)
Definition drop_over_5pct (market_data : MarketData) : bool :=
  let candle := get (md_15m market_data) empty_candle in
  let o := get (c_open candle) 0 in
  let c := get (c_close candle) 0 in
  Qgtb o 0 && Qgtb ((o - c) / o) (5 / 100).

(** How many tracked symbols pass that test. *)
Definition crashed_symbols (all_market_data : gmap string MarketData) : nat :=
  size (filter (fun kv => drop_over_5pct (snd kv) = true) all_market_data).

(** The market data the held-symbol detectors look at, if they run. *)
Definition held_market_data (all_market_data : gmap string MarketData)
    (has_position : bool) (current_symbol : option string)
  : option MarketData :=
  if has_position && truthy current_symbol
  then all_market_data !! get current_symbol "" else None.

Definition olist {A} (o : option A) : list A :=
  match o with Some a => [a] | None => [] end.

(** One round of the loop of [_check_pending_limit_orders], with the
    answers given for the round's order. *)
Definition pending_round (cfg : Config) (current_time : Q)
    (answers : string -> PendingAnswers) (acc : Engine * list string)
    (item : string * OrderInfo) : Engine * list string :=
  check_one_order cfg current_time (answers (fst item)) acc item.

(** *** A position watched over successive trailing-stop checks

    The exchange holds one position row.  At each check it reports that
    row, a last price and the candles; when the check pushes a stop and
    the exchange accepts it, the row's stop becomes the pushed one. *)

Record TrailObservation := {
  ob_now : Q;
  ob_price : Q;
  ob_market : option TrailMarket;
  ob_accepted : bool
}.

Definition trail_answers (row : PositionRow) (o : TrailObservation)
  : TrailAnswers :=
  {| ta_now := ob_now o; ta_positions := Some [row];
     ta_ticker := Some (ob_price o); ta_market := ob_market o;
     ta_set_ok := ob_accepted o |}.

Definition with_stop (row : PositionRow) (stop : Q) : PositionRow :=
  {| pr_symbol := pr_symbol row; pr_side := pr_side row;
     pr_size := pr_size row; pr_avg_price := pr_avg_price row;
     pr_stop_loss := stop |}.

(** The stop a call pushed to the exchange, read off the request log. *)
Definition pushed_stop (before after : Engine) : option Q :=
  match drop (length (api_log before)) (api_log after) with
  | SetTradingStop _ stop :: _ => Some stop
  | _ => None
  end.

Definition trailing_round (cfg : Config) (acc : Engine * PositionRow)
    (o : TrailObservation) : Engine * PositionRow :=
  let st' := _check_and_update_trailing_stop cfg (fst acc)
               (trail_answers (snd acc) o) in
  let row' :=
    match pushed_stop (fst acc) st' with
    | Some stop => if ob_accepted o then with_stop (snd acc) stop else snd acc
    | None => snd acc
    end in
  (st', row').

(** The stops the exchange holds after each check of a run. *)
Fixpoint trailing_run (cfg : Config) (acc : Engine * PositionRow)
    (obs : list TrailObservation) : list Q :=
  match obs with
  | [] => []
  | o :: rest =>
      let acc' := trailing_round cfg acc o in
      pr_stop_loss (snd acc') :: trailing_run cfg acc' rest
  end.

(** Each element is related to the next. *)
Fixpoint chain (R : Q -> Q -> Prop) (x : Q) (l : list Q) : Prop :=
  match l with
  | [] => True
  | y :: rest => R x y /\ chain R y rest
  end.

(** A price the formatter returns as it is. *)
Definition price_fixed (cfg : Config) (symbol : string) (price : Q) : Prop :=
  exists p, _format_price (trading_rules cfg) symbol price = Some p
            /\ p == price.

(** The state a run keeps: the engine watches a symbol with good rules
    and the exchange holds a positive stop the formatter leaves alone. *)
Definition watched (cfg : Config) (r : Rules) (acc : Engine * PositionRow)
  : Prop :=
  let symbol := bybit_symbol_of (get (current_symbol (fst acc)) "") in
  trading_rules cfg !! symbol = Some r
  /\ grid_ok (tick_size r) (min_price r) (max_price r) = true
  /\ 0 < pr_stop_loss (snd acc)
  /\ price_fixed cfg symbol (pr_stop_loss (snd acc)).

(** ** Sample data for the concrete instances *)

(** Rules of a contract quoted to one decimal and sized in thousandths. *)
Definition btc_rules : Rules :=
  {| qty_step := 0.001; min_order_qty := 0.001; max_order_qty := 100;
     min_order_amt := 0; max_order_amt := 0;
     tick_size := 0.1; min_price := 0.1; max_price := 199999.8;
     status := "Trading"; unified_margin_trade := true |}.

(** Rules of a contract sized in whole units. *)
Definition doge_rules : Rules :=
  {| qty_step := 1; min_order_qty := 1; max_order_qty := 10000;
     min_order_amt := 0; max_order_amt := 0;
     tick_size := 0.00001; min_price := 0.00001; max_price := 199.99998;
     status := "Trading"; unified_margin_trade := true |}.

Definition sample_rules : gmap string Rules :=
  <["DOGEUSDT" := doge_rules]> (<["BTCUSDT" := btc_rules]> ∅).

Definition sample_config : Config := default_config sample_rules.

(** The exchange reports no position and the given balance. *)
Definition flat_info (balance : Q) : InfoAnswers :=
  {| ia_positions := Some []; ia_balance := balance |}.

Definition sample_open_answers : OpenAnswers :=
  {| oa_ticker := Some 50000; oa_info := flat_info 1000;
     oa_order_id := Some "order-1"; oa_create_time := 1700000000;
     oa_entry_time := 1700000000;
     oa_trade_id := Some "trade-1" |}.

Definition sample_close_answers : CloseAnswers :=
  {| ca_positions := None; ca_order_id := None;
     ca_bookkeeping := BookkeepingDone; ca_info := flat_info 1000 |}.

Definition sample_exec_answers : ExecAnswers :=
  {| xa_close := sample_close_answers; xa_open := sample_open_answers |}.

(** LONG, 10% of the balance at 10x, market order. *)
Definition sample_long : Decision :=
  {| d_action := Some "LONG"; d_target_symbol := Some "BTCUSDT_PERPETUAL";
     d_confidence := Some 80; d_position_size := Some 0.10;
     d_leverage := Some 10; d_reason := Some "trend";
     d_order_type := Some "Market"; d_entry_price := None;
     d_stop_loss := None; d_take_profit := None |}.

(** A resting limit buy on BTCUSDT. *)
Definition sample_order_info : OrderInfo :=
  {| oi_symbol := "BTCUSDT"; oi_create_time := 1700000000; oi_side := "Buy";
     oi_price := 49900; oi_qty := 0.02; oi_order_type := "Limit";
     oi_decision := sample_long; oi_market_data := empty_market_data;
     oi_ai_symbol := "BTCUSDT_PERPETUAL" |}.

Definition engine_with_pending : Engine :=
  set_pending initial_engine {["order-1" := sample_order_info]}.

(** A symbol whose 15m candle went from [o] to [c]. *)
Definition candle_data (o c : Q) : MarketData :=
  {| md_15m := Some {| c_open := Some o; c_close := Some c; c_low := Some c;
                       c_volume := Some 1000; c_atr := Some 500 |};
     md_4h := None; md_timestamp := None |}.

(** BTC and ETH fall by 6%, SOL is flat. *)
Definition two_crashing : gmap string MarketData :=
  <["BTCUSDT_PERPETUAL" := candle_data 50000 47000]>
    (<["ETHUSDT_PERPETUAL" := candle_data 3000 2820]>
       (<["SOLUSDT_PERPETUAL" := candle_data 150 150]> ∅)).

(** Only BTC falls by 6%. *)
Definition one_crashing : gmap string MarketData :=
  <["BTCUSDT_PERPETUAL" := candle_data 50000 47000]>
    (<["ETHUSDT_PERPETUAL" := candle_data 3000 3000]>
       (<["SOLUSDT_PERPETUAL" := candle_data 150 150]> ∅)).

(** A quiet market: one symbol, up 0.1%. *)
Definition calm_market : gmap string MarketData :=
  {["BTCUSDT_PERPETUAL" := candle_data 50000 50050]}.

Definition idle_modify_answers : ModifyAnswers :=
  {| ma_ticker := None; ma_cancel_ok := false; ma_orders := None;
     ma_new_order_id := None; ma_now := 1700000000 |}.

Definition idle_pending_answers : PendingAnswers :=
  {| pa_orders := None; pa_ai_action := None; pa_new_price := None;
     pa_modify := idle_modify_answers; pa_cancel_ok := false |}.

Definition idle_trail_answers : TrailAnswers :=
  {| ta_now := 1700000000; ta_positions := None; ta_ticker := None;
     ta_market := None; ta_set_ok := false |}.

(** A policy answer without an action: it reads as HOLD. *)
Definition sample_hold : Decision := empty_decision.

(** The first iteration of the day: balance 1000, a quiet market, HOLD. *)
Definition morning_loop_answers : LoopAnswers :=
  {| la_time := 1700000000;
     la_pending := fun _ => idle_pending_answers;
     la_market := calm_market;
     la_info := flat_info 1000;
     la_timestamp := 1700000000;
     la_now_minute := 13;
     la_emergency := sample_close_answers;
     la_decision := sample_hold;
     la_exec := sample_exec_answers;
     la_trail := idle_trail_answers |}.

(** An iteration one hour later, the same day, with the balance down to
    840, a quiet market and a policy that answers LONG. *)
Definition drawdown_loop_answers : LoopAnswers :=
  {| la_time := 1700003600;
     la_pending := fun _ => idle_pending_answers;
     la_market := calm_market;
     la_info := flat_info 840;
     la_timestamp := 1700003600;
     la_now_minute := 13;
     la_emergency := sample_close_answers;
     la_decision := sample_long;
     la_exec :=
       {| xa_close := sample_close_answers;
          xa_open :=
            {| oa_ticker := Some 50000; oa_info := flat_info 840;
               oa_order_id := Some "order-2";
               oa_create_time := 1700003600;
               oa_entry_time := 1700003600;
               oa_trade_id := Some "trade-2" |} |};
     la_trail := idle_trail_answers |}.

(** The engine after the first iteration of the day. *)
Definition engine_after_morning : Engine :=
  fst (trading_loop_iteration sample_config initial_engine
         morning_loop_answers).

(** The engine holds a long on BTCUSDT opened at 50000. *)
Definition engine_in_long : Engine :=
  set_entry_record
    (set_position initial_engine (Some "Buy") (Some "BTCUSDT_PERPETUAL") 50000)
    (Some 1700000000) "trend" (Some "trade-1").

Definition btc_long_row (stop : Q) : PositionRow :=
  {| pr_symbol := "BTCUSDT"; pr_side := "Buy"; pr_size := 0.02;
     pr_avg_price := 50000; pr_stop_loss := stop |}.

(** The reduce-only close is filled; afterwards the exchange reports no
    position. *)
Definition filled_close_answers : CloseAnswers :=
  {| ca_positions := Some [btc_long_row 49000];
     ca_order_id := Some "close-1";
     ca_bookkeeping := BookkeepingDone;
     ca_info := flat_info 980 |}.

(** The reduce-only close is accepted, but the fill price cannot be read
    (an empty [avgPrice]): the bookkeeping raises before the balance is
    refreshed. *)
Definition unreadable_fill_answers : CloseAnswers :=
  {| ca_positions := Some [btc_long_row 49000];
     ca_order_id := Some "close-1";
     ca_bookkeeping := RaisedBeforeRefresh;
     ca_info := flat_info 980 |}.


(** The ticker reads 50000 and the exchange lists a long on BTCUSDT that
    the engine does not know of. *)
Definition listed_long_open_answers : OpenAnswers :=
  {| oa_ticker := Some 50000;
     oa_info := {| ia_positions := Some [btc_long_row 49000];
                   ia_balance := 1000 |};
     oa_order_id := Some "order-1"; oa_create_time := 1700000000;
     oa_entry_time := 1700000000;
     oa_trade_id := Some "trade-1" |}.

(** The exchange still lists order-1 as open; the policy's answer is
    given; cancellations are accepted and a re-submission gets the id
    order-2 at time 1700000301. *)
Definition timeout_answers (action : option string) (new_price : option Q)
  : string -> PendingAnswers :=
  fun _ =>
    {| pa_orders := Some [{| oo_order_id := "order-1";
                             oo_status := Some "New" |}];
       pa_ai_action := action;
       pa_new_price := new_price;
       pa_modify :=
         {| ma_ticker := Some 50000; ma_cancel_ok := true; ma_orders := None;
            ma_new_order_id := Some "order-2"; ma_now := 1700000301 |};
       pa_cancel_ok := true |}.

Definition frames (atr : Q) : option TrailMarket :=
  Some {| tm_15m := Some {| af_len := 200; af_atr := Some atr |};
          tm_1h := None |}.

(** Three checks a few minutes apart: the price rises from 52000 to 53000
    while the ATR goes 500, 1200, 400. *)
Definition rising_observations : list TrailObservation :=
  [ {| ob_now := 1700000000; ob_price := 52000; ob_market := frames 500;
       ob_accepted := true |};
    {| ob_now := 1700000200; ob_price := 52500; ob_market := frames 1200;
       ob_accepted := true |};
    {| ob_now := 1700000400; ob_price := 53000; ob_market := frames 400;
       ob_accepted := true |} ].






(** Rules whose minimum quantity is not a whole number of steps. *)
Definition offgrid_rules : Rules :=
  {| qty_step := 0.1; min_order_qty := 0.17; max_order_qty := 100;
     min_order_amt := 0; max_order_amt := 0;
     tick_size := 0.1; min_price := 0.1; max_price := 199999.8;
     status := "Trading"; unified_margin_trade := true |}.

(** The first take-profit target is on the right side, or is not set. *)
Definition target_ok (long : bool) (entry : Q) (take_profit : list Q) : Prop :=
  match first_target take_profit with
  | Some tp => tp <= 0 \/ (if long then entry < tp else tp < entry)
  | None => True
  end.

(** The trade counters of the engine. *)
Definition counters (st : Engine) : nat * nat * nat :=
  (total_trades st, successful_trades st, failed_trades st).

(** The engine after the successive iterations of [_trading_loop] that
    are answered by [answers]. *)
Definition trading_loop_run (cfg : Config) (st : Engine)
    (answers : list LoopAnswers) : Engine :=
  fold_left (fun st a => fst (trading_loop_iteration cfg st a)) answers st.

(** The side of the order that closes a position held on [side]. *)
Definition closing_side (side : string) : string :=
  if String.eqb side "Buy" then "Sell" else "Buy".

(** A request of order management: a cancellation, or an order that is
    not reduce-only. *)
Definition is_order_management (r : ApiRequest) : bool :=
  match r with
  | CancelOrder _ _ => true
  | PlaceOrder _ _ _ _ _ reduce_only _ _ => negb reduce_only
  | SetTradingStop _ _ => false
  end.

(** The books of the engine apart from the tracked orders and the request
    log. *)
Definition books (st : Engine) :=
  (position_fields st, position_entry_time st, position_entry_reason st,
   current_trade_id st, counters st, trailing_stop_updates st,
   last_trailing_stop_check st, peak_balance st, max_drawdown_pct st,
   drawdown_analysis_triggered st, extreme_protection st).




#[global] Instance TriggerType_eq_dec : EqDecision TriggerType.
Proof. solve_decision. Defined.

(** [stats['triggers_by_type'][ttype] += 1], with the key created at zero
    when it is new; the dict keeps its keys in the order of insertion. *)
Fixpoint bump (ttype : TriggerType) (counts : list (TriggerType * nat))
  : list (TriggerType * nat) :=
  match counts with
  | [] => [(ttype, 1%nat)]
  | (key, n) :: rest =>
      if bool_decide (key = ttype) then (key, S n) :: rest
      else (key, n) :: bump ttype rest
  end.

(** [get_protection_stats]: [total_triggers] and [triggers_by_type]. *)
Definition get_protection_stats (self : ExtremeMarketProtection)
  : nat * list (TriggerType * nat) :=
  (length (protection_triggers self),
   fold_left (fun counts trigger => bump (trg_type trigger) counts)
     (protection_triggers self) []).

(** The entry of a type in [triggers_by_type], zero when the key is
    missing. *)
Definition count_of (ttype : TriggerType) (counts : list (TriggerType * nat))
  : nat :=
  match List.find (fun item => bool_decide (fst item = ttype)) counts with
  | Some item => snd item
  | None => 0%nat
  end.

(** The stops of the window that [check_consecutive_stops] counts at
    [timestamp]. *)
Definition stops_in_window (stops : list Q) (timestamp : Q) : list Q :=
  filter (fun t => Qgtb t (timestamp - 4 * 3600) = true) stops.

(** Two symbols crash while the engine holds the long on BTCUSDT; the
    exchange lists the position and fills the emergency close. *)
Definition crash_loop_answers : LoopAnswers :=
  {| la_time := 1700000000;
     la_pending := fun _ => idle_pending_answers;
     la_market := two_crashing;
     la_info := {| ia_positions := Some [btc_long_row 49000];
                   ia_balance := 1000 |};
     la_timestamp := 1700000000;
     la_now_minute := 13;
     la_emergency := filled_close_answers;
     la_decision := sample_long;
     la_exec := sample_exec_answers;
     la_trail := idle_trail_answers |}.

(** * Properties *)

(** ** Comparisons *)

Lemma Qltb_lt x y : Qltb x y = true <-> x < y.
Proof.
  unfold Qltb. rewrite negb_true_iff, <- not_true_iff_false, Qle_bool_iff.
  split; [apply Qnot_le_lt | apply Qlt_not_le].
Qed.

Lemma Qltb_ge x y : Qltb x y = false <-> y <= x.
Proof.
  unfold Qltb. rewrite negb_false_iff, Qle_bool_iff. reflexivity.
Qed.

Lemma Qleb_le x y : Qleb x y = true <-> x <= y.
Proof. apply Qle_bool_iff. Qed.

Lemma Qleb_gt x y : Qleb x y = false <-> y < x.
Proof.
  unfold Qleb. rewrite <- not_true_iff_false, Qle_bool_iff.
  split; [apply Qnot_le_lt | apply Qlt_not_le].
Qed.

Lemma Qeqb_eq x y : Qeqb x y = true <-> x == y.
Proof. apply Qeq_bool_iff. Qed.

Lemma Qeqb_neq x y : Qeqb x y = false <-> ~ x == y.
Proof.
  unfold Qeqb. rewrite <- not_true_iff_false, Qeq_bool_iff. reflexivity.
Qed.

(** Turn every boolean comparison of the context and goal into its
    proposition. *)
Ltac qprop :=
  unfold Qgtb, Qgeb in *;
  repeat match goal with
    | H : Qltb _ _ = true |- _ => apply Qltb_lt in H
    | H : Qltb _ _ = false |- _ => apply Qltb_ge in H
    | H : Qleb _ _ = true |- _ => apply Qleb_le in H
    | H : Qleb _ _ = false |- _ => apply Qleb_gt in H
    | H : Qeqb _ _ = true |- _ => apply Qeqb_eq in H
    | H : Qeqb _ _ = false |- _ => apply Qeqb_neq in H
    | |- Qltb _ _ = true => apply Qltb_lt
    | |- Qltb _ _ = false => apply Qltb_ge
    | |- Qleb _ _ = true => apply Qleb_le
    | |- Qleb _ _ = false => apply Qleb_gt
    | |- Qeqb _ _ = true => apply Qeqb_eq
    | |- Qeqb _ _ = false => apply Qeqb_neq
    end.

(** Case split on the first comparison the goal tests. *)
Ltac qcase :=
  match goal with
  | |- context [if Qltb ?a ?b then _ else _] =>
      let E := fresh "E" in destruct (Qltb a b) eqn:E
  | |- context [if Qleb ?a ?b then _ else _] =>
      let E := fresh "E" in destruct (Qleb a b) eqn:E
  | |- context [if Qeqb ?a ?b then _ else _] =>
      let E := fresh "E" in destruct (Qeqb a b) eqn:E
  end.

#[local] Instance Qltb_proper : Proper (Qeq ==> Qeq ==> eq) Qltb.
Proof. intros a b Hab c d Hcd. unfold Qltb. now rewrite Hab, Hcd. Qed.
#[local] Instance Qleb_proper : Proper (Qeq ==> Qeq ==> eq) Qleb.
Proof. intros a b Hab c d Hcd. unfold Qleb. now rewrite Hab, Hcd. Qed.
#[local] Instance Qeqb_proper : Proper (Qeq ==> Qeq ==> eq) Qeqb.
Proof. intros a b Hab c d Hcd. unfold Qeqb. now rewrite Hab, Hcd. Qed.

(** ** Rounding *)

Lemma py_round_comp x y : x == y -> py_round x = py_round y.
Proof.
  intros H. unfold py_round. rewrite (Qfloor_comp _ _ H).
  rewrite (Qcompare_comp (x - inject_Z (Qfloor y)) (y - inject_Z (Qfloor y))
             ltac:(now rewrite H) (1 # 2) (1 # 2) ltac:(reflexivity)).
  reflexivity.
Qed.

#[local] Instance py_round_proper : Proper (Qeq ==> eq) py_round.
Proof. intros x y H. now apply py_round_comp. Qed.

Lemma py_round_Z n : py_round (inject_Z n) = n.
Proof.
  unfold py_round. rewrite Qfloor_Z.
  destruct (Qcompare_spec (inject_Z n - inject_Z n) (1 # 2)) as [H|H|H];
    [lra | reflexivity | lra].
Qed.

Lemma py_round_near x : Qabs (inject_Z (py_round x) - x) <= 1 # 2.
Proof.
  pose proof (Qfloor_le x) as Hl. pose proof (Qlt_floor x) as Hu.
  rewrite inject_Z_plus in Hu. change (inject_Z 1) with 1 in Hu.
  apply Qabs_Qle_condition. unfold py_round.
  destruct (Qcompare_spec (x - inject_Z (Qfloor x)) (1 # 2)) as [H|H|H].
  - destruct (Z.even (Qfloor x)); rewrite ?inject_Z_plus;
      change (inject_Z 1) with 1; lra.
  - lra.
  - rewrite inject_Z_plus. change (inject_Z 1) with 1. lra.
Qed.

Lemma py_round_bounds x :
  x - (1 # 2) <= inject_Z (py_round x) <= x + (1 # 2).
Proof.
  pose proof (py_round_near x) as H. apply Qabs_Qle_condition in H. lra.
Qed.

Lemma inject_Z_lt_succ a b : inject_Z a < inject_Z b + 1 -> (a <= b)%Z.
Proof.
  intros H. change 1 with (inject_Z 1) in H. rewrite <- inject_Z_plus in H.
  rewrite <- Zlt_Qlt in H. lia.
Qed.

Lemma py_round_mono x y : x <= y -> (py_round x <= py_round y)%Z.
Proof.
  intros Hxy.
  destruct (Qlt_le_dec x y) as [Hlt | Hge].
  2:{ rewrite (py_round_comp x y); [lia | lra]. }
  pose proof (Qfloor_resp_le _ _ Hxy) as Hf.
  pose proof (Qfloor_le x) as Hlx. pose proof (Qlt_floor x) as Hux.
  pose proof (Qfloor_le y) as Hly. pose proof (Qlt_floor y) as Huy.
  rewrite inject_Z_plus in Hux, Huy. change (inject_Z 1) with 1 in Hux, Huy.
  destruct (Z.eq_dec (Qfloor x) (Qfloor y)) as [Heq | Hne].
  - unfold py_round. rewrite <- Heq.
    destruct (Qcompare_spec (x - inject_Z (Qfloor x)) (1 # 2)) as [H|H|H];
      destruct (Qcompare_spec (y - inject_Z (Qfloor x)) (1 # 2)) as [H'|H'|H'];
      try lra; destruct (Z.even (Qfloor x)); lia.
  - assert (Hs : (Qfloor x + 1 <= Qfloor y)%Z) by lia.
    assert (Hrx : (py_round x <= Qfloor x + 1)%Z).
    { unfold py_round.
      destruct (Qcompare (x - inject_Z (Qfloor x)) (1 # 2));
        try destruct (Z.even (Qfloor x)); lia. }
    assert (Hry : (Qfloor y <= py_round y)%Z).
    { unfold py_round.
      destruct (Qcompare (y - inject_Z (Qfloor y)) (1 # 2));
        try destruct (Z.even (Qfloor y)); lia. }
    lia.
Qed.

Lemma py_int_comp x y : x == y -> py_int x = py_int y.
Proof.
  intros H. unfold py_int. rewrite H.
  now rewrite (Qfloor_comp _ _ H), (Qceiling_comp _ _ H).
Qed.

#[local] Instance py_int_proper : Proper (Qeq ==> eq) py_int.
Proof. intros x y H. now apply py_int_comp. Qed.

Lemma py_int_Z n : py_int (inject_Z n) = n.
Proof. unfold py_int. rewrite Qfloor_Z, Qceiling_Z. now destruct Qleb. Qed.

Lemma py_int_nonneg x : 0 <= x -> py_int x = Qfloor x.
Proof. intros H. unfold py_int. apply Qleb_le in H. now rewrite H. Qed.

Lemma py_int_floor_bounds x :
  0 <= x -> inject_Z (py_int x) <= x < inject_Z (py_int x) + 1.
Proof.
  intros H. rewrite (py_int_nonneg x H).
  pose proof (Qfloor_le x). pose proof (Qlt_floor x) as Hu.
  rewrite inject_Z_plus in Hu. change (inject_Z 1) with 1 in Hu. lra.
Qed.

Lemma Qfloor_le_ceiling_Z x : (Qfloor x <= Qceiling x)%Z.
Proof. rewrite Zle_Qle. apply Qle_floor_ceiling. Qed.

Lemma py_int_mono x y : x <= y -> (py_int x <= py_int y)%Z.
Proof.
  intros Hxy. unfold py_int.
  destruct (Qleb 0 x) eqn:Ex, (Qleb 0 y) eqn:Ey; qprop.
  - now apply Qfloor_resp_le.
  - lra.
  - assert (Hc : (Qceiling x <= 0)%Z).
    { change 0%Z with (Qceiling (inject_Z 0)). apply Qceiling_resp_le.
      change (inject_Z 0) with 0. lra. }
    assert (Hf : (0 <= Qfloor y)%Z).
    { change 0%Z with (Qfloor (inject_Z 0)). apply Qfloor_resp_le.
      change (inject_Z 0) with 0. lra. }
    lia.
  - now apply Qceiling_resp_le.
Qed.

Lemma pow10_pos n : 0 < pow10 n.
Proof.
  unfold pow10. change 0 with (inject_Z 0). rewrite <- Zlt_Qlt.
  apply Z.pow_pos_nonneg; lia.
Qed.

Lemma py_round_nd_comp x y n : x == y -> py_round_nd x n == py_round_nd y n.
Proof. intros H. unfold py_round_nd. now rewrite H. Qed.

#[local] Instance py_round_nd_proper :
  Proper (Qeq ==> eq ==> Qeq) py_round_nd.
Proof. intros x y H n m <-. now apply py_round_nd_comp. Qed.

Lemma py_round_nd_mono x y n : x <= y -> py_round_nd x n <= py_round_nd y n.
Proof.
  intros H. unfold py_round_nd. pose proof (pow10_pos n) as Hp.
  assert (Hm : (py_round (x * pow10 n) <= py_round (y * pow10 n))%Z).
  { apply py_round_mono. nra. }
  rewrite Zle_Qle in Hm.
  apply Qmult_le_compat_r; [exact Hm |].
  apply Qlt_le_weak, Qinv_lt_0_compat, Hp.
Qed.

Lemma py_round_nd_fix x n k :
  x == inject_Z k / pow10 n -> py_round_nd x n == x.
Proof.
  intros H. unfold py_round_nd. pose proof (pow10_pos n) as Hp.
  assert (Hx : x * pow10 n == inject_Z k).
  { rewrite H. field. lra. }
  rewrite Hx, py_round_Z. now rewrite H.
Qed.

(** ** Steps, grids and bounds *)

Lemma is_multiple_spec step x :
  is_multiple step x = true -> exists k : Z, x == inject_Z k * step.
Proof.
  unfold is_multiple. intros H. qprop.
  exists (Qfloor (x / step)). now symmetry.
Qed.

Lemma is_multiple_intro step x k :
  ~ step == 0 -> x == inject_Z k * step -> is_multiple step x = true.
Proof.
  intros Hs Hx. unfold is_multiple. qprop.
  assert (Hq : x / step == inject_Z k) by (rewrite Hx; field; exact Hs).
  now rewrite Hq, Qfloor_Z, Hx.
Qed.

Lemma decimals_exact_spec step :
  decimals_exact step = true -> step < 1 ->
  exists k : Z, step == inject_Z k / pow10 (str_decimals step).
Proof.
  unfold decimals_exact. intros H Hlt.
  apply orb_true_iff in H as [H | H].
  - qprop. lra.
  - apply is_multiple_spec in H as [k Hk]. exists k.
    rewrite Hk at 1. pose proof (pow10_pos (str_decimals step)).
    field. lra.
Qed.

Lemma step_round_total step x :
  0 < step -> exists s, step_round step x = Some s.
Proof.
  intros Hs. unfold step_round.
  destruct (Qgeb step 1); [eauto |].
  destruct (Qeqb step 0) eqn:E; [qprop; lra | eauto].
Qed.

Lemma step_round_comp step x y s :
  x == y -> step_round step x = Some s ->
  exists s', step_round step y = Some s' /\ s == s'.
Proof.
  intros Hxy. unfold step_round.
  destruct (Qgeb step 1).
  - intros [= <-]. eexists; split; [reflexivity |]. now rewrite Hxy.
  - destruct (Qeqb step 0); [discriminate |].
    intros [= <-]. eexists; split; [reflexivity |]. now rewrite Hxy.
Qed.

(** The step-rounded value is a whole number of steps: the truncated
    quotient for steps of at least one, the nearest one below. *)
Lemma step_round_multiple step x s :
  0 < step -> decimals_exact step = true -> step_round step x = Some s ->
  exists k : Z,
    s == inject_Z k * step
    /\ (1 <= step -> k = py_int (x / step))
    /\ (step < 1 -> k = py_round (x / step)).
Proof.
  intros Hs Hd. unfold step_round.
  destruct (Qgeb step 1) eqn:E1.
  - intros [= <-]. qprop. exists (py_int (x / step)).
    split; [reflexivity |]. split; [reflexivity | lra].
  - destruct (Qeqb step 0) eqn:E0; [discriminate |].
    intros [= <-]. qprop. exists (py_round (x / step)).
    split; [| split; [lra | reflexivity]].
    destruct (decimals_exact_spec step Hd E1) as [k Hk].
    apply (py_round_nd_fix _ _ (py_round (x / step) * k)).
    rewrite inject_Z_mult.
    generalize dependent (py_round (x / step)). intros n.
    generalize dependent (str_decimals step). intros d Hk.
    pose proof (pow10_pos d). rewrite Hk. field. lra.
Qed.

Lemma step_round_fix step x s k :
  0 < step -> decimals_exact step = true ->
  x == inject_Z k * step -> step_round step x = Some s -> s == x.
Proof.
  intros Hs Hd Hx Hr.
  destruct (step_round_multiple step x s Hs Hd Hr) as (j & Hj & Hge & Hlt).
  assert (Hq : x / step == inject_Z k) by (rewrite Hx; field; lra).
  destruct (Qlt_le_dec step 1) as [H1 | H1].
  - rewrite (Hlt H1), Hq, py_round_Z in Hj. now rewrite Hj, Hx.
  - rewrite (Hge H1), Hq, py_int_Z in Hj. now rewrite Hj, Hx.
Qed.

Lemma Qdiv_le_compat x y step : 0 < step -> x <= y -> x / step <= y / step.
Proof.
  intros Hs Hxy. unfold Qdiv. apply Qmult_le_compat_r; [exact Hxy |].
  apply Qlt_le_weak, Qinv_lt_0_compat, Hs.
Qed.

Lemma step_round_mono step x y a b :
  0 < step -> x <= y ->
  step_round step x = Some a -> step_round step y = Some b -> a <= b.
Proof.
  intros Hs Hxy. unfold step_round.
  pose proof (Qdiv_le_compat x y step Hs Hxy) as Hq.
  destruct (Qgeb step 1).
  - intros [= <-] [= <-].
    pose proof (py_int_mono _ _ Hq) as Hm. rewrite Zle_Qle in Hm. nra.
  - destruct (Qeqb step 0); [discriminate |].
    intros [= <-] [= <-]. apply py_round_nd_mono.
    pose proof (py_round_mono _ _ Hq) as Hm. rewrite Zle_Qle in Hm. nra.
Qed.

Lemma py_clamp_bounds lo hi v : lo <= hi -> lo <= py_clamp lo hi v <= hi.
Proof.
  intros H. unfold py_clamp, Qgtb.
  destruct (Qltb v lo) eqn:E1.
  - destruct (Qltb hi lo) eqn:E2; qprop; lra.
  - destruct (Qltb hi v) eqn:E2; qprop; lra.
Qed.

Lemma py_clamp_id lo hi v : lo <= v <= hi -> py_clamp lo hi v = v.
Proof.
  intros [H1 H2]. unfold py_clamp, Qgtb.
  destruct (Qltb v lo) eqn:E1; [qprop; lra |].
  destruct (Qltb hi v) eqn:E2; [qprop; lra | reflexivity].
Qed.

Lemma py_clamp_mono lo hi v w :
  v <= w -> py_clamp lo hi v <= py_clamp lo hi w.
Proof.
  intros H. unfold py_clamp, Qgtb.
  destruct (Qltb v lo) eqn:E1, (Qltb w lo) eqn:E2;
    repeat match goal with
      | |- context [if Qltb ?a ?b then _ else _] =>
          let E := fresh "E" in destruct (Qltb a b) eqn:E
      end; qprop; lra.
Qed.

Lemma py_clamp_cases lo hi v :
  py_clamp lo hi v = v \/ py_clamp lo hi v = lo \/ py_clamp lo hi v = hi.
Proof.
  unfold py_clamp, Qgtb.
  destruct (Qltb v lo); [destruct (Qltb hi lo) | destruct (Qltb hi v)]; auto.
Qed.

Lemma py_clamp_comp lo hi v w : v == w -> py_clamp lo hi v == py_clamp lo hi w.
Proof.
  intros H. unfold py_clamp, Qgtb.
  rewrite (Qltb_proper v w H lo lo (Qeq_refl lo)).
  destruct (Qltb w lo); [reflexivity |].
  rewrite (Qltb_proper hi hi (Qeq_refl hi) v w H).
  destruct (Qltb hi w); [reflexivity | exact H].
Qed.

Lemma _format_quantity_unfold rules symbol r qty :
  rules !! symbol = Some r ->
  _format_quantity rules symbol qty
  = bounded_round (qty_step r) (min_order_qty r) (max_order_qty r) qty.
Proof.
  intros H. unfold _format_quantity, bounded_round, step_round. rewrite H.
  destruct (Qgeb (qty_step r) 1); [reflexivity |].
  destruct (Qeqb (qty_step r) 0); reflexivity.
Qed.

Lemma _format_price_unfold rules symbol r price :
  rules !! symbol = Some r ->
  _format_price rules symbol price
  = bounded_round (tick_size r) (min_price r) (max_price r) price.
Proof.
  intros H. unfold _format_price, bounded_round, step_round. rewrite H.
  destruct (Qgeb (tick_size r) 1); [reflexivity |].
  destruct (Qeqb (tick_size r) 0); reflexivity.
Qed.

Lemma grid_ok_spec step lo hi :
  grid_ok step lo hi = true ->
  0 < step /\ decimals_exact step = true /\ lo <= hi
  /\ is_multiple step lo = true /\ is_multiple step hi = true.
Proof.
  unfold grid_ok. rewrite !andb_true_iff. intros [[[[H1 H2] H3] H4] H5].
  qprop. auto.
Qed.

(** On a good grid the bounded rounding leaves its own results alone. *)
Lemma bounded_round_idem step lo hi x p :
  grid_ok step lo hi = true ->
  bounded_round step lo hi x = Some p ->
  exists p', bounded_round step lo hi p = Some p' /\ p' == p.
Proof.
  intros Hg Hp. apply grid_ok_spec in Hg as (Hs & Hd & Hlh & Hlo & Hhi).
  unfold bounded_round in *.
  destruct (step_round step x) as [s |] eqn:Hsx; [| discriminate].
  injection Hp as <-.
  assert (Hmult : exists k : Z, py_clamp lo hi s == inject_Z k * step).
  { destruct (py_clamp_cases lo hi s) as [-> | [-> | ->]].
    - destruct (step_round_multiple _ _ _ Hs Hd Hsx) as (k & Hk & _). eauto.
    - now apply is_multiple_spec.
    - now apply is_multiple_spec. }
  destruct Hmult as [k Hk].
  destruct (step_round_total step (py_clamp lo hi s) Hs) as [s' Hs'].
  rewrite Hs'. cbn [option_map]. eexists; split; [reflexivity |].
  pose proof (step_round_fix _ _ _ _ Hs Hd Hk Hs') as Hfix.
  rewrite (py_clamp_comp lo hi _ _ Hfix).
  rewrite py_clamp_id; [reflexivity | now apply py_clamp_bounds].
Qed.

Lemma bounded_round_mono step lo hi x y a b :
  0 < step -> x <= y ->
  bounded_round step lo hi x = Some a -> bounded_round step lo hi y = Some b ->
  a <= b.
Proof.
  intros Hs Hxy. unfold bounded_round.
  destruct (step_round step x) as [sx |] eqn:Hx; [| discriminate].
  destruct (step_round step y) as [sy |] eqn:Hy; [| discriminate].
  intros [= <-] [= <-]. apply py_clamp_mono.
  eapply step_round_mono; eauto.
Qed.

Lemma scale_back q step : 0 < step -> q * step / step == q.
Proof. intros H. field. lra. Qed.

Lemma unscale x step : 0 < step -> x == x / step * step.
Proof. intros H. field. lra. Qed.

(** [round] breaks a tie towards the even neighbour. *)
Lemma py_round_tie_even x :
  Qabs (inject_Z (py_round x) - x) == 1 # 2 -> Z.even (py_round x) = true.
Proof.
  pose proof (Qfloor_le x) as Hl. pose proof (Qlt_floor x) as Hu.
  rewrite inject_Z_plus in Hu. change (inject_Z 1) with 1 in Hu.
  unfold py_round.
  destruct (Qcompare_spec (x - inject_Z (Qfloor x)) (1 # 2)) as [H | H | H].
  - destruct (Z.even (Qfloor x)) eqn:E; [intros _; exact E |].
    intros _. rewrite Z.even_add, E. reflexivity.
  - intros Ht. exfalso.
    rewrite Qabs_neg in Ht by lra. lra.
  - intros Ht. exfalso. rewrite inject_Z_plus in Ht.
    change (inject_Z 1) with 1 in Ht.
    rewrite Qabs_pos in Ht by lra. lra.
Qed.

(** What the bounded rounding returns on a good grid, for a positive
    value. *)
Lemma bounded_round_props step lo hi x :
  grid_ok step lo hi = true -> 0 < x ->
  exists (p : Q) (k : Z),
    bounded_round step lo hi x = Some p
    /\ p == py_clamp lo hi (inject_Z k * step)
    /\ (step < 1 -> k = py_round (x / step))
    /\ (1 <= step -> k = py_int (x / step))
    /\ (step < 1 -> Qabs (inject_Z k * step - x) <= step / 2)
    /\ (step < 1 -> Qabs (inject_Z k * step - x) == step / 2 ->
        Z.even k = true)
    /\ (1 <= step -> inject_Z k * step <= x < (inject_Z k + 1) * step)
    /\ is_multiple step p = true
    /\ lo <= p <= hi.
Proof.
  intros Hg Hx. pose proof Hg as Hg'.
  apply grid_ok_spec in Hg' as (Hs & Hd & Hlh & Hlo & Hhi).
  destruct (step_round_total step x Hs) as [s Hsx].
  destruct (step_round_multiple _ _ _ Hs Hd Hsx) as (k & Hk & Hge & Hlt).
  exists (py_clamp lo hi s), k. unfold bounded_round. rewrite Hsx.
  cbn [option_map].
  split; [reflexivity |]. split; [now apply py_clamp_comp |].
  pose proof (unscale x step Hs) as Hxs.
  split; [exact Hlt |]. split; [exact Hge |].
  split; [| split; [| split; [| split]]].
  - intros H1. rewrite (Hlt H1).
    pose proof (py_round_bounds (x / step)) as [Ha Hb].
    apply (proj2 (Qabs_Qle_condition _ _)).
    set (q := x / step) in *. set (n := inject_Z (py_round q)) in *.
    assert (Hh : step / 2 == step * (1 # 2)) by field.
    rewrite Hh. split; nra.
  - intros H1 Ht. rewrite (Hlt H1) in *. apply py_round_tie_even.
    assert (Hsc : inject_Z (py_round (x / step)) * step - x
                  == (inject_Z (py_round (x / step)) - x / step) * step)
      by (field; lra).
    rewrite Hsc, Qabs_Qmult, (Qabs_pos step) in Ht by lra.
    assert (Hh : step / 2 == (1 # 2) * step) by field.
    rewrite Hh in Ht.
    apply (Qmult_inj_r _ _ step); [lra | exact Ht].
  - intros H1. rewrite (Hge H1).
    assert (Hq : 0 <= x / step).
    { apply Qle_shift_div_l; [exact Hs | lra]. }
    pose proof (py_int_floor_bounds (x / step) Hq) as [Ha Hb].
    set (q := x / step) in *. set (n := inject_Z (py_int q)) in *.
    split; nra.
  - destruct (py_clamp_cases lo hi s) as [-> | [-> | ->]]; try assumption.
    apply (is_multiple_intro step s k); [lra | exact Hk].
  - now apply py_clamp_bounds.
Qed.

(** C6 (as amended).  For a symbol with loaded rules whose step is
    positive with an exact digit count and whose bounds are ordered whole
    numbers of steps, and for every positive value: the formatted price is
    a whole number [k] of ticks bounded to [min_price, max_price], where
    [k] is [round(value / tick)] when the tick is below 1, so that [k]
    ticks is the nearest multiple (within half a tick, and with [k] even
    when the value lies exactly half a tick from it), and [k] is
    [int(value / tick)] when the tick is at least 1, the largest multiple
    not above the value; the result is a multiple of the tick, lies within the
    bounds, and formatting it again returns it.  The same holds for the
    quantity with [qty_step], [min_order_qty], [max_order_qty]. *)
Theorem format_on_grid rules symbol r x :
  rules !! symbol = Some r ->
  0 < x ->
  grid_ok (tick_size r) (min_price r) (max_price r) = true ->
  grid_ok (qty_step r) (min_order_qty r) (max_order_qty r) = true ->
  (exists (p : Q) (k : Z),
      _format_price rules symbol x = Some p
      /\ p == py_clamp (min_price r) (max_price r) (inject_Z k * tick_size r)
      /\ (tick_size r < 1 -> k = py_round (x / tick_size r))
      /\ (1 <= tick_size r -> k = py_int (x / tick_size r))
      /\ (tick_size r < 1 ->
          Qabs (inject_Z k * tick_size r - x) <= tick_size r / 2)
      /\ (tick_size r < 1 ->
          Qabs (inject_Z k * tick_size r - x) == tick_size r / 2 ->
          Z.even k = true)
      /\ (1 <= tick_size r ->
          inject_Z k * tick_size r <= x < (inject_Z k + 1) * tick_size r)
      /\ is_multiple (tick_size r) p = true
      /\ min_price r <= p <= max_price r
      /\ exists p', _format_price rules symbol p = Some p' /\ p' == p)
  /\ (exists (q : Q) (k : Z),
      _format_quantity rules symbol x = Some q
      /\ q == py_clamp (min_order_qty r) (max_order_qty r)
                (inject_Z k * qty_step r)
      /\ (qty_step r < 1 -> k = py_round (x / qty_step r))
      /\ (1 <= qty_step r -> k = py_int (x / qty_step r))
      /\ (qty_step r < 1 ->
          Qabs (inject_Z k * qty_step r - x) <= qty_step r / 2)
      /\ (qty_step r < 1 ->
          Qabs (inject_Z k * qty_step r - x) == qty_step r / 2 ->
          Z.even k = true)
      /\ (1 <= qty_step r ->
          inject_Z k * qty_step r <= x < (inject_Z k + 1) * qty_step r)
      /\ is_multiple (qty_step r) q = true
      /\ min_order_qty r <= q <= max_order_qty r
      /\ exists q', _format_quantity rules symbol q = Some q' /\ q' == q).
Proof.
  intros Hr Hx Hp Hq. split.
  - destruct (bounded_round_props _ _ _ x Hp Hx)
      as (p & k & H1 & H2 & Hkr & Hki & H3 & Ht & H4 & H5 & H6).
    exists p, k. rewrite !(_format_price_unfold rules symbol r _ Hr).
    repeat split; try assumption; try tauto.
    apply (bounded_round_idem _ _ _ x p Hp H1).
  - destruct (bounded_round_props _ _ _ x Hq Hx)
      as (q & k & H1 & H2 & Hkr & Hki & H3 & Ht & H4 & H5 & H6).
    exists q, k. rewrite !(_format_quantity_unfold rules symbol r _ Hr).
    repeat split; try assumption; try tauto.
    apply (bounded_round_idem _ _ _ x q Hq H1).
Qed.

Lemma format_on_grid_witness :
  sample_rules !! "BTCUSDT" = Some btc_rules
  /\ 0 < 50000.07
  /\ (exists (p : Q) (k : Z),
      _format_price sample_rules "BTCUSDT" 50000.07 = Some p
      /\ p == py_clamp 0.1 199999.8 (inject_Z k * 0.1)
      /\ (0.1 < 1 -> k = py_round (50000.07 / 0.1))
      /\ (1 <= 0.1 -> k = py_int (50000.07 / 0.1))
      /\ (0.1 < 1 -> Qabs (inject_Z k * 0.1 - 50000.07) <= 0.1 / 2)
      /\ (0.1 < 1 -> Qabs (inject_Z k * 0.1 - 50000.07) == 0.1 / 2 ->
          Z.even k = true)
      /\ (1 <= 0.1 -> inject_Z k * 0.1 <= 50000.07 < (inject_Z k + 1) * 0.1)
      /\ is_multiple 0.1 p = true
      /\ 0.1 <= p <= 199999.8
      /\ exists p', _format_price sample_rules "BTCUSDT" p = Some p' /\ p' == p)
  /\ (exists (q : Q) (k : Z),
      _format_quantity sample_rules "BTCUSDT" 50000.07 = Some q
      /\ q == py_clamp 0.001 100 (inject_Z k * 0.001)
      /\ (0.001 < 1 -> k = py_round (50000.07 / 0.001))
      /\ (1 <= 0.001 -> k = py_int (50000.07 / 0.001))
      /\ (0.001 < 1 -> Qabs (inject_Z k * 0.001 - 50000.07) <= 0.001 / 2)
      /\ (0.001 < 1 -> Qabs (inject_Z k * 0.001 - 50000.07) == 0.001 / 2 ->
          Z.even k = true)
      /\ (1 <= 0.001 ->
          inject_Z k * 0.001 <= 50000.07 < (inject_Z k + 1) * 0.001)
      /\ is_multiple 0.001 q = true
      /\ 0.001 <= q <= 100
      /\ exists q', _format_quantity sample_rules "BTCUSDT" q = Some q'
                    /\ q' == q).
Proof.
  split; [reflexivity |]. split; [reflexivity |].
  apply (format_on_grid sample_rules "BTCUSDT" btc_rules 50000.07);
    reflexivity.
Defined.

(** C6 as stated fails: with a step of 1 the quantity 2.7 is formatted to
    2, while 3 is a multiple of the step within the bounds and strictly
    nearer to 2.7. *)
Lemma format_quantity_truncates :
  exists q,
    _format_quantity sample_rules "DOGEUSDT" 2.7 = Some q
    /\ q == 2
    /\ is_multiple (qty_step doge_rules) 3 = true
    /\ min_order_qty doge_rules <= 3 <= max_order_qty doge_rules
    /\ Qabs (3 - 2.7) < Qabs (q - 2.7).
Proof.
  eexists. split; [vm_compute; reflexivity |].
  split; [reflexivity |]. split; [reflexivity |].
  split; [split; discriminate |]. reflexivity.
Qed.

(** The nearest multiple is what the code returns below a step of 1, for
    the same value. *)
Example format_quantity_rounds_small_step :
  _format_quantity sample_rules "BTCUSDT" 2.7006 = Some 2.701.
Proof. vm_compute. reflexivity. Qed.

(** A tick printed as [1e-06] has its digits counted as 5: the second
    rounding moves a price off the nearest tick. *)
Example format_price_scientific_tick :
  str_decimals 0.000001 = 5%nat
  /\ step_round 0.000001 0.012344 = Some 0.01234.
Proof. split; vm_compute; reflexivity. Qed.

(** With a minimum that is not a whole number of steps, a quantity raised
    to the minimum is not a multiple of the step, and formatting it again
    moves it. *)
Example format_quantity_offgrid_minimum :
  let rules : gmap string Rules := {["XUSDT" := offgrid_rules]} in
  _format_quantity rules "XUSDT" 0.01 = Some 0.17
  /\ is_multiple 0.1 0.17 = false
  /\ _format_quantity rules "XUSDT" 0.17 = Some 0.2.
Proof. repeat split; vm_compute; reflexivity. Qed.

(** ** Quantities outside the order-size bounds *)

(** C10.  For a symbol with loaded rules (minimum not above maximum): when
    the step-rounded quantity is below the minimum order quantity,
    [_format_quantity] returns exactly the minimum, the quantity checks of
    [_validate_order] do not reject it, and it is larger than the
    step-rounded request; when the step-rounded quantity is above the
    maximum, [_format_quantity] returns exactly the maximum. *)
Theorem format_quantity_clamps rules symbol r qty s :
  rules !! symbol = Some r ->
  min_order_qty r <= max_order_qty r ->
  step_round (qty_step r) qty = Some s ->
  (s < min_order_qty r ->
   _format_quantity rules symbol qty = Some (min_order_qty r)
   /\ s < min_order_qty r
   /\ forall price,
        _validate_order rules symbol (min_order_qty r) price <> QtyBelowMin
        /\ _validate_order rules symbol (min_order_qty r) price <> QtyAboveMax
        /\ _validate_order rules symbol (min_order_qty r) price
           <> RulesNotLoaded)
  /\ (max_order_qty r < s ->
      _format_quantity rules symbol qty = Some (max_order_qty r)).
Proof.
  intros Hr Hmm Hs.
  rewrite (_format_quantity_unfold rules symbol r qty Hr).
  unfold bounded_round. rewrite Hs. cbn [option_map].
  split.
  - intros Hlt. split; [| split; [exact Hlt |]].
    + unfold py_clamp, Qgtb.
      assert (E1 : Qltb s (min_order_qty r) = true) by (qprop; exact Hlt).
      assert (E2 : Qltb (max_order_qty r) (min_order_qty r) = false)
        by (qprop; exact Hmm).
      now rewrite E1, E2.
    + intros price. unfold _validate_order. rewrite Hr.
      assert (E1 : Qltb (min_order_qty r) (min_order_qty r) = false)
        by (qprop; lra).
      assert (E2 : Qgtb (min_order_qty r) (max_order_qty r) = false)
        by (qprop; exact Hmm).
      rewrite E1, E2.
      repeat match goal with
        | |- context [if ?b then _ else _] => destruct b
        end; repeat split; discriminate.
  - intros Hgt. unfold py_clamp, Qgtb.
    destruct (Qltb s (min_order_qty r)) eqn:E1.
    + qprop. lra.
    + assert (E2 : Qltb (max_order_qty r) s = true) by (qprop; exact Hgt).
      now rewrite E2.
Qed.

Lemma format_quantity_clamps_witness :
  sample_rules !! "BTCUSDT" = Some btc_rules
  /\ min_order_qty btc_rules <= max_order_qty btc_rules
  /\ step_round (qty_step btc_rules) 0.00006 = Some (0 # 1000)
  /\ ((0 # 1000) < min_order_qty btc_rules ->
      _format_quantity sample_rules "BTCUSDT" 0.00006
      = Some (min_order_qty btc_rules)
      /\ (0 # 1000) < min_order_qty btc_rules
      /\ forall price,
           _validate_order sample_rules "BTCUSDT" (min_order_qty btc_rules)
             price <> QtyBelowMin
           /\ _validate_order sample_rules "BTCUSDT" (min_order_qty btc_rules)
                price <> QtyAboveMax
           /\ _validate_order sample_rules "BTCUSDT" (min_order_qty btc_rules)
                price <> RulesNotLoaded)
  /\ (max_order_qty btc_rules < (0 # 1000) ->
      _format_quantity sample_rules "BTCUSDT" 0.00006
      = Some (max_order_qty btc_rules)).
Proof.
  split; [reflexivity |]. split; [discriminate |].
  split; [vm_compute; reflexivity |].
  apply (format_quantity_clamps sample_rules "BTCUSDT" btc_rules 0.00006 (0 # 1000)).
  - reflexivity.
  - discriminate.
  - vm_compute. reflexivity.
Defined.

(** ** Stop-loss validation and the open attempt *)

Lemma validate_rejects_bad_stop action price stop take_profit :
  bad_stop action price stop ->
  is_valid (_validate_stop_loss_take_profit action price stop take_profit)
  = false.
Proof.
  intros [Hpos Hbad]. unfold _validate_stop_loss_take_profit.
  assert (Es : Qgtb stop 0 = true) by (qprop; exact Hpos).
  assert (Habs : Qabs (stop - price) = Qabs (price - stop))
    by apply Qabs_Qminus.
  destruct Hbad as [[-> Hbad] | [-> Hbad]]; cbn [String.eqb Ascii.eqb Bool.eqb];
    rewrite Es; unfold stop_distance_pct, min_stop_distance_pct,
      max_stop_distance_pct in *.
  - destruct (Qgeb stop price) eqn:E1; [reflexivity |].
    destruct (Qeqb price 0) eqn:E0; [reflexivity |].
    destruct (Qltb (Qabs (price - stop) / price * 100) 0.3) eqn:E2;
      [reflexivity |].
    destruct (Qgtb (Qabs (price - stop) / price * 100) 20) eqn:E3;
      [reflexivity |].
    exfalso. qprop. destruct Hbad as [H | [H | H]]; lra.
  - destruct (Qleb stop price) eqn:E1; [reflexivity |].
    destruct (Qeqb price 0) eqn:E0; [reflexivity |].
    rewrite Habs.
    destruct (Qltb (Qabs (price - stop) / price * 100) 0.3) eqn:E2;
      [reflexivity |].
    destruct (Qgtb (Qabs (price - stop) / price * 100) 20) eqn:E3;
      [reflexivity |].
    exfalso. qprop. destruct Hbad as [H | [H | H]]; lra.
Qed.

Lemma get_position_info_frame st a :
  api_log (fst (_get_position_info st a)) = api_log st
  /\ pending_limit_orders (fst (_get_position_info st a))
     = pending_limit_orders st
  /\ extreme_protection (fst (_get_position_info st a))
     = extreme_protection st.
Proof.
  unfold _get_position_info.
  destruct (nonempty (ia_positions a)); [| auto].
  destruct (List.find _ _); auto.
Qed.

(** C1 (as amended).  An open attempt whose stop-loss is positive and on
    the wrong side of the order price (LONG: at or above it; SHORT: at or
    below it), or whose distance from the order price is below 0.3% or
    above 20%, fails the stop validation and submits nothing: no request
    goes to the exchange, the pending-order set is unchanged and no trade
    is counted.  The position fields are not left alone, though: the
    attempt calls [_get_position_info] before it validates, so once the
    ticker is read they are what that call mirrors from the exchange's
    position list; they are unchanged when the ticker cannot be read. *)
Theorem open_rejects_bad_stop cfg st a action symbol position_size_pct
    leverage reason order_type entry stop_loss take_profit market_data
    decision :
  (forall current_price, oa_ticker a = Some current_price ->
     bad_stop action
       (fst (open_order_price order_type entry current_price)) stop_loss) ->
  let st' := _open_position cfg st a action symbol position_size_pct leverage
               reason order_type entry stop_loss take_profit market_data
               decision in
  (forall current_price, oa_ticker a = Some current_price ->
     is_valid (_validate_stop_loss_take_profit action
                 (fst (open_order_price order_type entry current_price))
                 stop_loss take_profit) = false)
  /\ api_log st' = api_log st
  /\ pending_limit_orders st' = pending_limit_orders st
  /\ total_trades st' = total_trades st
  /\ (oa_ticker a = None -> position_fields st' = position_fields st)
  /\ (forall current_price, oa_ticker a = Some current_price ->
      position_fields st'
      = position_fields (fst (_get_position_info st (oa_info a)))).
Proof.
  intros Hbad st'. split.
  { intros cp Hcp. apply validate_rejects_bad_stop. now apply Hbad. }
  subst st'. unfold _open_position.
  destruct (oa_ticker a) as [current_price |] eqn:Ht.
  2:{ repeat split; try reflexivity. intros cp Hcp. discriminate. }
  specialize (Hbad current_price eq_refl).
  pose proof (validate_rejects_bad_stop action _ stop_loss take_profit Hbad)
    as Hrej.
  pose proof (get_position_info_frame st (oa_info a)) as (Hlog & Hpend & _).
  assert (Htot : total_trades (fst (_get_position_info st (oa_info a)))
                 = total_trades st).
  { unfold _get_position_info.
    destruct (nonempty _); [| reflexivity]. now destruct (List.find _ _). }
  destruct (_get_position_info st (oa_info a)) as [st1 balance] eqn:Hinfo.
  cbn [fst] in *.
  assert (Hnone : Some current_price = None ->
                  position_fields st1 = position_fields st)
    by discriminate.
  destruct (Qltb balance (min_balance cfg)); [repeat split; auto |].
  destruct (open_sizing _ _ _ _) as [[position_value qty] |];
    [| repeat split; auto].
  destruct (_format_quantity _ _ _) as [qty' |]; [| repeat split; auto].
  destruct (_validate_order _ _ _ _); try (repeat split; auto; fail).
  destruct (open_order_price order_type entry current_price)
    as [order_price order_type'] eqn:Hop.
  cbn [fst] in Hrej.
  destruct (_validate_stop_loss_take_profit _ _ _ _); try discriminate;
    repeat split; auto.
Qed.

(** ** What an open or a close sends *)

Lemma get_position_info_balance st a :
  snd (_get_position_info st a) = ia_balance a.
Proof.
  unfold _get_position_info.
  destruct (nonempty (ia_positions a)); [| reflexivity].
  destruct (List.find _ _); reflexivity.
Qed.

(** [_open_position] sends nothing, or one opening order whose quantity is
    the formatted [qty] of the sizing lines. *)
Lemma open_position_log cfg st a action symbol position_size_pct leverage
    reason order_type entry stop_loss take_profit market_data decision :
  let st' := _open_position cfg st a action symbol position_size_pct leverage
               reason order_type entry stop_loss take_profit market_data
               decision in
  api_log st' = api_log st
  \/ exists current_price position_value qty q side ot price sl tp,
       oa_ticker a = Some current_price
       /\ open_sizing (ia_balance (oa_info a)) position_size_pct leverage
            current_price = Some (position_value, qty)
       /\ _format_quantity (trading_rules cfg) (bybit_symbol_of symbol) qty
          = Some q
       /\ api_log st'
          = api_log st
            ++ [PlaceOrder (bybit_symbol_of symbol) side ot q price false
                  sl tp].
Proof.
  intros st'. subst st'. unfold _open_position.
  destruct (oa_ticker a) as [current_price |] eqn:Ht; [| auto].
  pose proof (get_position_info_frame st (oa_info a)) as (Hlog & _).
  pose proof (get_position_info_balance st (oa_info a)) as Hbal.
  destruct (_get_position_info st (oa_info a)) as [st1 balance] eqn:Hinfo.
  cbn [fst snd] in *. subst balance.
  destruct (Qltb _ (min_balance cfg)); [auto |].
  destruct (open_sizing _ _ _ _) as [[position_value qty] |] eqn:Hsz;
    [| auto].
  destruct (_format_quantity _ _ _) as [q |] eqn:Hq; [| auto].
  destruct (_validate_order _ _ _ _); auto.
  destruct (open_order_price order_type entry current_price)
    as [order_price ot] eqn:Hop.
  destruct (_validate_stop_loss_take_profit _ _ _ _); auto.
  unfold open_order_request.
  destruct (if String.eqb ot "Limit" then _ else _) as [price |];
    cbn [opt_bind]; [| auto].
  destruct (if Qgtb stop_loss 0 then _ else _) as [sl |];
    cbn [opt_bind]; [| auto].
  destruct (match first_target take_profit with Some _ => _ | None => _ end)
    as [tp |]; cbn [opt_bind]; [| auto].
  right. exists current_price, position_value, qty, q.
  exists (if String.eqb action "LONG" then "Buy" else "Sell"), ot, price, sl, tp.
  repeat split; try assumption; try reflexivity.
  destruct (truthy (oa_order_id a)).
  - destruct (String.eqb ot "Limit"); cbn; now rewrite Hlog.
  - cbn. now rewrite Hlog.
Qed.

(** [_close_position] sends nothing, or one reduce-only market order. *)
Lemma close_position_log st a reason :
  exists added,
    api_log (_close_position st a reason) = api_log st ++ added
    /\ Forall (fun r => is_opening r = false) added.
Proof.
  unfold _close_position.
  destruct (negb (truthy (current_position st))
            || negb (truthy (current_symbol st))).
  { exists []. now rewrite app_nil_r. }
  destruct (ca_positions a) as [[| pos rest] |].
  1,3: exists []; now rewrite app_nil_r.
  destruct (Qeqb (pr_size pos) 0).
  { exists []. now rewrite app_nil_r. }
  exists [PlaceOrder (bybit_symbol_of (get (current_symbol st) ""))
            (if String.eqb (get (current_position st) "") "Buy"
             then "Sell" else "Buy")
            "Market" (pr_size pos) None true None None].
  split; [| repeat constructor].
  destruct (truthy (ca_order_id a)); [| reflexivity].
  destruct (ca_bookkeeping a); [| reflexivity |].
  all: match goal with
       | |- context [_get_position_info ?s ?i] =>
           pose proof (get_position_info_frame s i) as (Hlog & _);
           destruct (_get_position_info s i) as [st1 balance]
       end;
    cbn [fst] in Hlog;
    assert (Hdd : api_log (fst (_check_drawdown_after_close st1 balance))
                  = api_log st1)
      by (unfold _check_drawdown_after_close;
          repeat match goal with
            | |- context [if ?b then _ else _] => destruct b
            end; reflexivity);
    destruct (_check_drawdown_after_close st1 balance) as [st2 flag];
    cbn [fst] in Hdd; cbn; rewrite Hdd, Hlog; reflexivity.
Qed.

Lemma open_rejects_bad_stop_witness :
  let st' := _open_position sample_config initial_engine sample_open_answers
               "LONG" "BTCUSDT_PERPETUAL" 0.10 10 "trend" "Market" 0 51000
               [55000] empty_market_data sample_long in
  (forall current_price,
     oa_ticker sample_open_answers = Some current_price ->
     is_valid (_validate_stop_loss_take_profit "LONG"
                 (fst (open_order_price "Market" 0 current_price))
                 51000 [55000]) = false)
  /\ api_log st' = api_log initial_engine
  /\ pending_limit_orders st' = pending_limit_orders initial_engine
  /\ total_trades st' = total_trades initial_engine
  /\ (oa_ticker sample_open_answers = None ->
      position_fields st' = position_fields initial_engine)
  /\ (forall current_price,
        oa_ticker sample_open_answers = Some current_price ->
        position_fields st'
        = position_fields
            (fst (_get_position_info initial_engine
                    (oa_info sample_open_answers)))).
Proof.
  apply (open_rejects_bad_stop sample_config initial_engine
           sample_open_answers "LONG" "BTCUSDT_PERPETUAL" 0.10 10 "trend"
           "Market" 0 51000 [55000] empty_market_data sample_long).
  intros current_price [= <-]. split; [reflexivity |].
  left. split; [reflexivity |]. left. discriminate.
Defined.

(** C1 as stated fails: a flat engine attempts a LONG on BTCUSDT with the
    stop at 51000, above the price of 50000, while the exchange lists a
    long on BTCUSDT.  The attempt is rejected and sends nothing, yet the
    engine now holds that long: the position is not unchanged. *)
Lemma open_rejected_adopts_position :
  let st' := _open_position sample_config initial_engine
               listed_long_open_answers "LONG" "BTCUSDT_PERPETUAL" 0.10 10
               "trend" "Market" 0 51000 [55000] empty_market_data
               sample_long in
  bad_stop "LONG" 50000 51000
  /\ _validate_stop_loss_take_profit "LONG" 50000 51000 [55000]
     <> StopValid
  /\ api_log st' = api_log initial_engine
  /\ pending_limit_orders st' = pending_limit_orders initial_engine
  /\ position_fields initial_engine = (None, None, 0)
  /\ position_fields st' = (Some "Buy", Some "BTCUSDT_PERPETUAL", 50000)
  /\ position_fields st' <> position_fields initial_engine.
Proof.
  cbv zeta.
  split.
  { split; [reflexivity |]. left. split; [reflexivity |]. left.
    discriminate. }
  split; [vm_compute; discriminate |].
  split; [vm_compute; reflexivity |].
  split; [vm_compute; reflexivity |].
  split; [reflexivity |].
  split; [vm_compute; reflexivity |].
  vm_compute. discriminate.
Qed.

(** ** Order sizing *)

Lemma clamp_matches_spec raw lo hi :
  lo <= hi -> py_min (py_max raw lo) hi = spec_clamp raw lo hi.
Proof.
  intros H. unfold py_min, py_max, spec_clamp, Qgtb.
  destruct (Qltb raw lo) eqn:E1.
  - destruct (Qltb hi lo) eqn:E2; [qprop; lra | reflexivity].
  - reflexivity.
Qed.

Lemma execute_decision_log cfg st a decision all_market_data action sym :
  d_action decision = Some action ->
  action = "LONG" \/ action = "SHORT" ->
  d_target_symbol decision = Some sym ->
  exists st1 closes,
    api_log st1 = api_log st ++ closes
    /\ Forall (fun r => is_opening r = false) closes
    /\ (outcome_state (_execute_decision cfg st a decision all_market_data)
        = st
        \/ outcome_state (_execute_decision cfg st a decision all_market_data)
           = _open_position cfg st1 (xa_open a) action sym
               (clamp_position_size cfg decision) (clamp_leverage cfg decision)
               (get (d_reason decision) "")
               (get (d_order_type decision) "Market")
               (get (d_entry_price decision) 0)
               (get (d_stop_loss decision) 0)
               (get (d_take_profit decision) [])
               (get (all_market_data !! sym) empty_market_data)
               decision).
Proof.
  intros Ha Hact Hsym. unfold _execute_decision. rewrite Ha, Hsym.
  cbn [get].
  assert (Hnh : String.eqb action "HOLD" = false)
    by (destruct Hact as [-> | ->]; reflexivity).
  assert (Hnc : String.eqb action "CLOSE" = false)
    by (destruct Hact as [-> | ->]; reflexivity).
  assert (Hls : String.eqb action "LONG" || String.eqb action "SHORT" = true)
    by (destruct Hact as [-> | ->]; reflexivity).
  rewrite Hnh, Hnc, Hls.
  destruct (has_pending_order _ _ _).
  { exists st, []. rewrite app_nil_r. repeat split; auto. }
  destruct (truthy (current_position st) && need_switch st action sym).
  - destruct (close_position_log st (xa_close a) "换仓") as (closes & Hc & Hf).
    exists (_close_position st (xa_close a) "换仓"), closes.
    repeat split; auto.
  - exists st, []. rewrite app_nil_r. repeat split; auto.
Qed.

(** A formatter whose tick is not zero returns a price. *)
Lemma format_price_some rules symbol x :
  (forall r, rules !! symbol = Some r -> ~ tick_size r == 0) ->
  exists p, _format_price rules symbol x = Some p.
Proof.
  intros Htick. unfold _format_price.
  destruct (rules !! symbol) as [r |]; [| eauto].
  specialize (Htick r eq_refl).
  destruct (Qgeb (tick_size r) 1); [eauto |].
  destruct (Qeqb (tick_size r) 0) eqn:E; [| eauto].
  qprop. contradiction.
Qed.

(** An open attempt that passes every check sends its order: with the
    ticker read at a non-zero price, a sufficient balance, a quantity
    that formats and validates, valid stops and a tick that is not zero,
    the log grows by exactly one opening order for the formatted
    quantity, accepted or not. *)
Lemma open_position_sends cfg st a action symbol position_size_pct leverage
    reason order_type entry stop_loss take_profit market_data decision
    price q :
  oa_ticker a = Some price ->
  ~ price == 0 ->
  min_balance cfg <= ia_balance (oa_info a) ->
  _format_quantity (trading_rules cfg) (bybit_symbol_of symbol)
    (ia_balance (oa_info a) * position_size_pct * leverage / price) = Some q ->
  _validate_order (trading_rules cfg) (bybit_symbol_of symbol) q price
  = OrderValid ->
  _validate_stop_loss_take_profit action
    (fst (open_order_price order_type entry price)) stop_loss take_profit
  = StopValid ->
  (forall r, trading_rules cfg !! bybit_symbol_of symbol = Some r ->
             ~ tick_size r == 0) ->
  exists pr sl tp,
    api_log (_open_position cfg st a action symbol position_size_pct leverage
               reason order_type entry stop_loss take_profit market_data
               decision)
    = api_log st
      ++ [PlaceOrder (bybit_symbol_of symbol)
            (if String.eqb action "LONG" then "Buy" else "Sell")
            (snd (open_order_price order_type entry price)) q pr false sl tp].
Proof.
  intros Ht Hp Hbal Hq Hv Hs Htick. unfold _open_position. rewrite Ht.
  pose proof (get_position_info_frame st (oa_info a)) as (Hlog & _).
  pose proof (get_position_info_balance st (oa_info a)) as Hb.
  destruct (_get_position_info st (oa_info a)) as [st1 balance].
  cbn [fst snd] in Hlog, Hb. subst balance.
  assert (E1 : Qltb (ia_balance (oa_info a)) (min_balance cfg) = false)
    by (qprop; exact Hbal).
  rewrite E1. unfold open_sizing.
  assert (E2 : Qeqb price 0 = false).
  { destruct (Qeqb price 0) eqn:E; [qprop; contradiction | reflexivity]. }
  rewrite E2, Hq, Hv.
  destruct (open_order_price order_type entry price) as [order_price ot].
  cbn [fst snd] in *. rewrite Hs. unfold open_order_request.
  assert (Hpr : exists pr,
             (if String.eqb ot "Limit"
              then option_map Some
                     (_format_price (trading_rules cfg)
                        (bybit_symbol_of symbol) order_price)
              else Some None) = Some pr).
  { destruct (String.eqb ot "Limit"); [| eauto].
    destruct (format_price_some _ _ order_price Htick) as [y ->].
    exists (Some y). reflexivity. }
  assert (Hsl : exists sl,
             (if Qgtb stop_loss 0
              then option_map Some
                     (_format_price (trading_rules cfg)
                        (bybit_symbol_of symbol) stop_loss)
              else Some None) = Some sl).
  { destruct (Qgtb stop_loss 0); [| eauto].
    destruct (format_price_some _ _ stop_loss Htick) as [y ->].
    exists (Some y). reflexivity. }
  assert (Htp : exists tp,
             match first_target take_profit with
             | Some tp0 =>
                 if Qgtb tp0 0
                 then option_map Some
                        (_format_price (trading_rules cfg)
                           (bybit_symbol_of symbol) tp0)
                 else Some None
             | None => Some None
             end = Some tp).
  { destruct (first_target take_profit) as [tp0 |]; [| eauto].
    destruct (Qgtb tp0 0); [| eauto].
    destruct (format_price_some _ _ tp0 Htick) as [y ->].
    exists (Some y). reflexivity. }
  destruct Hpr as [pr ->], Hsl as [sl ->], Htp as [tp ->].
  cbn [opt_bind]. exists pr, sl, tp.
  destruct (truthy (oa_order_id a)).
  - destruct (String.eqb ot "Limit");
      cbn [api_log set_entry_record set_position set_pending count_success
           set_counters send];
      now rewrite Hlog.
  - cbn [api_log count_failure set_counters send]. now rewrite Hlog.
Qed.

(** C2.  With the documented default bounds (no override in the
    configuration), take a LONG/SHORT decision that names a symbol, a
    position-size fraction [f] and a leverage [l], and let it be
    executed: no order of the same symbol and side is pending, the ticker
    reads a non-zero price, the balance is not below the minimum, the
    quantity formats and passes the order checks, the stops are valid and
    the tick is not zero.  Then the sizing lines compute
    notional = balance × clamp(f, 0.03, 0.30) × clamp(l, 1, 15) and
    quantity = notional / price, and after whatever closes the switch of
    position requires, the engine sends exactly one opening order, for
    that quantity formatted by [_format_quantity]. *)
Theorem execute_decision_sizing cfg st a decision all_market_data action
    sym f l price q :
  cfg_min_position_pct cfg = None ->
  cfg_max_position_pct cfg = None ->
  cfg_max_leverage cfg = None ->
  d_action decision = Some action ->
  action = "LONG" \/ action = "SHORT" ->
  d_target_symbol decision = Some sym ->
  d_position_size decision = Some f ->
  d_leverage decision = Some l ->
  oa_ticker (xa_open a) = Some price ->
  ~ price == 0 ->
  let balance := ia_balance (oa_info (xa_open a)) in
  let notional := balance * spec_clamp f 0.03 0.30 * spec_clamp l 1 15 in
  let qty := notional / price in
  let side := if String.eqb action "LONG" then "Buy" else "Sell" in
  let order_price :=
    open_order_price (get (d_order_type decision) "Market")
      (get (d_entry_price decision) 0) price in
  has_pending_order (pending_limit_orders st) (bybit_symbol_of sym) side
  = false ->
  min_balance cfg <= balance ->
  _format_quantity (trading_rules cfg) (bybit_symbol_of sym) qty = Some q ->
  _validate_order (trading_rules cfg) (bybit_symbol_of sym) q price
  = OrderValid ->
  _validate_stop_loss_take_profit action (fst order_price)
    (get (d_stop_loss decision) 0) (get (d_take_profit decision) [])
  = StopValid ->
  (forall r, trading_rules cfg !! bybit_symbol_of sym = Some r ->
             ~ tick_size r == 0) ->
  open_sizing balance (clamp_position_size cfg decision)
    (clamp_leverage cfg decision) price = Some (notional, qty)
  /\ exists closes pr sl tp,
       Forall (fun r => is_opening r = false) closes
       /\ api_log (outcome_state
                     (_execute_decision cfg st a decision all_market_data))
          = api_log st ++ closes
            ++ [PlaceOrder (bybit_symbol_of sym) side (snd order_price) q pr
                  false sl tp].
Proof.
  intros Hmin Hmax Hlev Ha Hact Hsym Hf Hl Ht Hp balance notional qty side
    order_price Hdup Hbal Hq Hv Hs Htick.
  assert (Hps : clamp_position_size cfg decision = spec_clamp f 0.03 0.30).
  { unfold clamp_position_size, max_position_pct.
    rewrite Hmin, Hmax, Hf. cbn [get].
    change (if Qgtb 0.30 1 then 0.30 / 100 else 0.30) with 0.30.
    apply clamp_matches_spec. discriminate. }
  assert (Hlv : clamp_leverage cfg decision = spec_clamp l 1 15).
  { unfold clamp_leverage. rewrite Hlev, Hl. cbn [get].
    apply clamp_matches_spec. discriminate. }
  split.
  { unfold open_sizing. rewrite Hps, Hlv.
    destruct (Qeqb price 0) eqn:E; [qprop; contradiction | reflexivity]. }
  assert (Hnh : String.eqb action "HOLD" = false)
    by (destruct Hact as [-> | ->]; reflexivity).
  assert (Hnc : String.eqb action "CLOSE" = false)
    by (destruct Hact as [-> | ->]; reflexivity).
  assert (Hls : String.eqb action "LONG" || String.eqb action "SHORT" = true)
    by (destruct Hact as [-> | ->]; reflexivity).
  unfold _execute_decision. rewrite Ha, Hsym. cbn [get].
  rewrite Hnh, Hnc, Hls. fold side. rewrite Hdup. cbn [outcome_state].
  rewrite Hps, Hlv.
  set (st1 := if truthy (current_position st) && need_switch st action sym
              then _close_position st (xa_close a) "换仓" else st).
  assert (Hc : exists closes,
             api_log st1 = api_log st ++ closes
             /\ Forall (fun r => is_opening r = false) closes).
  { subst st1. destruct (truthy _ && need_switch _ _ _).
    - apply close_position_log.
    - exists []. rewrite app_nil_r. split; [reflexivity | constructor]. }
  destruct Hc as (closes & Hc & Hfc).
  destruct (open_position_sends cfg st1 (xa_open a) action sym
              (spec_clamp f 0.03 0.30) (spec_clamp l 1 15)
              (get (d_reason decision) "")
              (get (d_order_type decision) "Market")
              (get (d_entry_price decision) 0)
              (get (d_stop_loss decision) 0)
              (get (d_take_profit decision) [])
              (get (all_market_data !! sym) empty_market_data)
              decision price q Ht Hp Hbal Hq Hv Hs Htick)
    as (pr & sl & tp & Hlog).
  exists closes, pr, sl, tp. split; [exact Hfc |].
  rewrite Hlog, Hc, <- app_assoc. reflexivity.
Qed.

(** The example of the specification: balance 1000, fraction 0.10,
    leverage 10 and price 50000 give a notional of 1000 and a quantity of
    0.02, and executing the decision sends one market buy of 0.02. *)
Lemma execute_decision_sizing_witness :
  1000 * spec_clamp 0.10 0.03 0.30 * spec_clamp 10 1 15 == 1000
  /\ 1000 * spec_clamp 0.10 0.03 0.30 * spec_clamp 10 1 15 / 50000 == 0.02
  /\ exists closes pr sl tp,
       Forall (fun r => is_opening r = false) closes
       /\ api_log (outcome_state
                     (_execute_decision sample_config initial_engine
                        sample_exec_answers sample_long ∅))
          = api_log initial_engine ++ closes
            ++ [PlaceOrder "BTCUSDT" "Buy" "Market" 0.020 pr false sl tp].
Proof.
  split; [reflexivity |]. split; [reflexivity |].
  apply (proj2 (execute_decision_sizing sample_config initial_engine
                  sample_exec_answers sample_long ∅ "LONG"
                  "BTCUSDT_PERPETUAL" 0.10 10 50000 0.020
                  eq_refl eq_refl eq_refl eq_refl (or_introl eq_refl)
                  eq_refl eq_refl eq_refl eq_refl ltac:(discriminate)
                  eq_refl ltac:(discriminate) eq_refl eq_refl eq_refl
                  ltac:(intros r [= <-]; discriminate))).
Defined.

(** The example of the specification, run through the engine: balance
    1000, fraction 0.10, leverage 10, price 50000 send one market buy of
    0.02. *)
Example execute_sample_long :
  api_log (outcome_state
             (_execute_decision sample_config initial_engine
                sample_exec_answers sample_long ∅))
  = [PlaceOrder "BTCUSDT" "Buy" "Market" 0.020 None false None None].
Proof. vm_compute. reflexivity. Qed.

(** ** Duplicate orders *)

(** C9.  For a LONG/SHORT decision, when a pending limit order exists for
    the same exchange symbol and the same order side, [_execute_decision]
    returns with the engine state exactly as it was: no order is sent, no
    position is closed, the position fields and the pending-order set are
    unchanged. *)
Theorem execute_skips_duplicate cfg st a decision all_market_data action sym
    order_id info :
  d_action decision = Some action ->
  action = "LONG" \/ action = "SHORT" ->
  d_target_symbol decision = Some sym ->
  pending_limit_orders st !! order_id = Some info ->
  oi_symbol info = bybit_symbol_of sym ->
  oi_side info = (if String.eqb action "LONG" then "Buy" else "Sell") ->
  _execute_decision cfg st a decision all_market_data = Returned st.
Proof.
  intros Ha Hact Hsym Hin Hs Hside. unfold _execute_decision.
  rewrite Ha, Hsym. cbn [get].
  assert (Hnh : String.eqb action "HOLD" = false)
    by (destruct Hact as [-> | ->]; reflexivity).
  assert (Hnc : String.eqb action "CLOSE" = false)
    by (destruct Hact as [-> | ->]; reflexivity).
  assert (Hls : String.eqb action "LONG" || String.eqb action "SHORT" = true)
    by (destruct Hact as [-> | ->]; reflexivity).
  rewrite Hnh, Hnc, Hls.
  assert (Hdup : has_pending_order (pending_limit_orders st)
                   (bybit_symbol_of sym)
                   (if String.eqb action "LONG" then "Buy" else "Sell")
                 = true).
  { unfold has_pending_order. apply existsb_exists.
    exists (order_id, info). split.
    - apply list_elem_of_In, elem_of_map_to_list, Hin.
    - cbn [snd]. rewrite Hs, Hside, !String.eqb_refl. reflexivity. }
  now rewrite Hdup.
Qed.

Lemma execute_skips_duplicate_witness :
  _execute_decision sample_config engine_with_pending sample_exec_answers
    sample_long ∅
  = Returned engine_with_pending.
Proof.
  apply (execute_skips_duplicate sample_config engine_with_pending
           sample_exec_answers sample_long ∅ "LONG" "BTCUSDT_PERPETUAL"
           "order-1" sample_order_info);
    try reflexivity.
  left. reflexivity.
Defined.

(** ** The combined protection check *)

Lemma crash_drop_spec market_data :
  is_Some (crash_drop market_data) <-> drop_over_5pct market_data = true.
Proof.
  unfold crash_drop, drop_over_5pct, multi_asset_crash_threshold, Qgtb.
  set (o := get (c_open (get (md_15m market_data) empty_candle)) 0).
  set (c := get (c_close (get (md_15m market_data) empty_candle)) 0).
  assert (Hth : Qltb (5 / 100) ((o - c) / o) = Qltb 0.05 ((o - c) / o)).
  { apply Qltb_proper; reflexivity. }
  rewrite Hth.
  destruct (Qleb o 0) eqn:E1.
  - assert (E2 : Qltb 0 o = false) by (qprop; exact E1).
    rewrite E2. cbn. split; [intros [? [=]] | discriminate].
  - assert (E2 : Qltb 0 o = true) by (qprop; exact E1).
    rewrite E2. cbn [andb].
    destruct (Qltb 0.05 ((o - c) / o)); split; eauto; try discriminate.
    intros [? [=]].
Qed.

Lemma crash_scan_length items :
  length (crash_scan items)
  = length (filter (fun kv : string * MarketData =>
                      drop_over_5pct (snd kv) = true) items).
Proof.
  induction items as [| [symbol market_data] rest IH]; [reflexivity |].
  cbn [crash_scan]. rewrite filter_cons. cbn [snd].
  pose proof (crash_drop_spec market_data) as Hspec.
  destruct (crash_drop market_data) as [d |].
  - rewrite decide_True by (apply Hspec; eauto). cbn. now rewrite IH.
  - rewrite decide_False; [exact IH |].
    intros H. apply Hspec in H as [? [=]].
Qed.

Lemma filter_map_to_list_length {A} (P : string * A -> Prop)
    `{!forall kv, base.Decision (P kv)} (m : gmap string A) :
  length (filter P (map_to_list m)) = size (filter P m).
Proof.
  rewrite <- length_map_to_list. apply Permutation_length.
  apply NoDup_Permutation.
  - apply NoDup_filter, NoDup_map_to_list.
  - apply NoDup_map_to_list.
  - intros [i x]. rewrite list_elem_of_filter, !elem_of_map_to_list.
    rewrite map_lookup_filter_Some. cbn. tauto.
Qed.

Lemma crash_count_spec all_market_data :
  length (crash_scan (map_to_list all_market_data))
  = crashed_symbols all_market_data.
Proof.
  rewrite crash_scan_length. apply filter_map_to_list_length.
Qed.

Lemma check_multi_asset_crash_spec all_market_data :
  is_Some (check_multi_asset_crash all_market_data)
  <-> (2 <= crashed_symbols all_market_data)%nat.
Proof.
  unfold check_multi_asset_crash. rewrite crash_count_spec.
  destruct (Nat.leb 2 (crashed_symbols all_market_data)) eqn:E.
  - apply Nat.leb_le in E. split; eauto.
  - apply Nat.leb_gt in E. split; [intros [? [=]] | lia].
Qed.

Lemma note_reasons timestamp ty found acc :
  snd (note timestamp ty found acc) = snd acc ++ olist found.
Proof. destruct found; cbn; [reflexivity | now rewrite app_nil_r]. Qed.

Lemma note_stops timestamp ty found acc :
  recent_stop_losses (fst (note timestamp ty found acc))
  = recent_stop_losses (fst acc).
Proof. destruct found; reflexivity. Qed.

Lemma check_consecutive_stops_reason self self' timestamp :
  recent_stop_losses self = recent_stop_losses self' ->
  snd (check_consecutive_stops self timestamp)
  = snd (check_consecutive_stops self' timestamp).
Proof.
  intros H. unfold check_consecutive_stops. rewrite H.
  destruct (Nat.leb _ _); reflexivity.
Qed.

(** The reasons [comprehensive_check] returns, detector by detector, and
    its verdict. *)
Lemma comprehensive_check_reasons self now_minute all_market_data balance
    timestamp has_position current_symbol :
  let res := comprehensive_check self now_minute all_market_data balance
               timestamp has_position current_symbol in
  snd (snd res)
  = olist (check_multi_asset_crash all_market_data)
    ++ match held_market_data all_market_data has_position current_symbol with
       | Some market_data =>
           olist (check_flash_crash market_data)
           ++ olist (check_liquidity_crisis now_minute market_data)
           ++ olist (check_volatility_surge market_data)
       | None => []
       end
    ++ olist (snd (check_consecutive_stops self timestamp))
  /\ fst (snd res) = Nat.ltb 0 (length (snd (snd res))).
Proof.
  cbv zeta. unfold comprehensive_check, held_market_data.
  set (acc1 := note timestamp multi_asset_crash
                 (check_multi_asset_crash all_market_data) (self, [])).
  set (held := if has_position && truthy current_symbol
               then all_market_data !! get current_symbol "" else None).
  set (acc2 := match held with
               | Some market_data =>
                   note timestamp volatility_surge
                     (check_volatility_surge market_data)
                     (note timestamp liquidity_crisis
                        (check_liquidity_crisis now_minute market_data)
                        (note timestamp flash_crash
                           (check_flash_crash market_data) acc1))
               | None => acc1
               end).
  assert (H1 : snd acc1 = olist (check_multi_asset_crash all_market_data)).
  { unfold acc1. now rewrite note_reasons. }
  assert (S1 : recent_stop_losses (fst acc1) = recent_stop_losses self).
  { unfold acc1. now rewrite note_stops. }
  assert (H2 : snd acc2
               = snd acc1
                 ++ match held with
                    | Some market_data =>
                        olist (check_flash_crash market_data)
                        ++ olist (check_liquidity_crisis now_minute market_data)
                        ++ olist (check_volatility_surge market_data)
                    | None => []
                    end).
  { unfold acc2. destruct held as [market_data |].
    - rewrite !note_reasons. now rewrite <- !app_assoc.
    - now rewrite app_nil_r. }
  assert (S2 : recent_stop_losses (fst acc2) = recent_stop_losses self).
  { unfold acc2. destruct held; rewrite ?note_stops; exact S1. }
  pose proof (check_consecutive_stops_reason (fst acc2) self timestamp S2)
    as Hcs.
  destruct (check_consecutive_stops (fst acc2) timestamp) as [self' found].
  cbn [snd] in Hcs. subst found.
  cbn [fst snd]. rewrite note_reasons. cbn [snd].
  rewrite H2, H1. split; [now rewrite <- app_assoc | reflexivity].
Qed.

Lemma check_flash_crash_type market_data r :
  check_flash_crash market_data = Some r -> reason_type r = Some flash_crash.
Proof.
  unfold check_flash_crash.
  repeat match goal with
    | |- context [if ?b then _ else _] => destruct b
    end; intros [= <-]; reflexivity.
Qed.

Lemma check_liquidity_crisis_type now_minute market_data r :
  check_liquidity_crisis now_minute market_data = Some r ->
  reason_type r = Some liquidity_crisis.
Proof.
  unfold check_liquidity_crisis.
  repeat match goal with
    | |- context [if ?b then _ else _] => destruct b
    end; intros [= <-]; reflexivity.
Qed.

Lemma check_volatility_surge_type market_data r :
  check_volatility_surge market_data = Some r ->
  reason_type r = Some volatility_surge.
Proof.
  unfold check_volatility_surge.
  destruct (_ && _); intros [= <-]; reflexivity.
Qed.

Lemma check_consecutive_stops_type self timestamp r :
  snd (check_consecutive_stops self timestamp) = Some r ->
  reason_type r = Some consecutive_stops.
Proof.
  unfold check_consecutive_stops.
  destruct (Nat.leb _ _); intros [= <-]; reflexivity.
Qed.

Lemma check_multi_asset_crash_type all_market_data r :
  check_multi_asset_crash all_market_data = Some r ->
  reason_type r = Some multi_asset_crash.
Proof.
  unfold check_multi_asset_crash.
  destruct (Nat.leb _ _); intros [= <-]; reflexivity.
Qed.

Lemma In_olist {A} (o : option A) (x : A) : In x (olist o) <-> o = Some x.
Proof.
  destruct o; cbn; split; try tauto; try discriminate.
  - intros [-> | []]. reflexivity.
  - intros [= ->]. now left.
Qed.

(** C7.  [comprehensive_check] returns must-protect together with a
    multi-asset-crash reason exactly when at least 2 tracked symbols show
    an open-to-close drop of more than 5% on their latest 15m candle; when
    at most 1 symbol does and no other detector matches (flash crash,
    liquidity crisis and volatility surge on the held symbol, consecutive
    stops), it returns false with no reason. *)
Theorem comprehensive_check_multi_asset self now_minute all_market_data
    balance timestamp has_position current_symbol :
  let res := comprehensive_check self now_minute all_market_data balance
               timestamp has_position current_symbol in
  let should_protect := fst (snd res) in
  let reasons := snd (snd res) in
  ((should_protect = true
    /\ exists r, In r reasons /\ reason_type r = Some multi_asset_crash)
   <-> (2 <= crashed_symbols all_market_data)%nat)
  /\ ((crashed_symbols all_market_data <= 1)%nat ->
      (forall market_data,
         held_market_data all_market_data has_position current_symbol
         = Some market_data ->
         check_flash_crash market_data = None
         /\ check_liquidity_crisis now_minute market_data = None
         /\ check_volatility_surge market_data = None) ->
      snd (check_consecutive_stops self timestamp) = None ->
      should_protect = false /\ reasons = []).
Proof.
  intros res should_protect reasons.
  destruct (comprehensive_check_reasons self now_minute all_market_data
              balance timestamp has_position current_symbol) as [Hr Hp].
  fold res in Hr, Hp. fold reasons in Hr, Hp. fold should_protect in Hp.
  pose proof (check_multi_asset_crash_spec all_market_data) as Hspec.
  split; [split |].
  - intros [_ (r & Hin & Hty)]. apply Hspec.
    rewrite Hr in Hin. rewrite !in_app_iff in Hin.
    destruct Hin as [Hin | [Hin | Hin]].
    + apply In_olist in Hin. eauto.
    + destruct (held_market_data _ _ _) as [market_data |]; [| destruct Hin].
      rewrite !in_app_iff in Hin. destruct Hin as [Hin | [Hin | Hin]];
        apply In_olist in Hin.
      * apply check_flash_crash_type in Hin. congruence.
      * apply check_liquidity_crisis_type in Hin. congruence.
      * apply check_volatility_surge_type in Hin. congruence.
    + apply In_olist in Hin. apply check_consecutive_stops_type in Hin.
      congruence.
  - intros Hn. apply Hspec in Hn as [r Hm].
    assert (Hin : In r reasons).
    { rewrite Hr, Hm. cbn. now left. }
    split.
    + rewrite Hp. destruct reasons; [destruct Hin | reflexivity].
    + exists r. split; [exact Hin |].
      now apply check_multi_asset_crash_type in Hm.
  - intros Hn Hheld Hstops.
    assert (Hm : check_multi_asset_crash all_market_data = None).
    { destruct (check_multi_asset_crash all_market_data) eqn:E;
        [| reflexivity].
      assert (Hs : (2 <= crashed_symbols all_market_data)%nat)
        by (apply Hspec; eauto).
      lia. }
    assert (Hnil : reasons = []).
    { rewrite Hr, Hm, Hstops.
      destruct (held_market_data _ _ _) as [market_data |];
        [| reflexivity].
      destruct (Hheld market_data eq_refl) as (-> & -> & ->). reflexivity. }
    split; [| exact Hnil]. rewrite Hp, Hnil. reflexivity.
Qed.

Lemma comprehensive_check_multi_asset_witness :
  let res2 := comprehensive_check protection_reset 7 two_crashing 1000
                1700000000 false None in
  let res1 := comprehensive_check protection_reset 7 one_crashing 1000
                1700000000 false None in
  (fst (snd res2) = true
   /\ exists r, In r (snd (snd res2))
                /\ reason_type r = Some multi_asset_crash)
  /\ fst (snd res1) = false /\ snd (snd res1) = [].
Proof.
  intros res2 res1. split.
  - apply (comprehensive_check_multi_asset protection_reset 7 two_crashing
             1000 1700000000 false None).
    vm_compute. lia.
  - apply (comprehensive_check_multi_asset protection_reset 7 one_crashing
             1000 1700000000 false None).
    + vm_compute. lia.
    + intros market_data [=].
    + reflexivity.
Defined.

(** ** Daily loss limit *)

Lemma comprehensive_check_ignores_balance self now_minute all_market_data
    balance balance' timestamp has_position current_symbol :
  comprehensive_check self now_minute all_market_data balance timestamp
    has_position current_symbol
  = comprehensive_check self now_minute all_market_data balance' timestamp
      has_position current_symbol.
Proof. reflexivity. Qed.

(** C4 (the code at the failing input).  The day opens with a balance of
    1000 and an hour later the balance is 840.  Called at those two
    moments, [check_max_daily_loss] would take 1000 as the day's baseline
    and then report a 16% loss.  The trading loop, run from the initial
    engine through those two iterations, does not halt at the second one:
    it executes the policy's LONG decision and sends the opening order,
    and the protection state still has no baseline.  The verdict of
    [comprehensive_check], the only check the loop consults, is the same
    for every balance. *)
Theorem daily_loss_not_consulted :
  (date_of 1700000000 = date_of 1700003600
   /\ snd (check_max_daily_loss protection_reset 1000 1700000000) = DailyOk
   /\ exists pct,
        snd (check_max_daily_loss
               (fst (check_max_daily_loss protection_reset 1000 1700000000))
               840 1700003600)
        = DailyTriggered (ReasonDailyLoss pct)
        /\ pct == 16)
  /\ snd (trading_loop_iteration sample_config initial_engine
            morning_loop_answers) = DecisionExecuted
  /\ snd (trading_loop_iteration sample_config engine_after_morning
            drawdown_loop_answers) = DecisionExecuted
  /\ api_log engine_after_morning = []
  /\ Exists (fun r => is_opening r = true)
       (api_log (fst (trading_loop_iteration sample_config
                        engine_after_morning drawdown_loop_answers)))
  /\ daily_start_balance
       (extreme_protection
          (fst (trading_loop_iteration sample_config engine_after_morning
                  drawdown_loop_answers))) = None
  /\ (forall self now_minute all_market_data balance balance' timestamp
             has_position current_symbol,
        comprehensive_check self now_minute all_market_data balance timestamp
          has_position current_symbol
        = comprehensive_check self now_minute all_market_data balance'
            timestamp has_position current_symbol).
Proof.
  split; [split; [| split] |].
  - vm_compute. reflexivity.
  - vm_compute. reflexivity.
  - eexists. split; [vm_compute; reflexivity | reflexivity].
  - split; [vm_compute; reflexivity |].
    split; [vm_compute; reflexivity |].
    split; [vm_compute; reflexivity |].
    split; [vm_compute; apply Exists_cons_hd; reflexivity |].
    split; [vm_compute; reflexivity |].
    intros. reflexivity.
Qed.

(** ** Stop-loss window *)

Lemma check_drawdown_after_close_protection st balance :
  extreme_protection (fst (_check_drawdown_after_close st balance))
  = extreme_protection st.
Proof.
  unfold _check_drawdown_after_close.
  repeat match goal with
    | |- context [if ?b then _ else _] => destruct b
    end; reflexivity.
Qed.

(** [_close_position] never touches the protection state, whatever the
    close reason. *)
Lemma close_position_protection st a reason :
  extreme_protection (_close_position st a reason) = extreme_protection st.
Proof.
  unfold _close_position.
  destruct (negb (truthy (current_position st))
            || negb (truthy (current_symbol st))); [reflexivity |].
  destruct (ca_positions a) as [[| pos rest] |]; try reflexivity.
  destruct (Qeqb (pr_size pos) 0); [reflexivity |].
  destruct (truthy (ca_order_id a)); [| reflexivity].
  destruct (ca_bookkeeping a); [| reflexivity |].
  all: match goal with
       | |- context [_get_position_info ?s ?i] =>
           pose proof (get_position_info_frame s i) as (_ & _ & Hp);
           destruct (_get_position_info s i) as [st1 balance]
       end;
    cbn [fst] in Hp;
    pose proof (check_drawdown_after_close_protection st1 balance) as Hd;
    destruct (_check_drawdown_after_close st1 balance) as [st2 flag];
    cbn [fst] in Hd; cbn; now rewrite Hd, Hp.
Qed.

(** The pruning of [check_consecutive_stops]: what stays is in the order it
    was, and is younger than 4 hours. *)
Lemma check_consecutive_stops_prunes self timestamp t :
  In t (recent_stop_losses (fst (check_consecutive_stops self timestamp)))
  <-> In t (recent_stop_losses self) /\ timestamp - 4 * 3600 < t.
Proof.
  unfold check_consecutive_stops, stop_loss_window_hours.
  destruct (Nat.leb _ _); cbn [fst recent_stop_losses];
    rewrite <- !list_elem_of_In, list_elem_of_filter;
    unfold Qgtb; rewrite Qltb_lt; tauto.
Qed.

(** C5 (the code at the failing input).  A close that is filled, with a
    close reason naming a stop, clears the position and counts the trade
    but appends nothing to the stop-loss window: the window is as empty as
    before.  No close, with any reason, changes the protection state. *)
Theorem close_records_no_stop :
  let st' := _close_position engine_in_long filled_close_answers
               "stop loss hit" in
  current_position st' = None
  /\ total_trades st' = S (total_trades engine_in_long)
  /\ Exists (fun r => match r with
                      | PlaceOrder _ _ _ _ _ true _ _ => True
                      | _ => False
                      end) (api_log st')
  /\ recent_stop_losses (extreme_protection engine_in_long) = []
  /\ recent_stop_losses (extreme_protection st') = []
  /\ (forall st a reason,
        extreme_protection (_close_position st a reason)
        = extreme_protection st).
Proof.
  cbv zeta. split; [vm_compute; reflexivity |].
  split; [vm_compute; reflexivity |].
  split; [vm_compute; apply Exists_cons_hd; exact I |].
  split; [reflexivity |]. split; [vm_compute; reflexivity |].
  apply close_position_protection.
Qed.

(** ** Pending limit orders past their timeout *)

Lemma lookup_fold_delete {A} (rm : list string) (m : gmap string A) k :
  fold_left (fun p order_id => delete order_id p) rm m !! k
  = if decide (k ∈ rm) then None else m !! k.
Proof.
  revert m. induction rm as [| r rm IH]; intros m; cbn [fold_left].
  - rewrite decide_False; [reflexivity | apply not_elem_of_nil].
  - rewrite IH. destruct (decide (k = r)) as [-> | Hne].
    + rewrite lookup_delete_eq.
      rewrite (decide_True (P := r ∈ r :: rm)) by apply list_elem_of_here.
      now destruct (decide (r ∈ rm)).
    + rewrite lookup_delete_ne by congruence.
      destruct (decide (k ∈ rm)) as [Hin | Hnin].
      * rewrite decide_True; [reflexivity | now apply list_elem_of_further].
      * rewrite decide_False; [reflexivity |].
        rewrite elem_of_cons. tauto.
Qed.




Section PendingLoop.
Variables (cfg : Config) (current_time : Q).
Variable answers : string -> PendingAnswers.

Local Abbreviation step := (pending_round cfg current_time answers).






End PendingLoop.


Lemma check_pending_unfold cfg st current_time answers :
  _check_pending_limit_orders cfg st current_time answers
  = let acc := fold_left (pending_round cfg current_time answers)
                 (map_to_list (pending_limit_orders st)) (st, []) in
    set_pending (fst acc)
      (fold_left (fun p order_id => delete order_id p) (snd acc)
         (pending_limit_orders (fst acc))).
Proof.
  unfold _check_pending_limit_orders, pending_round. cbv zeta.
  now destruct (fold_left _ _ _).
Qed.



Section PendingTimeout.
Variables (cfg : Config) (st : Engine) (current_time : Q).
Variable answers : string -> PendingAnswers.
Variables (order_id : string) (info : OrderInfo) (order_status : string).

(** The order is tracked, still open on the exchange, and has waited at
    least the timeout. *)
Hypothesis Htracked : pending_limit_orders st !! order_id = Some info.
Hypothesis Hstatus :
  _get_order_status (pa_orders (answers order_id)) order_id
  = Some order_status.
Hypothesis Hopen : is_open_status order_status = true.
Hypothesis Hage :
  limit_order_timeout cfg <= current_time - oi_create_time info.

(** Order ids the exchange hands out for other re-submitted orders are
    neither this order's id nor the id of its own re-submission. *)
Hypothesis Hids :
  forall other n,
    other <> order_id ->
    is_Some (pending_limit_orders st !! other) ->
    ma_new_order_id (pa_modify (answers other)) = Some n ->
    n <> order_id
    /\ ma_new_order_id (pa_modify (answers order_id)) <> Some n.

Local Abbreviation step := (pending_round cfg current_time answers).
Local Abbreviation a := (answers order_id).
Local Abbreviation final :=
  (_check_pending_limit_orders cfg st current_time answers).




End PendingTimeout.




(** ** Trailing stop *)

Lemma trailing_candidate_long cfg entry stop price atr new_stop :
  0 < stop ->
  trailing_candidate cfg "Buy" entry stop price atr = Some new_stop ->
  new_stop = price - atr * trailing_stop_distance_multiplier cfg
  /\ stop < new_stop.
Proof.
  intros Hs. unfold trailing_candidate.
  cbn [String.eqb Ascii.eqb Bool.eqb].
  destruct (Qgeb _ _); [| discriminate].
  assert (E : Qgtb stop 0 = true) by (qprop; exact Hs).
  rewrite E.
  destruct (Qgtb _ stop) eqn:E2; [| discriminate].
  intros [= <-]. split; [reflexivity |]. qprop. exact E2.
Qed.

Lemma trailing_candidate_short cfg entry stop price atr new_stop :
  0 < stop ->
  trailing_candidate cfg "Sell" entry stop price atr = Some new_stop ->
  new_stop = price + atr * trailing_stop_distance_multiplier cfg
  /\ new_stop < stop.
Proof.
  intros Hs. unfold trailing_candidate.
  cbn [String.eqb Ascii.eqb Bool.eqb].
  destruct (Qgeb _ _); [| discriminate].
  assert (E : Qgtb stop 0 = true) by (qprop; exact Hs).
  rewrite E.
  destruct (Qltb _ stop) eqn:E2; [| discriminate].
  intros [= <-]. split; [reflexivity |]. qprop. exact E2.
Qed.

(** A check sends nothing, or exactly one stop: the formatted candidate of
    the first reported row, which is positive. *)
Lemma trailing_check_cases cfg st a :
  let st' := _check_and_update_trailing_stop cfg st a in
  let symbol := bybit_symbol_of (get (current_symbol st) "") in
  current_symbol st' = current_symbol st
  /\ current_position st' = current_position st
  /\ (api_log st' = api_log st
      \/ exists position rest price atr new_stop formatted,
           ta_positions a = Some (position :: rest)
           /\ ta_ticker a = Some price
           /\ opt_bind (ta_market a) trailing_atr = Some (Some atr)
           /\ trailing_candidate cfg (pr_side position)
                (pr_avg_price position) (pr_stop_loss position) price atr
              = Some new_stop
           /\ 0 < new_stop
           /\ _format_price (trading_rules cfg) symbol new_stop
              = Some formatted
           /\ api_log st' = api_log st ++ [SetTradingStop symbol formatted]).
Proof.
  cbv zeta. unfold _check_and_update_trailing_stop.
  destruct (negb (use_trailing_stop cfg)); [auto |].
  destruct (Qltb _ (trailing_stop_check_interval cfg)); [auto |].
  cbn [current_position current_symbol set_trailing].
  destruct (negb (truthy (current_position st))
            || negb (truthy (current_symbol st))); [auto |].
  destruct (ta_positions a) as [[| position rest] |]; auto.
  destruct (Qeqb (pr_size position) 0); [auto |].
  destruct (ta_ticker a) as [price |]; [| auto].
  destruct (opt_bind (ta_market a) trailing_atr) as [[atr |] |] eqn:Ha; auto.
  destruct (Qeqb atr 0); [auto |].
  destruct (trailing_candidate _ _ _ _ _ _) as [new_stop |] eqn:Hc; [| auto].
  destruct (Qgtb new_stop 0) eqn:Hpos; [| auto].
  destruct (_format_price _ _ _) as [formatted |] eqn:Hf; [| auto].
  split; [now destruct (ta_set_ok a) |].
  split; [now destruct (ta_set_ok a) |].
  right. exists position, rest, price, atr, new_stop, formatted.
  repeat split; try assumption; try reflexivity.
  - qprop. exact Hpos.
  - now destruct (ta_set_ok a).
Qed.

Lemma pushed_stop_none st st' :
  api_log st' = api_log st -> pushed_stop st st' = None.
Proof.
  intros H. unfold pushed_stop. rewrite H, drop_all. reflexivity.
Qed.

Lemma pushed_stop_one st st' symbol stop :
  api_log st' = api_log st ++ [SetTradingStop symbol stop] ->
  pushed_stop st st' = Some stop.
Proof.
  intros H. unfold pushed_stop. rewrite H, drop_app_length. reflexivity.
Qed.

Lemma bounded_round_comp step lo hi x y a :
  x == y -> bounded_round step lo hi x = Some a ->
  exists b, bounded_round step lo hi y = Some b /\ a == b.
Proof.
  intros Hxy. unfold bounded_round.
  destruct (step_round step x) as [s |] eqn:Hs; [| discriminate].
  intros [= <-].
  destruct (step_round_comp step x y s Hxy Hs) as (s' & -> & Hss).
  eexists; split; [reflexivity |]. now apply py_clamp_comp.
Qed.

Section PriceGrid.
Variables (cfg : Config) (symbol : string) (r : Rules).
Hypothesis Hrules : trading_rules cfg !! symbol = Some r.
Hypothesis Hgrid :
  grid_ok (tick_size r) (min_price r) (max_price r) = true.

Local Abbreviation fmt := (_format_price (trading_rules cfg) symbol).

Lemma format_price_mono x y fx fy :
  x <= y -> fmt x = Some fx -> fmt y = Some fy -> fx <= fy.
Proof.
  rewrite !(_format_price_unfold _ _ _ _ Hrules).
  apply grid_ok_spec in Hgrid as (Hs & _).
  intros. eapply bounded_round_mono; eauto.
Qed.

Lemma format_price_fixed x fx : fmt x = Some fx -> price_fixed cfg symbol fx.
Proof.
  unfold price_fixed. rewrite !(_format_price_unfold _ _ _ _ Hrules).
  apply bounded_round_idem, Hgrid.
Qed.

Lemma format_price_bounds x fx :
  fmt x = Some fx -> min_price r <= fx <= max_price r.
Proof.
  rewrite (_format_price_unfold _ _ _ _ Hrules). unfold bounded_round.
  apply grid_ok_spec in Hgrid as (_ & _ & Hlh & _).
  destruct (step_round _ _); [| discriminate]. intros [= <-].
  now apply py_clamp_bounds.
Qed.

(** Formatting a price above a fixed price does not go below it. *)
Lemma format_above_fixed c x fx :
  price_fixed cfg symbol c -> c <= x -> fmt x = Some fx -> c <= fx.
Proof.
  intros (p & Hp & Hpc) Hcx Hfx.
  pose proof (format_price_mono c x p fx Hcx Hp Hfx). lra.
Qed.

Lemma format_below_fixed c x fx :
  price_fixed cfg symbol c -> x <= c -> fmt x = Some fx -> fx <= c.
Proof.
  intros (p & Hp & Hpc) Hcx Hfx.
  pose proof (format_price_mono x c fx p Hcx Hfx Hp). lra.
Qed.
End PriceGrid.

Section TrailingRun.
Variables (cfg : Config) (r : Rules).

Local Abbreviation watched := (watched cfg r).

Lemma long_round acc o :
  watched acc -> pr_side (snd acc) = "Buy" ->
  let acc' := trailing_round cfg acc o in
  watched acc' /\ pr_side (snd acc') = "Buy"
  /\ pr_stop_loss (snd acc) <= pr_stop_loss (snd acc')
  /\ forall s,
       pushed_stop (fst acc) (fst acc') = Some s ->
       exists atr,
         opt_bind (ob_market o) trailing_atr = Some (Some atr)
         /\ pr_stop_loss (snd acc)
            < ob_price o - atr * trailing_stop_distance_multiplier cfg
         /\ _format_price (trading_rules cfg)
              (bybit_symbol_of (get (current_symbol (fst acc)) ""))
              (ob_price o - atr * trailing_stop_distance_multiplier cfg)
            = Some s
         /\ pr_stop_loss (snd acc) <= s.
Proof.
  destruct acc as [st row]. unfold watched. cbn [fst snd].
  intros (Hr & Hg & Hpos & Hfix) Hside. cbv zeta.
  unfold trailing_round. cbn [fst snd].
  destruct (trailing_check_cases cfg st (trail_answers row o))
    as (Hsym & _ & [Hsame | Hsent]); cbv zeta in *.
  - rewrite (pushed_stop_none _ _ Hsame), Hsym.
    repeat split; auto; try lra. discriminate.
  - destruct Hsent
      as (position & rest & price & atr & ns & f & Hp & Ht & Ha & Hc
          & Hns & Hf & Hlog).
    cbn in Hp, Ht. injection Hp as <- <-. injection Ht as <-.
    rewrite Hside in Hc.
    destruct (trailing_candidate_long _ _ _ _ _ _ Hpos Hc) as [-> Hlt].
    assert (Hle : pr_stop_loss row <= f).
    { eapply (format_above_fixed cfg _ r Hr Hg); eauto. lra. }
    rewrite (pushed_stop_one _ _ _ _ Hlog), Hsym.
    split; [| split; [| split]].
    + destruct (ob_accepted o); cbn [pr_stop_loss with_stop];
        repeat split; auto; try lra.
      eapply (format_price_fixed cfg _ r Hr Hg); eauto.
    + now destruct (ob_accepted o).
    + destruct (ob_accepted o); cbn [pr_stop_loss with_stop]; lra.
    + intros s [= <-]. exists atr. auto.
Qed.

Lemma short_round acc o :
  watched acc -> 0 < min_price r -> pr_side (snd acc) = "Sell" ->
  let acc' := trailing_round cfg acc o in
  watched acc' /\ pr_side (snd acc') = "Sell"
  /\ pr_stop_loss (snd acc') <= pr_stop_loss (snd acc)
  /\ forall s,
       pushed_stop (fst acc) (fst acc') = Some s ->
       exists atr,
         opt_bind (ob_market o) trailing_atr = Some (Some atr)
         /\ ob_price o + atr * trailing_stop_distance_multiplier cfg
            < pr_stop_loss (snd acc)
         /\ _format_price (trading_rules cfg)
              (bybit_symbol_of (get (current_symbol (fst acc)) ""))
              (ob_price o + atr * trailing_stop_distance_multiplier cfg)
            = Some s
         /\ s <= pr_stop_loss (snd acc).
Proof.
  destruct acc as [st row]. unfold watched. cbn [fst snd].
  intros (Hr & Hg & Hpos & Hfix) Hmin Hside. cbv zeta.
  unfold trailing_round. cbn [fst snd].
  destruct (trailing_check_cases cfg st (trail_answers row o))
    as (Hsym & _ & [Hsame | Hsent]); cbv zeta in *.
  - rewrite (pushed_stop_none _ _ Hsame), Hsym.
    repeat split; auto; try lra. discriminate.
  - destruct Hsent
      as (position & rest & price & atr & ns & f & Hp & Ht & Ha & Hc
          & Hns & Hf & Hlog).
    cbn in Hp, Ht. injection Hp as <- <-. injection Ht as <-.
    rewrite Hside in Hc.
    destruct (trailing_candidate_short _ _ _ _ _ _ Hpos Hc) as [-> Hlt].
    assert (Hle : f <= pr_stop_loss row).
    { eapply (format_below_fixed cfg _ r Hr Hg); eauto. lra. }
    pose proof (format_price_bounds cfg _ r Hr Hg _ _ Hf) as [Hlo _].
    rewrite (pushed_stop_one _ _ _ _ Hlog), Hsym.
    split; [| split; [| split]].
    + destruct (ob_accepted o); cbn [pr_stop_loss with_stop];
        repeat split; auto; try lra.
      eapply (format_price_fixed cfg _ r Hr Hg); eauto.
    + now destruct (ob_accepted o).
    + destruct (ob_accepted o); cbn [pr_stop_loss with_stop]; lra.
    + intros s [= <-]. exists atr. auto.
Qed.

Lemma long_run obs : forall acc,
  watched acc -> pr_side (snd acc) = "Buy" ->
  chain Qle (pr_stop_loss (snd acc)) (trailing_run cfg acc obs).
Proof.
  induction obs as [| o obs IH]; intros acc Hw Hside;
    cbn [trailing_run chain]; [exact I |].
  destruct (long_round acc o Hw Hside) as (Hw' & Hside' & Hle & _).
  split; [exact Hle | now apply IH].
Qed.

Lemma short_run obs : forall acc,
  watched acc -> 0 < min_price r -> pr_side (snd acc) = "Sell" ->
  chain (fun a b => b <= a) (pr_stop_loss (snd acc))
    (trailing_run cfg acc obs).
Proof.
  induction obs as [| o obs IH]; intros acc Hw Hmin Hside;
    cbn [trailing_run chain]; [exact I |].
  destruct (short_round acc o Hw Hmin Hside) as (Hw' & Hside' & Hle & _).
  split; [exact Hle | now apply IH].
Qed.
End TrailingRun.

(** Where the stop does only tighten.  For a position whose symbol has
    good price rules and whose stop on the exchange is positive and is a
    price the formatter returns unchanged:
    - long: a check pushes a stop only when the candidate, current price −
      ATR × distance multiplier, is strictly above the existing stop; what
      is pushed is that candidate formatted, and it is not below the
      existing stop; so over any sequence of checks (any prices, any ATR,
      pushes accepted or refused) the stop the exchange holds never
      decreases;
    - short (with a positive minimum price): symmetrically, a check pushes
      only when current price + ATR × distance multiplier is strictly
      below the existing stop, the pushed stop is not above it, and the
      stop the exchange holds never increases. *)
Theorem trailing_stop_tightens_on_grid cfg st row r obs :
  trading_rules cfg !! bybit_symbol_of (get (current_symbol st) "") = Some r ->
  grid_ok (tick_size r) (min_price r) (max_price r) = true ->
  0 < pr_stop_loss row ->
  price_fixed cfg (bybit_symbol_of (get (current_symbol st) ""))
    (pr_stop_loss row) ->
  (pr_side row = "Buy" ->
   (forall o s,
      pushed_stop st
        (_check_and_update_trailing_stop cfg st (trail_answers row o))
      = Some s ->
      exists atr,
        opt_bind (ob_market o) trailing_atr = Some (Some atr)
        /\ pr_stop_loss row
           < ob_price o - atr * trailing_stop_distance_multiplier cfg
        /\ _format_price (trading_rules cfg)
             (bybit_symbol_of (get (current_symbol st) ""))
             (ob_price o - atr * trailing_stop_distance_multiplier cfg)
           = Some s
        /\ pr_stop_loss row <= s)
   /\ chain Qle (pr_stop_loss row) (trailing_run cfg (st, row) obs))
  /\ (pr_side row = "Sell" ->
      0 < min_price r ->
      (forall o s,
         pushed_stop st
           (_check_and_update_trailing_stop cfg st (trail_answers row o))
         = Some s ->
         exists atr,
           opt_bind (ob_market o) trailing_atr = Some (Some atr)
           /\ ob_price o + atr * trailing_stop_distance_multiplier cfg
              < pr_stop_loss row
           /\ _format_price (trading_rules cfg)
                (bybit_symbol_of (get (current_symbol st) ""))
                (ob_price o + atr * trailing_stop_distance_multiplier cfg)
              = Some s
           /\ s <= pr_stop_loss row)
      /\ chain (fun a b => b <= a) (pr_stop_loss row)
           (trailing_run cfg (st, row) obs)).
Proof.
  intros Hr Hg Hpos Hfix.
  assert (Hw : watched cfg r (st, row)) by (repeat split; assumption).
  split.
  - intros Hside. split.
    + intros o s Hs.
      destruct (long_round cfg r (st, row) o Hw Hside) as (_ & _ & _ & H).
      now apply H.
    + now apply (long_run cfg r obs (st, row)).
  - intros Hside Hmin. split.
    + intros o s Hs.
      destruct (short_round cfg r (st, row) o Hw Hmin Hside)
        as (_ & _ & _ & H).
      now apply H.
    + now apply (short_run cfg r obs (st, row)).
Qed.

(** A long from 50000 with its stop at 49000, watched over three checks:
    the stop goes to 51250, stays (the candidate 50700 is lower), and goes
    to 52400. *)
Lemma trailing_stop_tightens_on_grid_witness :
  trailing_run sample_config (engine_in_long, btc_long_row 49000)
    rising_observations
  = [51250.0; 51250.0; 52400.0]
  /\ chain Qle 49000
       (trailing_run sample_config (engine_in_long, btc_long_row 49000)
          rising_observations).
Proof.
  split; [vm_compute; reflexivity |].
  apply (trailing_stop_tightens_on_grid sample_config engine_in_long
           (btc_long_row 49000) btc_rules rising_observations).
  - reflexivity.
  - reflexivity.
  - reflexivity.
  - eexists. split; [vm_compute; reflexivity | reflexivity].
  - reflexivity.
Defined.


(** * Further properties of the engine *)

(** ** Formatting and order validation *)

(** X1.  [_validate_order] accepts exactly the orders on a loaded, tradable
    instrument whose quantity and price lie within their bounds and whose
    value lies within the amount bounds that are set (positive). *)
Theorem validate_order_valid_iff rules symbol qty price :
  _validate_order rules symbol qty price = OrderValid
  <-> exists r,
        rules !! symbol = Some r
        /\ status r = "Trading"
        /\ unified_margin_trade r = true
        /\ min_order_qty r <= qty <= max_order_qty r
        /\ (0 < min_order_amt r -> min_order_amt r <= qty * price)
        /\ (0 < max_order_amt r -> qty * price <= max_order_amt r)
        /\ min_price r <= price <= max_price r.
Proof.
  unfold _validate_order. destruct (rules !! symbol) as [r |].
  2:{ split; [discriminate | intros (r & [=] & _)]. }
  split.
  - destruct (String.eqb (status r) "Trading") eqn:Est; [| discriminate].
    destruct (unified_margin_trade r) eqn:Eu; [| discriminate].
    cbn [negb].
    destruct (Qltb qty (min_order_qty r)) eqn:E1; [discriminate |].
    destruct (Qgtb qty (max_order_qty r)) eqn:E2; [discriminate |].
    destruct (Qgtb (min_order_amt r) 0
              && Qltb (qty * price) (min_order_amt r)) eqn:E3;
      [discriminate |].
    destruct (Qgtb (max_order_amt r) 0
              && Qgtb (qty * price) (max_order_amt r)) eqn:E4;
      [discriminate |].
    destruct (Qltb price (min_price r)) eqn:E5; [discriminate |].
    destruct (Qgtb price (max_price r)) eqn:E6; [discriminate |].
    intros _. exists r. apply String.eqb_eq in Est.
    apply andb_false_iff in E3, E4. qprop.
    repeat split; auto; try lra.
    + intros Hp. destruct E3 as [E3 | E3]; qprop; lra.
    + intros Hp. destruct E4 as [E4 | E4]; qprop; lra.
  - intros (r' & [= <-] & Hst & Hu & [Hq1 Hq2] & Ha1 & Ha2 & [Hp1 Hp2]).
    rewrite Hst, Hu. cbn [String.eqb Ascii.eqb Bool.eqb negb].
    assert (E1 : Qltb qty (min_order_qty r) = false) by (qprop; lra).
    assert (E2 : Qgtb qty (max_order_qty r) = false) by (qprop; lra).
    assert (E5 : Qltb price (min_price r) = false) by (qprop; lra).
    assert (E6 : Qgtb price (max_price r) = false) by (qprop; lra).
    rewrite E1, E2, E5, E6.
    assert (E3 : Qgtb (min_order_amt r) 0
                 && Qltb (qty * price) (min_order_amt r) = false).
    { destruct (Qgtb (min_order_amt r) 0) eqn:E; [| reflexivity].
      cbn [andb]. qprop. auto. }
    assert (E4 : Qgtb (max_order_amt r) 0
                 && Qgtb (qty * price) (max_order_amt r) = false).
    { destruct (Qgtb (max_order_amt r) 0) eqn:E; [| reflexivity].
      cbn [andb]. qprop. auto. }
    now rewrite E3, E4.
Qed.

(** X2.  With ordered quantity bounds, whatever [_format_quantity] returns is
    never turned down by the quantity checks of [_validate_order]. *)
Theorem formatted_quantity_passes_checks rules symbol r qty q price :
  rules !! symbol = Some r ->
  min_order_qty r <= max_order_qty r ->
  _format_quantity rules symbol qty = Some q ->
  min_order_qty r <= q <= max_order_qty r
  /\ _validate_order rules symbol q price <> QtyBelowMin
  /\ _validate_order rules symbol q price <> QtyAboveMax.
Proof.
  intros Hr Hmm Hq.
  rewrite (_format_quantity_unfold _ _ _ _ Hr) in Hq.
  unfold bounded_round in Hq.
  destruct (step_round (qty_step r) qty) as [s |]; [| discriminate].
  injection Hq as <-.
  pose proof (py_clamp_bounds _ _ s Hmm) as [Hlo Hhi].
  split; [split; assumption |].
  unfold _validate_order. rewrite Hr.
  assert (E1 : Qltb (py_clamp (min_order_qty r) (max_order_qty r) s)
                 (min_order_qty r) = false) by (qprop; lra).
  assert (E2 : Qgtb (py_clamp (min_order_qty r) (max_order_qty r) s)
                 (max_order_qty r) = false) by (qprop; lra).
  rewrite E1, E2.
  repeat match goal with
    | |- context [if ?b then _ else _] => destruct b
    end; split; discriminate.
Qed.

Lemma formatted_quantity_passes_checks_witness :
  min_order_qty btc_rules <= 0.017 <= max_order_qty btc_rules
  /\ _validate_order sample_rules "BTCUSDT" 0.017 50000 <> QtyBelowMin
  /\ _validate_order sample_rules "BTCUSDT" 0.017 50000 <> QtyAboveMax.
Proof.
  apply (formatted_quantity_passes_checks sample_rules "BTCUSDT" btc_rules
           0.0168 0.017 50000).
  - reflexivity.
  - discriminate.
  - vm_compute. reflexivity.
Defined.

(** X3.  The formatters raise (a division by zero) exactly for a loaded
    instrument whose step is zero; for a symbol without rules they fall
    back to rounding to 2 (price) or 3 (quantity) decimals. *)
Theorem format_raises_iff rules symbol x :
  (_format_price rules symbol x = None
   <-> exists r, rules !! symbol = Some r /\ tick_size r == 0)
  /\ (_format_quantity rules symbol x = None
      <-> exists r, rules !! symbol = Some r /\ qty_step r == 0)
  /\ (rules !! symbol = None ->
      _format_price rules symbol x = Some (py_round_nd x 2)
      /\ _format_quantity rules symbol x = Some (py_round_nd x 3)).
Proof.
  split; [| split].
  - unfold _format_price. destruct (rules !! symbol) as [r |].
    2:{ split; [discriminate | intros (r & [=] & _)]. }
    destruct (Qgeb (tick_size r) 1) eqn:E1.
    { split; [discriminate |]. intros (r' & [= <-] & H0). qprop. lra. }
    destruct (Qeqb (tick_size r) 0) eqn:E0.
    + split; [| reflexivity]. intros _. exists r. qprop. auto.
    + split; [discriminate |]. intros (r' & [= <-] & H0). qprop.
      contradiction.
  - unfold _format_quantity. destruct (rules !! symbol) as [r |].
    2:{ split; [discriminate | intros (r & [=] & _)]. }
    destruct (Qgeb (qty_step r) 1) eqn:E1.
    { split; [discriminate |]. intros (r' & [= <-] & H0). qprop. lra. }
    destruct (Qeqb (qty_step r) 0) eqn:E0.
    + split; [| reflexivity]. intros _. exists r. qprop. auto.
    + split; [discriminate |]. intros (r' & [= <-] & H0). qprop.
      contradiction.
  - intros Hn. unfold _format_price, _format_quantity. now rewrite Hn.
Qed.

(** X4.  Both formatters are monotone: for a positive step (or a symbol
    without rules) a larger value is never formatted to a smaller one. *)
Theorem format_monotone rules symbol x y :
  match rules !! symbol with
  | Some r => 0 < tick_size r /\ 0 < qty_step r
  | None => True
  end ->
  x <= y ->
  (forall a b,
     _format_price rules symbol x = Some a ->
     _format_price rules symbol y = Some b -> a <= b)
  /\ (forall a b,
        _format_quantity rules symbol x = Some a ->
        _format_quantity rules symbol y = Some b -> a <= b).
Proof.
  intros Hstep Hxy. destruct (rules !! symbol) as [r |] eqn:Hr.
  - destruct Hstep as [Ht Hq]. split; intros a b.
    + rewrite !(_format_price_unfold _ _ _ _ Hr).
      now apply bounded_round_mono.
    + rewrite !(_format_quantity_unfold _ _ _ _ Hr).
      now apply bounded_round_mono.
  - split; intros a b; unfold _format_price, _format_quantity; rewrite Hr;
      intros [= <-] [= <-]; now apply py_round_nd_mono.
Qed.

Lemma format_monotone_witness :
  (forall a b,
     _format_price sample_rules "BTCUSDT" 49999.96 = Some a ->
     _format_price sample_rules "BTCUSDT" 50000.04 = Some b -> a <= b)
  /\ (forall a b,
        _format_quantity sample_rules "BTCUSDT" 49999.96 = Some a ->
        _format_quantity sample_rules "BTCUSDT" 50000.04 = Some b -> a <= b).
Proof.
  apply (format_monotone sample_rules "BTCUSDT" 49999.96 50000.04).
  - vm_compute. split; reflexivity.
  - discriminate.
Defined.

(** X5.  An open attempt on a symbol whose rules were not loaded never reaches
    the exchange: no request is sent and nothing is tracked. *)
Theorem open_without_rules_sends_nothing cfg st a action symbol
    position_size_pct leverage reason order_type entry stop_loss take_profit
    market_data decision :
  trading_rules cfg !! bybit_symbol_of symbol = None ->
  let st' := _open_position cfg st a action symbol position_size_pct leverage
               reason order_type entry stop_loss take_profit market_data
               decision in
  api_log st' = api_log st
  /\ pending_limit_orders st' = pending_limit_orders st
  /\ total_trades st' = total_trades st.
Proof.
  intros Hn st'. subst st'. unfold _open_position.
  destruct (oa_ticker a) as [current_price |]; [| auto].
  pose proof (get_position_info_frame st (oa_info a)) as (Hlog & Hpend & _).
  assert (Htot : total_trades (fst (_get_position_info st (oa_info a)))
                 = total_trades st).
  { unfold _get_position_info.
    destruct (nonempty _); [| reflexivity]. now destruct (List.find _ _). }
  destruct (_get_position_info st (oa_info a)) as [st1 balance].
  cbn [fst] in *.
  destruct (Qltb balance (min_balance cfg)); [auto |].
  destruct (open_sizing _ _ _ _) as [[position_value qty] |]; [| auto].
  destruct (_format_quantity _ _ _) as [qty' |]; [| auto].
  unfold _validate_order. rewrite Hn. auto.
Qed.

Lemma open_without_rules_sends_nothing_witness :
  let st' := _open_position sample_config initial_engine sample_open_answers
               "LONG" "XRPUSDT_PERPETUAL" 0.10 10 "trend" "Market" 0 0 []
               empty_market_data sample_long in
  api_log st' = api_log initial_engine
  /\ pending_limit_orders st' = pending_limit_orders initial_engine
  /\ total_trades st' = total_trades initial_engine.
Proof.
  apply (open_without_rules_sends_nothing sample_config initial_engine
           sample_open_answers "LONG" "XRPUSDT_PERPETUAL").
  reflexivity.
Defined.

(** ** Stop-loss and take-profit geometry *)

(** X6.  What [_validate_stop_loss_take_profit] accepts.  LONG: no stop
    ([stop_loss <= 0]) or a stop below the entry at a distance of 0.3% to
    20% of it, both ends included; and no first target or one above the
    entry.  SHORT: the mirror image.  Only the first target is looked at.
    Any other action is accepted as it is. *)
Theorem validate_stop_accepts_iff action entry stop_loss take_profit :
  (action = "LONG" ->
   (_validate_stop_loss_take_profit action entry stop_loss take_profit
    = StopValid
    <-> (stop_loss <= 0
         \/ (stop_loss < entry
             /\ 0.3 <= stop_distance_pct entry stop_loss
             /\ stop_distance_pct entry stop_loss <= 20))
        /\ target_ok true entry take_profit))
  /\ (action = "SHORT" ->
      (_validate_stop_loss_take_profit action entry stop_loss take_profit
       = StopValid
       <-> (stop_loss <= 0
            \/ (entry < stop_loss
                /\ 0.3 <= stop_distance_pct entry stop_loss
                /\ stop_distance_pct entry stop_loss <= 20))
           /\ target_ok false entry take_profit))
  /\ (action <> "LONG" -> action <> "SHORT" ->
      _validate_stop_loss_take_profit action entry stop_loss take_profit
      = StopValid).
Proof.
  assert (Habs : Qabs (stop_loss - entry) = Qabs (entry - stop_loss))
    by apply Qabs_Qminus.
  split; [| split].
  - intros ->. unfold _validate_stop_loss_take_profit, target_ok,
      stop_distance_pct, min_stop_distance_pct, max_stop_distance_pct.
    cbn [String.eqb Ascii.eqb Bool.eqb].
    destruct (Qgtb stop_loss 0) eqn:E0.
    + destruct (Qgeb stop_loss entry) eqn:E1.
      { cbn [is_valid negb]. split; [discriminate |]. qprop. intros [[H | (H1 & H2 & H3)] _]; lra. }
      destruct (Qeqb entry 0) eqn:E2.
      { exfalso. qprop. lra. }
      destruct (Qltb (Qabs (entry - stop_loss) / entry * 100) 0.3) eqn:E3.
      { cbn [is_valid negb]. split; [discriminate |]. qprop. intros [[H | (H1 & H2 & H3)] _]; lra. }
      destruct (Qgtb (Qabs (entry - stop_loss) / entry * 100) 20) eqn:E4.
      { cbn [is_valid negb]. split; [discriminate |]. qprop. intros [[H | (H1 & H2 & H3)] _]; lra. }
      cbn [is_valid negb].
      destruct (first_target take_profit) as [tp |].
      * destruct (Qgtb tp 0) eqn:E5; cbn [andb].
        -- destruct (Qleb tp entry) eqn:E6; qprop.
           ++ split; [discriminate |]. intros [_ [H | H]]; lra.
           ++ split; [| reflexivity]. intros _. split; [right |]; auto.
        -- qprop. split; [| reflexivity]. intros _.
           split; [right | left]; auto.
      * qprop. split; [| reflexivity]. intros _. split; [right |]; auto.
    + cbn [is_valid negb].
      destruct (first_target take_profit) as [tp |].
      * destruct (Qgtb tp 0) eqn:E5; cbn [andb].
        -- destruct (Qleb tp entry) eqn:E6; qprop.
           ++ split; [discriminate |]. intros [_ [H | H]]; lra.
           ++ split; [| reflexivity]. intros _. split; [left |]; auto.
        -- qprop. split; [| reflexivity]. intros _.
           split; [left | left]; auto.
      * qprop. split; [| reflexivity]. intros _. split; [left |]; auto.
  - intros ->. unfold _validate_stop_loss_take_profit, target_ok,
      stop_distance_pct, min_stop_distance_pct, max_stop_distance_pct.
    cbn [String.eqb Ascii.eqb Bool.eqb]. rewrite Habs.
    destruct (Qgtb stop_loss 0) eqn:E0.
    + destruct (Qleb stop_loss entry) eqn:E1.
      { cbn [is_valid negb]. split; [discriminate |]. qprop. intros [[H | (H1 & H2 & H3)] _]; lra. }
      destruct (Qeqb entry 0) eqn:E2.
      { cbn [is_valid negb]. split; [discriminate |]. qprop. intros [[H | (_ & H & _)] _].
        - lra.
        - assert (Hz : Qabs (entry - stop_loss) / entry * 100 == 0).
          { rewrite E2. unfold Qdiv. change (/ 0) with 0. ring. }
          rewrite Hz in H. lra. }
      destruct (Qltb (Qabs (entry - stop_loss) / entry * 100) 0.3) eqn:E3.
      { cbn [is_valid negb]. split; [discriminate |]. qprop. intros [[H | (H1 & H2 & H3)] _]; lra. }
      destruct (Qgtb (Qabs (entry - stop_loss) / entry * 100) 20) eqn:E4.
      { cbn [is_valid negb]. split; [discriminate |]. qprop. intros [[H | (H1 & H2 & H3)] _]; lra. }
      cbn [is_valid negb].
      destruct (first_target take_profit) as [tp |].
      * destruct (Qgtb tp 0) eqn:E5; cbn [andb].
        -- destruct (Qgeb tp entry) eqn:E6; qprop.
           ++ split; [discriminate |]. intros [_ [H | H]]; lra.
           ++ split; [| reflexivity]. intros _. split; [right |]; auto.
        -- qprop. split; [| reflexivity]. intros _.
           split; [right | left]; auto.
      * qprop. split; [| reflexivity]. intros _. split; [right |]; auto.
    + cbn [is_valid negb].
      destruct (first_target take_profit) as [tp |].
      * destruct (Qgtb tp 0) eqn:E5; cbn [andb].
        -- destruct (Qgeb tp entry) eqn:E6; qprop.
           ++ split; [discriminate |]. intros [_ [H | H]]; lra.
           ++ split; [| reflexivity]. intros _. split; [left |]; auto.
        -- qprop. split; [| reflexivity]. intros _.
           split; [left | left]; auto.
      * qprop. split; [| reflexivity]. intros _. split; [left |]; auto.
  - intros H1 H2. unfold _validate_stop_loss_take_profit.
    destruct (String.eqb action "LONG") eqn:E1.
    { apply String.eqb_eq in E1. contradiction. }
    destruct (String.eqb action "SHORT") eqn:E2.
    { apply String.eqb_eq in E2. contradiction. }
    reflexivity.
Qed.

Lemma validate_stop_accepts_iff_witness :
  _validate_stop_loss_take_profit "LONG" 50000 49850 [51000; 40000]
  = StopValid
  /\ _validate_stop_loss_take_profit "SHORT" 50000 60000 [49000]
     = StopValid.
Proof.
  split.
  - apply (proj1 (validate_stop_accepts_iff "LONG" 50000 49850
                    [51000; 40000]) eq_refl).
    split; [right; repeat split; vm_compute; discriminate |].
    right. reflexivity.
  - apply (proj1 (proj2 (validate_stop_accepts_iff "SHORT" 50000 60000
                           [49000])) eq_refl).
    split; [right; split; [reflexivity | split; vm_compute; discriminate] |].
    right. reflexivity.
Defined.

(** ** The position mirror and the drawdown watchdog *)

(** X7.  [_get_position_info] copies the first row with a positive size into
    the engine and clears the position when the exchange returns no row
    at all; when every row has size zero it leaves the engine as it is.
    Reading the same answers again changes nothing more, and the request
    log, the tracked orders and the counters are never touched. *)
Theorem position_info_mirror st a :
  _get_position_info (fst (_get_position_info st a)) a
  = _get_position_info st a
  /\ snd (_get_position_info st a) = ia_balance a
  /\ (nonempty (ia_positions a) = false ->
      position_fields (fst (_get_position_info st a)) = (None, None, 0))
  /\ (nonempty (ia_positions a) = true ->
      Forall (fun pos => pr_size pos <= 0) (get (ia_positions a) []) ->
      fst (_get_position_info st a) = st)
  /\ (forall pos,
        nonempty (ia_positions a) = true ->
        List.find (fun pos => Qgtb (pr_size pos) 0) (get (ia_positions a) [])
        = Some pos ->
        position_fields (fst (_get_position_info st a))
        = (Some (pr_side pos), Some (pr_symbol pos +:+ "_PERPETUAL"),
           pr_avg_price pos))
  /\ api_log (fst (_get_position_info st a)) = api_log st
  /\ pending_limit_orders (fst (_get_position_info st a))
     = pending_limit_orders st
  /\ total_trades (fst (_get_position_info st a)) = total_trades st
  /\ failed_trades (fst (_get_position_info st a)) = failed_trades st.
Proof.
  unfold _get_position_info.
  destruct (nonempty (ia_positions a)) eqn:Hn.
  - destruct (List.find _ _) as [pos |] eqn:Hf; cbn [fst snd].
    + repeat split; try reflexivity; try discriminate.
      * intros _ Hall. exfalso. apply find_some in Hf as [Hin Hpos].
        rewrite Forall_forall in Hall. apply list_elem_of_In in Hin.
        specialize (Hall _ Hin). cbn beta in Hall. qprop. lra.
      * intros pos' _ [= <-]. reflexivity.
    + repeat split; try reflexivity; try discriminate.
  - cbn [fst snd]. repeat split; try reflexivity; try discriminate.
Qed.

Lemma position_info_mirror_witness :
  position_fields
    (fst (_get_position_info initial_engine
            {| ia_positions := Some [btc_long_row 49000];
               ia_balance := 1000 |}))
  = (Some "Buy", Some "BTCUSDT_PERPETUAL", 50000).
Proof.
  apply (proj1 (proj2 (proj2 (proj2 (proj2
           (position_info_mirror initial_engine
              {| ia_positions := Some [btc_long_row 49000];
                 ia_balance := 1000 |})))))
           (btc_long_row 49000));
    reflexivity.
Defined.

(** X8.  Over any sequence of balance refreshes the watchdog's peak never
    falls and is never below a balance it has seen, and the largest
    drawdown on record never shrinks. *)
Theorem drawdown_books_monotone balances : forall st,
  let st' := fold_left _check_drawdown_and_analyze balances st in
  peak_balance st <= peak_balance st'
  /\ max_drawdown_pct st <= max_drawdown_pct st'
  /\ Forall (fun b => b <= peak_balance st') balances.
Proof.
  assert (Hstep : forall st b,
             peak_balance st <= peak_balance (_check_drawdown_and_analyze st b)
             /\ b <= peak_balance (_check_drawdown_and_analyze st b)
             /\ max_drawdown_pct st
                <= max_drawdown_pct (_check_drawdown_and_analyze st b)).
  { intros st b. unfold _check_drawdown_and_analyze.
    destruct (Qgtb b (peak_balance st)) eqn:E1;
      cbn [peak_balance max_drawdown_pct drawdown_analysis_triggered
           set_drawdown];
      repeat match goal with
        | |- context [if ?c then _ else _] =>
            let E := fresh "E" in destruct c eqn:E;
            cbn [peak_balance max_drawdown_pct drawdown_analysis_triggered
                 set_drawdown]
        end; qprop; repeat split; lra. }
  induction balances as [| b balances IH]; intros st; cbn [fold_left].
  - repeat split; try lra. constructor.
  - destruct (IH (_check_drawdown_and_analyze st b)) as (H1 & H2 & H3).
    destruct (Hstep st b) as (S1 & S2 & S3).
    cbv zeta in *. repeat split; try lra.
    constructor; [lra | exact H3].
Qed.

(** X9.  After a close, the watchdog asks for the review exactly when the
    balance is not a new peak, the peak is positive, the balance has
    fallen to 90% of the peak or lower, and no review was asked for since
    the last new peak.  Having asked, it does not ask again for any
    balance that is not a new peak; a new peak re-arms it. *)
Theorem drawdown_review_once st balance :
  (snd (_check_drawdown_after_close st balance) = true
   <-> balance <= peak_balance st
       /\ 0 < peak_balance st
       /\ balance <= 0.9 * peak_balance st
       /\ drawdown_analysis_triggered st = false)
  /\ (snd (_check_drawdown_after_close st balance) = true ->
      forall later,
        later <= peak_balance st ->
        snd (_check_drawdown_after_close
               (fst (_check_drawdown_after_close st balance)) later) = false)
  /\ (peak_balance st < balance ->
      drawdown_analysis_triggered (fst (_check_drawdown_after_close st balance))
      = false
      /\ peak_balance (fst (_check_drawdown_after_close st balance)) = balance).
Proof.
  assert (Hpct : forall p b, 0 < p ->
             (10 <= (p - b) / p * 100 <-> b <= 0.9 * p)).
  { intros p b Hp.
    assert (Hd : (p - b) / p * 100 == 100 - 100 * (b / p)) by (field; lra).
    rewrite Hd.
    assert (Hb : b == (b / p) * p) by (field; lra).
    set (q := b / p) in *. split; intros H; nra. }
  unfold _check_drawdown_after_close.
  destruct (Qgtb balance (peak_balance st)) eqn:E1.
  { cbn [fst snd peak_balance drawdown_analysis_triggered set_drawdown].
    qprop. split; [split | split].
    - discriminate.
    - intros (Hx & _). lra.
    - discriminate.
    - intros _. split; reflexivity. }
  destruct (Qgtb (peak_balance st) 0) eqn:E2.
  2:{ cbn [fst snd]. qprop. split; [split | split].
      - discriminate.
      - intros (_ & Hx & _). lra.
      - discriminate.
      - intros Hx. lra. }
  assert (Hp : 0 < peak_balance st) by (qprop; exact E2).
  destruct (Qgeb ((peak_balance st - balance) / peak_balance st * 100) 10)
    eqn:E3.
  - destruct (drawdown_analysis_triggered st) eqn:E4;
      cbn [negb andb fst snd].
    + qprop. split; [split | split].
      * discriminate.
      * intros (_ & _ & _ & Hx). discriminate.
      * discriminate.
      * intros Hx. lra.
    + split; [split | split].
      * intros _. split; [qprop; exact E1 |]. split; [exact Hp |].
        split; [| reflexivity]. apply Hpct; [exact Hp |]. qprop. exact E3.
      * reflexivity.
      * intros _ later Hl.
        cbn [peak_balance max_drawdown_pct drawdown_analysis_triggered
             set_drawdown].
        assert (E5 : Qgtb later (peak_balance st) = false) by (qprop; lra).
        rewrite E5, E2.
        cbn [negb]. rewrite andb_false_r. reflexivity.
      * intros Hx. qprop. lra.
  - cbn [andb fst snd]. split; [split | split].
    + discriminate.
    + intros (_ & _ & Hx & _). apply Hpct in Hx; [| exact Hp]. qprop. lra.
    + discriminate.
    + intros Hx. qprop. lra.
Qed.

Lemma drawdown_review_once_witness :
  snd (_check_drawdown_after_close engine_after_morning 840) = true.
Proof.
  apply (proj2 (proj1 (drawdown_review_once engine_after_morning 840))).
  repeat split; vm_compute; discriminate.
Defined.

(** X10.  With a peak and a recorded drawdown that are not negative (as from
    the initial state on), the check after a close and the check of the
    loop keep the same books. *)
Theorem drawdown_checks_agree st balance :
  0 <= peak_balance st ->
  0 <= max_drawdown_pct st ->
  fst (_check_drawdown_after_close st balance)
  = _check_drawdown_and_analyze st balance.
Proof.
  intros Hp Hm.
  unfold _check_drawdown_after_close, _check_drawdown_and_analyze.
  destruct (Qgtb balance (peak_balance st)) eqn:E1.
  - cbn [fst peak_balance max_drawdown_pct drawdown_analysis_triggered
         set_drawdown].
    assert (E2 : Qgtb balance 0 = true) by (qprop; lra).
    rewrite E2.
    assert (Hz : (balance - balance) / balance * 100 == 0).
    { qprop. field. lra. }
    assert (E3 : Qgtb ((balance - balance) / balance * 100)
                   (max_drawdown_pct st) = false).
    { unfold Qgtb. rewrite (Qltb_proper _ _ (Qeq_refl _) _ _ Hz).
      qprop. exact Hm. }
    assert (E4 : Qgeb ((balance - balance) / balance * 100) 10 = false).
    { unfold Qgeb. rewrite (Qleb_proper _ _ (Qeq_refl _) _ _ Hz).
      reflexivity. }
    rewrite E3, E4. reflexivity.
  - destruct (Qgtb (peak_balance st) 0); [| reflexivity].
    destruct (Qgeb _ 10 && negb _); reflexivity.
Qed.

Lemma drawdown_checks_agree_witness :
  fst (_check_drawdown_after_close engine_after_morning 840)
  = _check_drawdown_and_analyze engine_after_morning 840.
Proof.
  apply (drawdown_checks_agree engine_after_morning 840);
    vm_compute; discriminate.
Defined.

(** ** Trade counters *)

(** How one call may move the counters: not at all, one more trade that
    is also one more success, or one more failure. *)
Lemma counters_info st a :
  counters (fst (_get_position_info st a)) = counters st.
Proof.
  unfold _get_position_info.
  destruct (nonempty _); [| reflexivity]. now destruct (List.find _ _).
Qed.

Lemma counters_drawdown_after_close st balance :
  counters (fst (_check_drawdown_after_close st balance)) = counters st.
Proof.
  unfold _check_drawdown_after_close.
  destruct (Qgtb balance _); [reflexivity |].
  destruct (Qgtb _ 0); [| reflexivity].
  destruct (_ && _); reflexivity.
Qed.

Lemma counters_drawdown_and_analyze st balance :
  counters (_check_drawdown_and_analyze st balance) = counters st.
Proof.
  unfold _check_drawdown_and_analyze.
  destruct (Qgtb balance _); cbn [peak_balance set_drawdown];
    (destruct (Qgtb _ 0); [| reflexivity]);
    destruct (_ && _); reflexivity.
Qed.

Lemma counters_open cfg st a action symbol position_size_pct leverage reason
    order_type entry stop_loss take_profit market_data decision :
  let st' := _open_position cfg st a action symbol position_size_pct leverage
               reason order_type entry stop_loss take_profit market_data
               decision in
  counters st' = counters st
  \/ counters st'
     = (S (total_trades st), S (successful_trades st), failed_trades st)
  \/ counters st'
     = (total_trades st, successful_trades st, S (failed_trades st)).
Proof.
  intros st'. subst st'. unfold _open_position.
  destruct (oa_ticker a) as [current_price |]; [| auto].
  pose proof (counters_info st (oa_info a)) as Hc.
  destruct (_get_position_info st (oa_info a)) as [st1 balance].
  cbn [fst] in Hc. injection Hc as Ht Hs Hf.
  unfold counters. rewrite <- Ht, <- Hs, <- Hf.
  destruct (Qltb balance _); [auto |].
  destruct (open_sizing _ _ _ _) as [[position_value qty] |]; [| auto].
  destruct (_format_quantity _ _ _) as [q |]; [| auto].
  destruct (_validate_order _ _ _ _); auto.
  destruct (open_order_price _ _ _) as [order_price ot].
  destruct (_validate_stop_loss_take_profit _ _ _ _); auto.
  destruct (open_order_request _ _ _ _ _ _ _ _); [| auto].
  destruct (truthy (oa_order_id a)); [| auto].
  right. left. destruct (String.eqb ot "Limit"); reflexivity.
Qed.

Lemma counters_close st a reason :
  let st' := _close_position st a reason in
  counters st' = counters st
  \/ counters st'
     = (S (total_trades st), S (successful_trades st), failed_trades st)
  \/ counters st'
     = (total_trades st, successful_trades st, S (failed_trades st))
  \/ counters st'
     = (S (total_trades st), S (successful_trades st), S (failed_trades st)).
Proof.
  intros st'. subst st'. unfold _close_position.
  destruct (negb _ || negb _); [auto |].
  destruct (ca_positions a) as [[| pos rest] |]; auto.
  destruct (Qeqb (pr_size pos) 0); [auto |].
  destruct (truthy (ca_order_id a)); [| auto].
  destruct (ca_bookkeeping a); [| auto |].
  all: match goal with
       | |- context [_get_position_info ?s ?i] =>
           pose proof (counters_info s i) as Hc;
           destruct (_get_position_info s i) as [st1 balance]
       end;
    pose proof (counters_drawdown_after_close st1 balance) as Hd;
    destruct (_check_drawdown_after_close st1 balance) as [st2 flag];
    cbn [fst] in *; unfold counters in *;
    injection Hd as Hd1 Hd2 Hd3; injection Hc as Hc1 Hc2 Hc3;
    cbn in *.
  - right. left. congruence.
  - right. right. right. congruence.
Qed.

Lemma counters_trailing cfg st a :
  counters (_check_and_update_trailing_stop cfg st a) = counters st.
Proof.
  unfold _check_and_update_trailing_stop.
  destruct (negb (use_trailing_stop cfg)); [reflexivity |].
  destruct (Qltb _ _); [reflexivity |].
  destruct (negb _ || negb _); [reflexivity |].
  destruct (ta_positions a) as [[| position rest] |]; try reflexivity.
  destruct (Qeqb (pr_size position) 0); [reflexivity |].
  destruct (ta_ticker a); [| reflexivity].
  destruct (opt_bind _ _) as [[atr |] |]; try reflexivity.
  destruct (Qeqb atr 0); [reflexivity |].
  destruct (trailing_candidate _ _ _ _ _ _); [| reflexivity].
  destruct (Qgtb _ 0); [| reflexivity].
  destruct (_format_price _ _ _); [| reflexivity].
  destruct (ta_set_ok a); reflexivity.
Qed.

Lemma counters_modify cfg st a order_id order_info suggested :
  counters (fst (_modify_limit_order_price cfg st a order_id order_info
                   suggested))
  = counters st.
Proof.
  unfold _modify_limit_order_price.
  destruct (ma_ticker a); [| reflexivity].
  destruct (_format_price _ _ _); [| reflexivity].
  destruct (negb (ma_cancel_ok a) && _); [reflexivity |].
  destruct (if truthy_num _ then _ else _) as [sl |]; [| reflexivity].
  destruct (match first_target _ with Some _ => _ | None => _ end) as [tp |];
    [| reflexivity].
  destruct (truthy (ma_new_order_id a)); reflexivity.
Qed.

Lemma counters_check_one cfg current_time a acc item :
  counters (fst (check_one_order cfg current_time a acc item))
  = counters (fst acc).
Proof.
  unfold check_one_order. destruct acc as [st rm], item as [o oinfo].
  cbn [fst].
  destruct (_get_order_status _ _) as [s |]; [| reflexivity].
  destruct (is_closed_status s); [reflexivity |].
  destruct (_ && is_open_status s); [| reflexivity].
  destruct (String.eqb _ "cancel_and_market").
  { unfold _cancel_and_place_market_order. destruct (negb _); reflexivity. }
  destruct (String.eqb _ "modify"); [apply counters_modify |].
  destruct (String.eqb _ "cancel"); reflexivity.
Qed.

Lemma counters_pending cfg st current_time answers :
  counters (_check_pending_limit_orders cfg st current_time answers)
  = counters st.
Proof.
  unfold _check_pending_limit_orders.
  assert (H : forall items acc,
             counters (fst (fold_left
                              (fun acc item =>
                                 check_one_order cfg current_time
                                   (answers (fst item)) acc item) items acc))
             = counters (fst acc)).
  { induction items as [| item items IH]; intros acc; cbn [fold_left];
      [reflexivity |].
    rewrite IH. apply counters_check_one. }
  specialize (H (map_to_list (pending_limit_orders st)) (st, [])).
  destruct (fold_left _ _ _) as [st1 rm]. exact H.
Qed.

Lemma counters_eq (s s' : Engine) :
  counters s' = counters s ->
  total_trades s' = total_trades s
  /\ successful_trades s' = successful_trades s
  /\ failed_trades s' = failed_trades s.
Proof. unfold counters. intros H. injection H as H1 H2 H3. auto. Qed.

Lemma counters_execute cfg st a decision all_market_data :
  let st' := outcome_state
               (_execute_decision cfg st a decision all_market_data) in
  (total_trades st' + successful_trades st
   = total_trades st + successful_trades st')%nat
  /\ (total_trades st <= total_trades st')%nat
  /\ (failed_trades st <= failed_trades st')%nat.
Proof.
  assert (Hstep : forall s s' : Engine,
             counters s' = counters s
             \/ counters s'
                = (S (total_trades s), S (successful_trades s),
                   failed_trades s)
             \/ counters s'
                = (total_trades s, successful_trades s, S (failed_trades s))
             \/ counters s'
                = (S (total_trades s), S (successful_trades s),
                   S (failed_trades s)) ->
             (total_trades s' + successful_trades s
              = total_trades s + successful_trades s')%nat
             /\ (total_trades s <= total_trades s')%nat
             /\ (failed_trades s <= failed_trades s')%nat).
  { intros s s'. unfold counters.
    intros [H | [H | [H | H]]]; injection H as -> -> ->; lia. }
  intros st'. subst st'. unfold _execute_decision.
  destruct (String.eqb _ "HOLD"); [cbn; lia |].
  destruct (String.eqb _ "CLOSE").
  { destruct (truthy _); cbn [outcome_state]; [| lia].
    apply Hstep, counters_close. }
  destruct (_ || _); [| cbn; lia].
  destruct (d_target_symbol decision) as [sym |]; [| cbn; lia].
  destruct (has_pending_order _ _ _); [cbn; lia |].
  cbn [outcome_state].
  match goal with
  | |- context [_open_position cfg ?s ?oa ?ac ?sy ?p ?l ?r ?ot ?e ?sl ?tp ?md ?d] =>
      assert (H1 : (total_trades
                      (_open_position cfg s oa ac sy p l r ot e sl tp md d)
                    + successful_trades s
                    = total_trades s
                      + successful_trades
                          (_open_position cfg s oa ac sy p l r ot e sl tp md
                             d))%nat
                   /\ (total_trades s
                       <= total_trades
                            (_open_position cfg s oa ac sy p l r ot e sl tp md
                               d))%nat
                   /\ (failed_trades s
                       <= failed_trades
                            (_open_position cfg s oa ac sy p l r ot e sl tp md
                               d))%nat)
        by (apply Hstep;
            destruct (counters_open cfg s oa ac sy p l r ot e sl tp md d)
              as [Ho | [Ho | Ho]]; auto);
      assert (Hc : (total_trades s + successful_trades st
                    = total_trades st + successful_trades s)%nat
                   /\ (total_trades st <= total_trades s)%nat
                   /\ (failed_trades st <= failed_trades s)%nat)
  end.
  { destruct (truthy _ && need_switch _ _ _); [| lia].
    apply Hstep, counters_close. }
  lia.
Qed.

(** X11.  Over any run of the trading loop a trade is counted only together
    with a success: the difference between [total_trades] and
    [successful_trades] never changes, neither counter falls, and the
    failures only grow.  From the initial engine on, the two counters are
    therefore always equal, whatever number of orders the exchange
    refused. *)
Theorem loop_counts_only_successes cfg answers : forall st,
  let st' := trading_loop_run cfg st answers in
  (total_trades st' + successful_trades st
   = total_trades st + successful_trades st')%nat
  /\ (total_trades st <= total_trades st')%nat
  /\ (failed_trades st <= failed_trades st')%nat
  /\ total_trades (trading_loop_run cfg initial_engine answers)
     = successful_trades (trading_loop_run cfg initial_engine answers).
Proof.
  assert (Hiter : forall st a,
             let st' := fst (trading_loop_iteration cfg st a) in
             (total_trades st' + successful_trades st
              = total_trades st + successful_trades st')%nat
             /\ (total_trades st <= total_trades st')%nat
             /\ (failed_trades st <= failed_trades st')%nat).
  { intros st a st'. subst st'. unfold trading_loop_iteration.
    pose proof (counters_pending cfg st (la_time a) (la_pending a)) as H0.
    set (st0 := _check_pending_limit_orders _ _ _ _) in *.
    destruct (bool_decide _).
    { cbn [fst]. destruct (counters_eq _ _ H0) as (Ha & Hb & Hc). lia. }
    pose proof (counters_info st0 (la_info a)) as H1.
    destruct (_get_position_info st0 (la_info a)) as [st1 balance].
    cbn [fst] in H1.
    set (st2 := if Qgtb balance 0 then _ else st1).
    assert (H2 : counters st2 = counters st1).
    { subst st2. destruct (Qgtb balance 0);
        [apply counters_drawdown_and_analyze | reflexivity]. }
    destruct (comprehensive_check _ _ _ _ _ _ _)
      as [protection [should_protect reasons]].
    set (st3 := set_protection st2 protection).
    assert (H3 : counters st3 = counters st2) by reflexivity.
    assert (H03 : counters st3 = counters st) by congruence.
    destruct (counters_eq _ _ H03) as (Ha & Hb & Hc).
    clearbody st3. clear H3 H2 H1 H0.
    destruct should_protect.
    { cbn [fst]. destruct (truthy _); [| lia].
      pose proof (counters_close st3 (la_emergency a) "极端行情保护") as Hx.
      cbv zeta in Hx. unfold counters in Hx.
      destruct Hx as [Hx | [Hx | [Hx | Hx]]]; injection Hx as -> -> ->; lia. }
    pose proof (counters_execute cfg st3 (la_exec a) (la_decision a)
                  (la_market a)) as Hx.
    cbv zeta in Hx.
    destruct (_execute_decision _ _ _ _ _) as [st4 | st4];
      cbn [outcome_state fst] in *; [| lia].
    destruct (truthy _); [| lia].
    destruct (counters_eq _ _ (counters_trailing cfg st4 (la_trail a)))
      as (Hy1 & Hy2 & Hy3).
    lia. }
  assert (Hrun : forall st,
             let st' := trading_loop_run cfg st answers in
             (total_trades st' + successful_trades st
              = total_trades st + successful_trades st')%nat
             /\ (total_trades st <= total_trades st')%nat
             /\ (failed_trades st <= failed_trades st')%nat).
  { unfold trading_loop_run.
    induction answers as [| a answers IH]; intros st; cbn [fold_left].
    - cbv zeta. lia.
    - specialize (IH (fst (trading_loop_iteration cfg st a))).
      specialize (Hiter st a). cbv zeta in *. lia. }
  intros st st'. subst st'.
  destruct (Hrun st) as (H1 & H2 & H3).
  repeat split; try assumption.
  destruct (Hrun initial_engine) as (H4 & _). cbn in H4. lia.
Qed.

(** ** Closing and switching *)

Lemma close_position_pending st a reason :
  pending_limit_orders (_close_position st a reason) = pending_limit_orders st.
Proof.
  unfold _close_position.
  destruct (negb _ || negb _); [reflexivity |].
  destruct (ca_positions a) as [[| pos rest] |]; try reflexivity.
  destruct (Qeqb (pr_size pos) 0); [reflexivity |].
  destruct (truthy (ca_order_id a)); [| reflexivity].
  destruct (ca_bookkeeping a); [| reflexivity |].
  all: match goal with
       | |- context [_get_position_info ?s ?i] =>
           pose proof (get_position_info_frame s i) as (_ & Hp & _);
           destruct (_get_position_info s i) as [st1 balance]
       end;
    cbn [fst] in Hp;
    assert (Hd : pending_limit_orders
                   (fst (_check_drawdown_after_close st1 balance))
                 = pending_limit_orders st1)
      by (unfold _check_drawdown_after_close;
          destruct (Qgtb balance (peak_balance st1)); [reflexivity |];
          destruct (Qgtb (peak_balance st1) 0); [| reflexivity];
          destruct (_ && _); reflexivity);
    destruct (_check_drawdown_after_close st1 balance) as [st2 flag];
    cbn [fst] in Hd; cbn; now rewrite Hd, Hp.
Qed.

Lemma drawdown_after_close_frame st balance :
  let st' := fst (_check_drawdown_after_close st balance) in
  api_log st' = api_log st
  /\ pending_limit_orders st' = pending_limit_orders st
  /\ position_fields st' = position_fields st
  /\ position_entry_time st' = position_entry_time st
  /\ current_trade_id st' = current_trade_id st.
Proof.
  cbv zeta. unfold _check_drawdown_after_close.
  destruct (Qgtb balance (peak_balance st)); [cbn; auto |].
  destruct (Qgtb (peak_balance st) 0); [| cbn; auto].
  destruct (_ && _); cbn [fst]; repeat split; reflexivity.
Qed.

Lemma position_info_entry_record st a :
  position_entry_time (fst (_get_position_info st a)) = position_entry_time st
  /\ current_trade_id (fst (_get_position_info st a)) = current_trade_id st.
Proof.
  unfold _get_position_info.
  destruct (nonempty _); [| auto]. destruct (List.find _ _); auto.
Qed.

Lemma position_info_fields st s a :
  position_fields s = position_fields st ->
  position_fields (fst (_get_position_info s a))
  = position_fields (fst (_get_position_info st a)).
Proof.
  intros H. unfold _get_position_info.
  destruct (nonempty _); [| reflexivity].
  destruct (List.find _ _); [reflexivity | exact H].
Qed.

(** X12.  What [_close_position] does to a held position.  When the exchange
    lists no position for the symbol, or lists it with size zero, nothing
    is sent: the position and the symbol are forgotten while the entry
    price, the entry time and the trade id stay as they were.  Otherwise
    exactly one request is sent, a reduce-only market order on the
    opposite side for the size on the exchange.  Refused, it leaves the
    position and counts one failure.  Accepted, it counts one trade and
    one success; if the bookkeeping that follows runs through, the
    position, its entry price and its entry record are cleared, whatever
    the position list read afterwards says; if the bookkeeping raises,
    the position is not cleared and a failure is counted on top of the
    success: the engine keeps the position it held when the exception
    comes before the balance is refreshed, and the position the exchange
    then lists when it comes after the drawdown check. *)
Theorem close_position_cases st a reason side symbol :
  current_position st = Some side -> side <> "" ->
  current_symbol st = Some symbol -> symbol <> "" ->
  let st' := _close_position st a reason in
  let order :=
    fun pos => PlaceOrder (bybit_symbol_of symbol) (closing_side side) "Market"
                 (pr_size pos) None true None None in
  ((nonempty (ca_positions a) = false
    \/ exists pos rest, ca_positions a = Some (pos :: rest)
                        /\ pr_size pos == 0) ->
   api_log st' = api_log st
   /\ position_fields st' = (None, None, entry_price st)
   /\ position_entry_time st' = position_entry_time st
   /\ current_trade_id st' = current_trade_id st
   /\ counters st' = counters st)
  /\ (forall pos rest,
        ca_positions a = Some (pos :: rest) -> ~ pr_size pos == 0 ->
        api_log st' = api_log st ++ [order pos]
        /\ (truthy (ca_order_id a) = false ->
            position_fields st' = position_fields st
            /\ counters st'
               = (total_trades st, successful_trades st,
                  S (failed_trades st)))
        /\ (truthy (ca_order_id a) = true ->
            ca_bookkeeping a = BookkeepingDone ->
            position_fields st' = (None, None, 0)
            /\ position_entry_time st' = None
            /\ current_trade_id st' = None
            /\ counters st'
               = (S (total_trades st), S (successful_trades st),
                  failed_trades st))
        /\ (truthy (ca_order_id a) = true ->
            ca_bookkeeping a <> BookkeepingDone ->
            position_fields st'
            = (match ca_bookkeeping a with
               | RaisedAfterDrawdownCheck =>
                   position_fields (fst (_get_position_info st (ca_info a)))
               | _ => position_fields st
               end)
            /\ position_entry_time st' = position_entry_time st
            /\ current_trade_id st' = current_trade_id st
            /\ counters st'
               = (S (total_trades st), S (successful_trades st),
                  S (failed_trades st)))).
Proof.
  intros Hp Hpe Hs Hse st' order. subst st' order.
  unfold _close_position, closing_side. rewrite Hp, Hs.
  assert (T1 : truthy (Some side) = true).
  { unfold truthy. destruct side; [congruence | reflexivity]. }
  assert (T2 : truthy (Some symbol) = true).
  { unfold truthy. destruct symbol; [congruence | reflexivity]. }
  rewrite T1, T2. cbn [negb orb get]. split.
  - intros [Hn | (pos & rest & Hc & Hz)].
    + destruct (ca_positions a) as [[| pos rest] |]; try discriminate;
        repeat split; reflexivity.
    + rewrite Hc. apply Qeqb_eq in Hz. rewrite Hz.
      repeat split; reflexivity.
  - intros pos rest Hc Hnz. rewrite Hc.
    apply Qeqb_neq in Hnz. rewrite Hnz.
    set (sent := send st _).
    destruct (truthy (ca_order_id a)).
    2:{ split; [reflexivity |]. split; [| split; intros Hx; discriminate].
        intros _. split; reflexivity. }
    destruct (ca_bookkeeping a) eqn:Eb.
    + pose proof (get_position_info_frame (count_success sent) (ca_info a))
        as (Hlog & _).
      pose proof (counters_info (count_success sent) (ca_info a)) as Hcnt.
      destruct (_get_position_info (count_success sent) (ca_info a))
        as [st1 balance].
      cbn [fst] in Hlog, Hcnt.
      pose proof (counters_drawdown_after_close st1 balance) as Hd.
      destruct (drawdown_after_close_frame st1 balance) as (Hl & _).
      destruct (_check_drawdown_after_close st1 balance) as [st2 flag].
      cbn [fst] in Hd, Hl.
      split.
      { cbn [api_log set_entry_record set_position]. rewrite Hl, Hlog.
        reflexivity. }
      split; [intros Hx; discriminate |].
      split; [| intros _ Hx; contradiction].
      intros _ _. repeat split; try reflexivity.
      change (counters st2
              = (S (total_trades st), S (successful_trades st),
                 failed_trades st)).
      rewrite Hd, Hcnt. reflexivity.
    + split; [reflexivity |]. split; [intros Hx; discriminate |].
      split; [intros _ Hx; discriminate |].
      intros _ _. repeat split; reflexivity.
    + pose proof (get_position_info_frame (count_success sent) (ca_info a))
        as (Hlog & _).
      pose proof (counters_info (count_success sent) (ca_info a)) as Hcnt.
      pose proof (position_info_entry_record (count_success sent) (ca_info a))
        as (He1 & He2).
      pose proof (position_info_fields st (count_success sent) (ca_info a)
                    eq_refl) as Hpf.
      destruct (_get_position_info (count_success sent) (ca_info a))
        as [st1 balance].
      cbn [fst] in Hlog, Hcnt, He1, He2, Hpf.
      pose proof (counters_drawdown_after_close st1 balance) as Hd.
      destruct (drawdown_after_close_frame st1 balance)
        as (Hl & _ & Hf & Ht & Hi).
      destruct (_check_drawdown_after_close st1 balance) as [st2 flag].
      cbn [fst] in Hd, Hl, Hf, Ht, Hi.
      split.
      { cbn [api_log count_failure set_counters]. rewrite Hl, Hlog.
        reflexivity. }
      split; [intros Hx; discriminate |].
      split; [intros _ Hx; discriminate |].
      intros _ _.
      split.
      { change (position_fields st2
                = position_fields (fst (_get_position_info st (ca_info a)))).
        rewrite Hf, Hpf. reflexivity. }
      split.
      { change (position_entry_time st2 = position_entry_time st).
        rewrite Ht, He1. reflexivity. }
      split.
      { change (current_trade_id st2 = current_trade_id st).
        rewrite Hi, He2. reflexivity. }
      destruct (counters_eq _ _ Hd) as (D1 & D2 & D3).
      destruct (counters_eq _ _ Hcnt) as (C1 & C2 & C3).
      unfold counters.
      cbn [total_trades successful_trades failed_trades count_failure
           count_success set_counters send] in *.
      subst sent. cbn [total_trades successful_trades failed_trades send] in *.
      congruence.
Qed.

Lemma close_position_cases_witness :
  position_fields (_close_position engine_in_long filled_close_answers "stop")
  = (None, None, 0)
  /\ position_fields
       (_close_position engine_in_long unreadable_fill_answers "stop")
     = position_fields engine_in_long
  /\ counters (_close_position engine_in_long unreadable_fill_answers "stop")
     = (1%nat, 1%nat, 1%nat).
Proof.
  destruct (proj2 (close_position_cases engine_in_long filled_close_answers
                     "stop" "Buy" "BTCUSDT_PERPETUAL"
                     eq_refl ltac:(discriminate) eq_refl ltac:(discriminate))
              (btc_long_row 49000) [] eq_refl ltac:(vm_compute; discriminate))
    as (_ & _ & Hok & _).
  destruct (Hok eq_refl eq_refl) as (H1 & _).
  destruct (proj2 (close_position_cases engine_in_long unreadable_fill_answers
                     "stop" "Buy" "BTCUSDT_PERPETUAL"
                     eq_refl ltac:(discriminate) eq_refl ltac:(discriminate))
              (btc_long_row 49000) [] eq_refl ltac:(vm_compute; discriminate))
    as (_ & _ & _ & Hraise).
  destruct (Hraise eq_refl ltac:(discriminate)) as (H2 & _ & _ & H3).
  split; [exact H1 |]. split; [exact H2 | exact H3].
Defined.

(** The request of [_close_position] for a position the exchange lists
    with a size other than zero. *)
Lemma close_position_request st a reason side symbol pos rest :
  current_position st = Some side -> side <> "" ->
  current_symbol st = Some symbol -> symbol <> "" ->
  ca_positions a = Some (pos :: rest) -> ~ pr_size pos == 0 ->
  api_log (_close_position st a reason)
  = api_log st
    ++ [PlaceOrder (bybit_symbol_of symbol) (closing_side side) "Market"
          (pr_size pos) None true None None].
Proof.
  intros Hp Hpe Hs Hse Hc Hnz.
  unfold _close_position, closing_side. rewrite Hp, Hs, Hc.
  assert (T1 : truthy (Some side) = true).
  { unfold truthy. destruct side; [congruence | reflexivity]. }
  assert (T2 : truthy (Some symbol) = true).
  { unfold truthy. destruct symbol; [congruence | reflexivity]. }
  rewrite T1, T2. cbn [negb orb get].
  apply Qeqb_neq in Hnz. rewrite Hnz.
  destruct (truthy (ca_order_id a)); [| reflexivity].
  destruct (ca_bookkeeping a); [| reflexivity |].
  all: match goal with
       | |- context [_get_position_info ?s ?i] =>
           pose proof (get_position_info_frame s i) as (Hlog & _);
           destruct (_get_position_info s i) as [st1 balance]
       end;
    cbn [fst] in Hlog;
    destruct (drawdown_after_close_frame st1 balance) as (Hl & _);
    destruct (_check_drawdown_after_close st1 balance) as [st2 flag];
    cbn [fst] in Hl; cbn; rewrite Hl, Hlog; reflexivity.
Qed.

(** What [_open_position] may add to the request log: nothing or one
    opening order. *)
Lemma open_position_opened cfg st a action symbol position_size_pct leverage
    reason order_type entry stop_loss take_profit market_data decision :
  exists opened,
    api_log (_open_position cfg st a action symbol position_size_pct leverage
               reason order_type entry stop_loss take_profit market_data
               decision)
    = api_log st ++ opened
    /\ Forall (fun r => is_opening r = true) opened
    /\ (length opened <= 1)%nat.
Proof.
  pose proof (open_position_log cfg st a action symbol position_size_pct
                leverage reason order_type entry stop_loss take_profit
                market_data decision) as H.
  cbv zeta in H.
  destruct H as [H | (cp & pv & qty & q & side & ot & price & sl & tp
                      & _ & _ & _ & H)].
  - exists []. rewrite app_nil_r. split; [exact H |].
    split; [constructor | cbn; lia].
  - eexists. split; [exact H |].
    split; [repeat constructor | cbn; lia].
Qed.

(** X13.  A decision whose action is neither LONG nor SHORT returns normally,
    leaves the tracked orders alone and sends no opening order; unless
    the action is CLOSE it changes nothing at all. *)
Theorem execute_without_entry_signal cfg st a decision all_market_data :
  get (d_action decision) "HOLD" <> "LONG" ->
  get (d_action decision) "HOLD" <> "SHORT" ->
  exists st',
    _execute_decision cfg st a decision all_market_data = Returned st'
    /\ pending_limit_orders st' = pending_limit_orders st
    /\ (exists added,
          api_log st' = api_log st ++ added
          /\ Forall (fun r => is_opening r = false) added)
    /\ (get (d_action decision) "HOLD" <> "CLOSE" -> st' = st).
Proof.
  intros Hl Hs. unfold _execute_decision.
  assert (Same : exists added,
             api_log st = api_log st ++ added
             /\ Forall (fun r => is_opening r = false) added).
  { exists []. rewrite app_nil_r. split; [reflexivity | constructor]. }
  destruct (String.eqb _ "HOLD"); [exists st; auto |].
  destruct (String.eqb _ "CLOSE") eqn:Ec.
  { destruct (truthy _); [| exists st; auto].
    eexists. split; [reflexivity |].
    split; [apply close_position_pending |].
    split; [apply close_position_log |].
    intros Hn. apply String.eqb_eq in Ec. contradiction. }
  apply String.eqb_neq in Hl, Hs. rewrite Hl, Hs. cbn [orb].
  exists st. auto.
Qed.

Lemma execute_without_entry_signal_witness :
  exists st',
    _execute_decision sample_config engine_in_long sample_exec_answers
      sample_hold ∅ = Returned st'
    /\ pending_limit_orders st' = pending_limit_orders engine_in_long.
Proof.
  destruct (execute_without_entry_signal sample_config engine_in_long
              sample_exec_answers sample_hold ∅
              ltac:(discriminate) ltac:(discriminate))
    as (st' & H1 & H2 & _).
  exists st'. split; [exact H1 | exact H2].
Defined.

(** X14.  Switching is not symmetric.  With a position held and no duplicate
    order pending, a LONG or SHORT decision first closes the position when
    it is on another symbol, or when a SHORT meets a held "Buy"; a LONG on
    the symbol held "Sell" sends no close at all, since the code compares
    the held side with "Short" while [_open_position] stores "Buy" or
    "Sell".  In the same-symbol, same-direction case nothing is closed
    either.  After that at most one opening order follows. *)
Theorem execute_switch_asymmetry cfg st a decision all_market_data action sym
    side held :
  d_action decision = Some action ->
  action = "LONG" \/ action = "SHORT" ->
  d_target_symbol decision = Some sym ->
  current_position st = Some side -> side <> "" ->
  current_symbol st = Some held -> held <> "" ->
  has_pending_order (pending_limit_orders st) (bybit_symbol_of sym)
    (if String.eqb action "LONG" then "Buy" else "Sell") = false ->
  let st' := outcome_state
               (_execute_decision cfg st a decision all_market_data) in
  exists opened,
    Forall (fun r => is_opening r = true) opened
    /\ (length opened <= 1)%nat
    /\ (held <> sym \/ (action = "SHORT" /\ side = "Buy")
        \/ (action = "LONG" /\ side = "Short") ->
        forall pos rest,
          ca_positions (xa_close a) = Some (pos :: rest) ->
          ~ pr_size pos == 0 ->
          api_log st'
          = api_log st
            ++ PlaceOrder (bybit_symbol_of held) (closing_side side) "Market"
                 (pr_size pos) None true None None :: opened)
    /\ (held = sym ->
        (action = "LONG" /\ side <> "Short")
        \/ (action = "SHORT" /\ side <> "Buy") ->
        api_log st' = api_log st ++ opened).
Proof.
  intros Ha Hact Hsym Hp Hpe Hs Hse Hdup st'. subst st'.
  unfold _execute_decision. rewrite Ha, Hsym. cbn [get].
  assert (Hnh : String.eqb action "HOLD" = false)
    by (destruct Hact as [-> | ->]; reflexivity).
  assert (Hnc : String.eqb action "CLOSE" = false)
    by (destruct Hact as [-> | ->]; reflexivity).
  assert (Hls : String.eqb action "LONG" || String.eqb action "SHORT" = true)
    by (destruct Hact as [-> | ->]; reflexivity).
  rewrite Hnh, Hnc, Hls, Hdup.
  assert (T1 : truthy (current_position st) = true).
  { rewrite Hp. unfold truthy. destruct side; [congruence | reflexivity]. }
  rewrite T1. cbn [andb outcome_state].
  assert (Hneed : need_switch st action sym
                  = negb (bool_decide (held = sym))
                    || (String.eqb action "LONG" && String.eqb side "Short")
                    || (String.eqb action "SHORT" && String.eqb side "Buy")).
  { unfold need_switch. rewrite Hs, Hp. cbn [get].
    destruct (decide (held = sym)) as [-> | Hne].
    - rewrite !bool_decide_eq_true_2 by reflexivity. reflexivity.
    - rewrite bool_decide_eq_false_2 by congruence.
      rewrite bool_decide_eq_false_2 by exact Hne. reflexivity. }
  rewrite Hneed.
  match goal with
  | |- context [_open_position cfg ?s ?oa ?ac ?sy ?p ?l ?r ?ot ?e ?sl ?tp ?md ?d] =>
      destruct (open_position_opened cfg s oa ac sy p l r ot e sl tp md d)
        as (opened & Hlog & Hopen & Hlen)
  end.
  exists opened. split; [exact Hopen |]. split; [exact Hlen |]. split.
  - intros Hcase pos rest Hc Hnz.
    assert (Hb : negb (bool_decide (held = sym))
                 || (String.eqb action "LONG" && String.eqb side "Short")
                 || (String.eqb action "SHORT" && String.eqb side "Buy")
                 = true).
    { destruct Hcase as [Hne | [[-> ->] | [-> ->]]].
      - rewrite bool_decide_eq_false_2 by exact Hne. reflexivity.
      - now rewrite orb_true_r.
      - cbn. now rewrite orb_true_r. }
    rewrite Hb in Hlog |- *. cbv iota in Hlog |- *. rewrite Hlog.
    rewrite (close_position_request st (xa_close a) _ side held pos rest
               Hp Hpe Hs Hse Hc Hnz).
    rewrite <- app_assoc. reflexivity.
  - intros Heq Hcase.
    assert (Hb : negb (bool_decide (held = sym))
                 || (String.eqb action "LONG" && String.eqb side "Short")
                 || (String.eqb action "SHORT" && String.eqb side "Buy")
                 = false).
    { rewrite bool_decide_eq_true_2 by exact Heq. cbn [negb orb].
      destruct Hcase as [[-> Hn] | [-> Hn]]; cbn;
        apply String.eqb_neq in Hn; rewrite Hn; reflexivity. }
    rewrite Hb in Hlog |- *. exact Hlog.
Qed.

Lemma execute_switch_asymmetry_witness :
  exists opened,
    Forall (fun r => is_opening r = true) opened
    /\ api_log (outcome_state
                  (_execute_decision sample_config
                     (set_position initial_engine (Some "Sell")
                        (Some "BTCUSDT_PERPETUAL") 50000)
                     sample_exec_answers sample_long ∅))
       = opened.
Proof.
  destruct (execute_switch_asymmetry sample_config
              (set_position initial_engine (Some "Sell")
                 (Some "BTCUSDT_PERPETUAL") 50000)
              sample_exec_answers sample_long ∅ "LONG" "BTCUSDT_PERPETUAL"
              "Sell" "BTCUSDT_PERPETUAL"
              eq_refl (or_introl eq_refl) eq_refl eq_refl
              ltac:(discriminate) eq_refl ltac:(discriminate) eq_refl)
    as (opened & Hopen & _ & _ & Hsame).
  exists opened. split; [exact Hopen |].
  apply (Hsame eq_refl). left. split; [reflexivity | discriminate].
Defined.

(** ** Opening *)

Ltac engine_fields :=
  cbn [api_log pending_limit_orders total_trades successful_trades
       failed_trades current_position current_symbol entry_price
       position_entry_time position_entry_reason current_trade_id
       send count_success count_failure set_counters set_pending
       set_position set_entry_record].

(** X15.  An order sent by [_open_position] and accepted by the exchange is
    booked at once: the engine holds the side and the symbol of the order
    at the price it asked for (the last traded price for a market order,
    the requested entry for a limit order), the entry time and trade id
    are recorded and one trade is counted.  A limit order is also tracked
    under the id the exchange returned, so that a resting order already
    counts as the position.  An order the exchange refuses counts one
    failure and leaves the tracked orders alone. *)
Theorem open_position_booked cfg st a action symbol position_size_pct
    leverage reason order_type entry stop_loss take_profit market_data
    decision :
  let st' := _open_position cfg st a action symbol position_size_pct leverage
               reason order_type entry stop_loss take_profit market_data
               decision in
  api_log st' <> api_log st ->
  exists current_price q price sl tp,
    let side := if String.eqb action "LONG" then "Buy" else "Sell" in
    let order_price :=
      fst (open_order_price order_type entry current_price) in
    let ot := snd (open_order_price order_type entry current_price) in
    oa_ticker a = Some current_price
    /\ api_log st'
       = api_log st
         ++ [PlaceOrder (bybit_symbol_of symbol) side ot q price false sl tp]
    /\ (truthy (oa_order_id a) = true ->
        position_fields st' = (Some side, Some symbol, order_price)
        /\ position_entry_time st' = Some (oa_entry_time a)
        /\ current_trade_id st' = oa_trade_id a
        /\ counters st'
           = (S (total_trades st), S (successful_trades st),
              failed_trades st)
        /\ (ot <> "Limit" ->
            pending_limit_orders st' = pending_limit_orders st)
        /\ (ot = "Limit" ->
            exists info,
              pending_limit_orders st'
              = <[get (oa_order_id a) "" := info]> (pending_limit_orders st)
              /\ oi_symbol info = bybit_symbol_of symbol
              /\ oi_side info = side
              /\ oi_price info = order_price
              /\ oi_qty info = q
              /\ oi_create_time info = oa_create_time a))
    /\ (truthy (oa_order_id a) = false ->
        pending_limit_orders st' = pending_limit_orders st
        /\ position_fields st'
           = position_fields (fst (_get_position_info st (oa_info a)))
        /\ counters st'
           = (total_trades st, successful_trades st, S (failed_trades st))).
Proof.
  intros st'. subst st'. unfold _open_position.
  destruct (oa_ticker a) as [current_price |]; [| congruence].
  pose proof (get_position_info_frame st (oa_info a)) as (Hlog & Hpend & _).
  pose proof (counters_info st (oa_info a)) as Hcnt.
  destruct (_get_position_info st (oa_info a)) as [st1 balance].
  cbn [fst] in *.
  destruct (counters_eq _ _ Hcnt) as (Hc1 & Hc2 & Hc3).
  destruct (Qltb balance _); [congruence |].
  destruct (open_sizing _ _ _ _) as [[position_value qty] |];
    [| cbn; congruence].
  destruct (_format_quantity _ _ _) as [q |]; [| cbn; congruence].
  destruct (_validate_order _ _ _ _); try congruence.
  destruct (open_order_price order_type entry current_price)
    as [order_price ot] eqn:Eop.
  destruct (_validate_stop_loss_take_profit _ _ _ _);
    try congruence; [| cbn; congruence].
  unfold open_order_request.
  destruct (if String.eqb ot "Limit" then _ else _) as [price |];
    [| cbn; congruence].
  destruct (if Qgtb stop_loss 0 then _ else _) as [sl |]; [| cbn; congruence].
  destruct (match first_target take_profit with Some _ => _ | None => _ end)
    as [tp |]; [| cbn; congruence].
  cbn [opt_bind]. intros _.
  exists current_price, q, price, sl, tp. cbv zeta. rewrite Eop.
  cbn [fst snd].
  split; [reflexivity |].
  destruct (truthy (oa_order_id a)).
  - split.
    { destruct (String.eqb ot "Limit"); engine_fields; rewrite Hlog;
        reflexivity. }
    split; [| intros Hx; discriminate].
    intros _.
    split. { destruct (String.eqb ot "Limit"); reflexivity. }
    split. { destruct (String.eqb ot "Limit"); reflexivity. }
    split. { destruct (String.eqb ot "Limit"); reflexivity. }
    split.
    { destruct (String.eqb ot "Limit"); unfold counters; engine_fields;
        rewrite Hc1, Hc2, Hc3; reflexivity. }
    split.
    + intros Hn. apply String.eqb_neq in Hn. rewrite Hn. engine_fields.
      exact Hpend.
    + intros ->. cbn [String.eqb Ascii.eqb Bool.eqb].
      eexists. split; [engine_fields; rewrite Hpend; reflexivity |].
      repeat split; reflexivity.
  - split; [engine_fields; rewrite Hlog; reflexivity |].
    split; [intros Hx; discriminate |]. intros _.
    split; [exact Hpend |]. split; [reflexivity |].
    unfold counters. engine_fields. rewrite Hc1, Hc2, Hc3. reflexivity.
Qed.

Lemma open_position_booked_witness :
  position_fields
    (_open_position sample_config initial_engine sample_open_answers "LONG"
       "BTCUSDT_PERPETUAL" 0.1 10 "trend" "Limit" 49900 49000 [51000]
       empty_market_data sample_long)
  = (Some "Buy", Some "BTCUSDT_PERPETUAL", 49900).
Proof.
  destruct (open_position_booked sample_config initial_engine
              sample_open_answers "LONG" "BTCUSDT_PERPETUAL" 0.1 10 "trend"
              "Limit" 49900 49000 [51000] empty_market_data sample_long
              ltac:(vm_compute; discriminate))
    as (current_price & q & price & sl & tp & _ & _ & Hok & _).
  destruct (Hok eq_refl) as (Hpos & _). exact Hpos.
Defined.

(** ** Trailing stop: when it moves and what it touches *)

(** X16.  A new stop is proposed only for a "Buy" or a "Sell" row whose profit
    has reached the trigger distance.  With a positive ATR and positive
    multipliers it lies on the protective side of the last price, a first
    stop (none set on the exchange) is at break-even or better, and a
    stop that replaces one is strictly tighter. *)
Theorem trailing_candidate_sound cfg side entry stop price atr new_stop :
  0 < atr ->
  0 < trailing_stop_distance_multiplier cfg ->
  0 < trailing_stop_trigger_multiplier cfg ->
  trailing_candidate cfg side entry stop price atr = Some new_stop ->
  (side = "Buy"
   /\ atr * trailing_stop_trigger_multiplier cfg <= price - entry
   /\ new_stop < price
   /\ (stop <= 0 -> entry <= new_stop)
   /\ (0 < stop -> stop < new_stop))
  \/ (side = "Sell"
      /\ atr * trailing_stop_trigger_multiplier cfg <= entry - price
      /\ price < new_stop
      /\ (stop <= 0 -> new_stop <= entry)
      /\ (0 < stop -> new_stop < stop)).
Proof.
  intros Hatr Hd Ht. unfold trailing_candidate.
  set (d := trailing_stop_distance_multiplier cfg) in *.
  set (t := trailing_stop_trigger_multiplier cfg) in *.
  assert (Hd' : 0 < atr * d) by nra.
  assert (Ht' : 0 < atr * t) by nra.
  destruct (String.eqb side "Buy") eqn:Eb.
  - apply String.eqb_eq in Eb. subst side.
    destruct (Qgeb _ _) eqn:E1; [| discriminate].
    destruct (Qgtb stop 0) eqn:E2.
    + destruct (Qgtb _ stop) eqn:E3; [| discriminate].
      intros [= <-]. left. qprop.
      repeat split; try lra.
    + intros [= <-]. left. unfold py_max. qprop.
      destruct (Qltb _ _) eqn:E4; qprop; repeat split; try lra.
  - destruct (String.eqb side "Sell") eqn:Es; [| discriminate].
    apply String.eqb_eq in Es. subst side.
    destruct (Qgeb _ _) eqn:E1; [| discriminate].
    destruct (Qgtb stop 0) eqn:E2.
    + destruct (Qltb _ stop) eqn:E3; [| discriminate].
      intros [= <-]. right. qprop.
      repeat split; try lra.
    + intros [= <-]. right. unfold py_min. qprop.
      destruct (Qltb _ _) eqn:E4; qprop; repeat split; try lra.
Qed.

Lemma trailing_candidate_sound_witness :
  exists new_stop,
    trailing_candidate sample_config "Buy" 50000 0 50600 500 = Some new_stop
    /\ 50000 <= new_stop /\ new_stop < 50600.
Proof.
  exists 50000. split; [reflexivity |].
  destruct (trailing_candidate_sound sample_config "Buy" 50000 0 50600 500
              50000 eq_refl eq_refl eq_refl eq_refl)
    as [(_ & _ & Hlt & Hfirst & _) | (Hside & _)]; [| discriminate Hside].
  split; [apply Hfirst; discriminate | exact Hlt].
Defined.

(** X17.  A trailing check is rate-limited and local.  While trailing is
    switched off or the last check is younger than the interval, the
    engine is returned as it is.  Otherwise the time of the check is
    recorded.  In every case the position, the tracked orders, the trade
    counters, the drawdown books and the protection state stay as they
    were, at most one request is sent, and the update counter rises by
    one exactly when a request was sent and the exchange accepted it. *)
Theorem trailing_check_effects cfg st a :
  let st' := _check_and_update_trailing_stop cfg st a in
  (use_trailing_stop cfg = false
   \/ ta_now a - last_trailing_stop_check st < trailing_stop_check_interval cfg
   -> st' = st)
  /\ (use_trailing_stop cfg = true ->
      trailing_stop_check_interval cfg
      <= ta_now a - last_trailing_stop_check st ->
      last_trailing_stop_check st' = ta_now a)
  /\ position_fields st' = position_fields st
  /\ pending_limit_orders st' = pending_limit_orders st
  /\ counters st' = counters st
  /\ peak_balance st' = peak_balance st
  /\ extreme_protection st' = extreme_protection st
  /\ (api_log st' = api_log st
      /\ trailing_stop_updates st' = trailing_stop_updates st
      \/ exists stop,
           api_log st'
           = api_log st
             ++ [SetTradingStop (bybit_symbol_of (get (current_symbol st) ""))
                   stop]
           /\ trailing_stop_updates st'
              = (if ta_set_ok a then S (trailing_stop_updates st)
                 else trailing_stop_updates st)).
Proof.
  cbv zeta. unfold _check_and_update_trailing_stop.
  destruct (use_trailing_stop cfg) eqn:Eu; cbn [negb].
  2:{ repeat split; auto. intros; discriminate. }
  destruct (Qltb _ (trailing_stop_check_interval cfg)) eqn:Ei.
  { repeat split; auto. intros _ Hx. qprop. lra. }
  assert (Hoff : true = false
                 \/ ta_now a - last_trailing_stop_check st
                    < trailing_stop_check_interval cfg ->
                 False).
  { intros [Hx | Hx]; [discriminate | qprop; lra]. }
  cbn [current_position current_symbol set_trailing].
  destruct (negb (truthy (current_position st))
            || negb (truthy (current_symbol st)));
    [repeat split; auto; intros Hx; destruct (Hoff Hx) |].
  destruct (ta_positions a) as [[| position rest] |];
    try (repeat split; auto; intros Hx; destruct (Hoff Hx)).
  destruct (Qeqb (pr_size position) 0);
    [repeat split; auto; intros Hx; destruct (Hoff Hx) |].
  destruct (ta_ticker a) as [price |];
    [| repeat split; auto; intros Hx; destruct (Hoff Hx)].
  destruct (opt_bind (ta_market a) trailing_atr) as [[atr |] |];
    try (repeat split; auto; intros Hx; destruct (Hoff Hx)).
  destruct (Qeqb atr 0);
    [repeat split; auto; intros Hx; destruct (Hoff Hx) |].
  destruct (trailing_candidate _ _ _ _ _ _) as [new_stop |];
    [| repeat split; auto; intros Hx; destruct (Hoff Hx)].
  destruct (Qgtb new_stop 0);
    [| repeat split; auto; intros Hx; destruct (Hoff Hx)].
  destruct (_format_price _ _ _) as [formatted |];
    [| repeat split; auto; intros Hx; destruct (Hoff Hx)].
  split; [intros Hx; destruct (Hoff Hx) |].
  destruct (ta_set_ok a);
    (split; [reflexivity |]); repeat (split; [reflexivity |]);
    right; exists formatted; split; reflexivity.
Qed.

Lemma trailing_check_effects_witness :
  _check_and_update_trailing_stop sample_config
    (set_trailing engine_in_long 0 1699999990) idle_trail_answers
  = set_trailing engine_in_long 0 1699999990.
Proof.
  apply (proj1 (trailing_check_effects sample_config
                  (set_trailing engine_in_long 0 1699999990)
                  idle_trail_answers)).
  right. reflexivity.
Defined.

(** ** The check of the pending limit orders *)

Lemma modify_books cfg st a order_id order_info suggested :
  books (fst (_modify_limit_order_price cfg st a order_id order_info
                suggested))
  = books st
  /\ exists added,
       api_log (fst (_modify_limit_order_price cfg st a order_id order_info
                       suggested))
       = api_log st ++ added
       /\ Forall (fun r => is_order_management r = true) added.
Proof.
  assert (Same : exists added,
             api_log st = api_log st ++ added
             /\ Forall (fun r => is_order_management r = true) added).
  { exists []. rewrite app_nil_r. split; [reflexivity | constructor]. }
  unfold _modify_limit_order_price.
  destruct (ma_ticker a) as [current_price |]; [| auto].
  destruct (_format_price _ _ _) as [new_price_str |]; [| auto].
  destruct (negb (ma_cancel_ok a) && _).
  { split; [reflexivity |]. eexists. split; [reflexivity |].
    repeat constructor. }
  destruct (if truthy_num _ then _ else _) as [sl |].
  2:{ split; [reflexivity |]. eexists. split; [reflexivity |].
      repeat constructor. }
  destruct (match first_target _ with Some _ => _ | None => _ end) as [tp |].
  2:{ split; [reflexivity |]. eexists. split; [reflexivity |].
      repeat constructor. }
  destruct (truthy (ma_new_order_id a));
    (split; [reflexivity |]);
    exists [CancelOrder (oi_symbol order_info) order_id;
            PlaceOrder (oi_symbol order_info) (oi_side order_info) "Limit"
              (oi_qty order_info) (Some new_price_str) false sl tp];
    (split; [cbn [fst api_log send set_pending]; rewrite <- app_assoc;
             reflexivity
            | repeat constructor]).
Qed.

Lemma check_one_books cfg current_time a acc item :
  books (fst (check_one_order cfg current_time a acc item)) = books (fst acc)
  /\ exists added,
       api_log (fst (check_one_order cfg current_time a acc item))
       = api_log (fst acc) ++ added
       /\ Forall (fun r => is_order_management r = true) added.
Proof.
  destruct acc as [st rm], item as [o oinfo].
  assert (Same : exists added,
             api_log st = api_log st ++ added
             /\ Forall (fun r => is_order_management r = true) added).
  { exists []. rewrite app_nil_r. split; [reflexivity | constructor]. }
  unfold check_one_order. cbn [fst].
  destruct (_get_order_status _ _) as [s |]; [| auto].
  destruct (is_closed_status s); [auto |].
  destruct (_ && is_open_status s); [| auto].
  destruct (String.eqb _ "cancel_and_market").
  { unfold _cancel_and_place_market_order. cbn [fst].
    destruct (negb _); (split; [reflexivity |]).
    - eexists. split; [reflexivity | repeat constructor].
    - exists [CancelOrder (oi_symbol oinfo) o;
              PlaceOrder (oi_symbol oinfo) (oi_side oinfo) "Market"
                (oi_qty oinfo) None false None None].
      split; [cbn [api_log send]; rewrite <- app_assoc; reflexivity
             | repeat constructor]. }
  destruct (String.eqb _ "modify"); [apply modify_books |].
  destruct (String.eqb _ "cancel"); [| auto].
  split; [reflexivity |]. eexists. split; [reflexivity | repeat constructor].
Qed.

(** X18.  The check of the pending orders is order management only: it leaves
    the position, the entry record, the counters, the trailing and
    drawdown books and the protection state as they are, and what it
    sends are cancellations and orders that are not reduce-only. *)
Theorem pending_check_local cfg st current_time answers :
  let st' := _check_pending_limit_orders cfg st current_time answers in
  books st' = books st
  /\ exists added,
       api_log st' = api_log st ++ added
       /\ Forall (fun r => is_order_management r = true) added.
Proof.
  cbv zeta. rewrite check_pending_unfold. cbv zeta.
  assert (H : forall items acc,
             let acc' := fold_left (pending_round cfg current_time answers)
                           items acc in
             books (fst acc') = books (fst acc)
             /\ exists added,
                  api_log (fst acc') = api_log (fst acc) ++ added
                  /\ Forall (fun r => is_order_management r = true) added).
  { induction items as [| item items IH]; intros acc; cbn [fold_left].
    - cbv zeta. split; [reflexivity |]. exists []. rewrite app_nil_r.
      split; [reflexivity | constructor].
    - destruct (IH (pending_round cfg current_time answers acc item))
        as (Hb & added2 & Hl2 & Hf2).
      destruct (check_one_books cfg current_time (answers (fst item)) acc
                  item) as (Hb1 & added1 & Hl1 & Hf1).
      fold (pending_round cfg current_time answers acc item) in Hb1, Hl1.
      cbv zeta. split; [congruence |].
      exists (added1 ++ added2). split.
      + rewrite Hl2, Hl1, app_assoc. reflexivity.
      + apply Forall_app. auto. }
  specialize (H (map_to_list (pending_limit_orders st)) (st, [])).
  cbv zeta in H. cbn [fst] in H. destruct H as (Hb & added & Hl & Hf).
  split; [exact Hb |]. exists added. split; [exact Hl | exact Hf].
Qed.

(** X19.  An order the exchange does not list among the open orders is taken
    as filled.  When that holds for every tracked order (as it does when
    the list of open orders cannot be read at all) the check forgets all
    of them and sends nothing. *)
Theorem pending_unlisted_dropped cfg st current_time answers :
  (forall order_id info,
     pending_limit_orders st !! order_id = Some info ->
     Forall (fun order => oo_order_id order <> order_id)
       (get (pa_orders (answers order_id)) [])) ->
  let st' := _check_pending_limit_orders cfg st current_time answers in
  pending_limit_orders st' = ∅ /\ api_log st' = api_log st.
Proof.
  intros Hun. cbv zeta. rewrite check_pending_unfold. cbv zeta.
  assert (Hstatus : forall order_id info,
             pending_limit_orders st !! order_id = Some info ->
             _get_order_status (pa_orders (answers order_id)) order_id
             = Some "Filled").
  { intros order_id info Hin. specialize (Hun _ _ Hin).
    unfold _get_order_status.
    destruct (List.find _ _) as [order |] eqn:Hf; [| reflexivity].
    apply find_some in Hf as [Hin' Heq]. apply String.eqb_eq in Heq.
    rewrite Forall_forall in Hun. apply list_elem_of_In in Hin'.
    destruct (Hun _ Hin' Heq). }
  assert (H : forall items rm,
             Forall (fun item : string * OrderInfo =>
                       is_Some (pending_limit_orders st !! fst item)) items ->
             fold_left (pending_round cfg current_time answers) items (st, rm)
             = (st, rm ++ map fst items)).
  { induction items as [| [o oinfo] items IH]; intros rm Hall;
      cbn [fold_left map].
    - now rewrite app_nil_r.
    - apply Forall_cons in Hall as [[x Hx] Hall].
      unfold pending_round at 2. unfold check_one_order. cbn [fst] in *.
      rewrite (Hstatus _ _ Hx). cbn [is_closed_status String.eqb Ascii.eqb
                                     Bool.eqb orb].
      rewrite IH by exact Hall. now rewrite <- app_assoc. }
  rewrite H.
  2:{ apply Forall_forall. intros [o oinfo] Hin.
      apply elem_of_map_to_list in Hin. cbn. eauto. }
  cbn [fst snd pending_limit_orders api_log set_pending app].
  split; [| reflexivity].
  apply map_eq. intros k. rewrite lookup_fold_delete, lookup_empty.
  case_decide as Hin; [reflexivity |].
  destruct (pending_limit_orders st !! k) as [x |] eqn:Hk; [| reflexivity].
  exfalso. apply Hin. apply list_elem_of_fmap. exists (k, x).
  split; [reflexivity |]. now apply elem_of_map_to_list.
Qed.

Lemma pending_unlisted_dropped_witness :
  pending_limit_orders
    (_check_pending_limit_orders sample_config engine_with_pending 1700000010
       (fun _ => idle_pending_answers))
  = ∅.
Proof.
  apply (pending_unlisted_dropped sample_config engine_with_pending
           1700000010 (fun _ => idle_pending_answers)).
  intros order_id info _. constructor.
Defined.

(** X20.  An order is left alone when its status cannot be read, or when it is
    not closed and either younger than the timeout or in a state other
    than New and PartiallyFilled.  When that holds for every tracked
    order the check changes no tracked order and sends nothing. *)
Theorem pending_orders_wait cfg st current_time answers :
  (forall order_id info,
     pending_limit_orders st !! order_id = Some info ->
     match _get_order_status (pa_orders (answers order_id)) order_id with
     | None => True
     | Some order_status =>
         is_closed_status order_status = false
         /\ (current_time - oi_create_time info < limit_order_timeout cfg
             \/ is_open_status order_status = false)
     end) ->
  let st' := _check_pending_limit_orders cfg st current_time answers in
  pending_limit_orders st' = pending_limit_orders st
  /\ api_log st' = api_log st.
Proof.
  intros Hw. cbv zeta. rewrite check_pending_unfold. cbv zeta.
  assert (H : forall items,
             Forall (fun item : string * OrderInfo =>
                       pending_limit_orders st !! fst item = Some (snd item))
               items ->
             fold_left (pending_round cfg current_time answers) items (st, [])
             = (st, [])).
  { induction items as [| [o oinfo] items IH]; intros Hall;
      cbn [fold_left]; [reflexivity |].
    apply Forall_cons in Hall as [Hx Hall]. cbn [fst snd] in Hx.
    specialize (Hw _ _ Hx).
    unfold pending_round at 2. unfold check_one_order. cbn [fst].
    destruct (_get_order_status _ _) as [s |]; [| exact (IH Hall)].
    destruct Hw as [Hc Hy]. rewrite Hc.
    assert (E : Qgeb (current_time - oi_create_time oinfo)
                  (limit_order_timeout cfg) && is_open_status s = false).
    { destruct Hy as [Hy | Hy].
      - apply andb_false_iff. left. qprop. exact Hy.
      - apply andb_false_iff. now right. }
    rewrite E. exact (IH Hall). }
  rewrite H.
  2:{ apply Forall_forall. intros [o oinfo] Hin.
      apply elem_of_map_to_list in Hin. exact Hin. }
  cbn [fst snd fold_left pending_limit_orders api_log set_pending].
  split; reflexivity.
Qed.

Lemma pending_orders_wait_witness :
  pending_limit_orders
    (_check_pending_limit_orders sample_config engine_with_pending 1700000010
       (timeout_answers (Some "cancel") None))
  = pending_limit_orders engine_with_pending.
Proof.
  apply (pending_orders_wait sample_config engine_with_pending 1700000010
           (timeout_answers (Some "cancel") None)).
  intros order_id info Hin.
  change (pending_limit_orders engine_with_pending)
    with ({["order-1" := sample_order_info]} : gmap string OrderInfo) in Hin.
  apply lookup_singleton_Some in Hin as [<- <-].
  split; [reflexivity | left; reflexivity].
Defined.

(** *** Refusals while a timed-out order is handled *)



Section PendingRefusals.
Variables (cfg : Config) (st : Engine) (current_time : Q).
Variable answers : string -> PendingAnswers.
Variables (order_id : string) (info : OrderInfo) (order_status : string).

Hypothesis Htracked : pending_limit_orders st !! order_id = Some info.
Hypothesis Hstatus :
  _get_order_status (pa_orders (answers order_id)) order_id
  = Some order_status.
Hypothesis Hopen : is_open_status order_status = true.
Hypothesis Hage :
  limit_order_timeout cfg <= current_time - oi_create_time info.

(** Every other tracked order is left waiting: its status cannot be read,
    or it is not closed and is either younger than the timeout or in a
    state other than New and PartiallyFilled. *)
Hypothesis Hwait :
  forall other oinfo,
    other <> order_id ->
    pending_limit_orders st !! other = Some oinfo ->
    match _get_order_status (pa_orders (answers other)) other with
    | None => True
    | Some other_status =>
        is_closed_status other_status = false
        /\ (current_time - oi_create_time oinfo < limit_order_timeout cfg
            \/ is_open_status other_status = false)
    end.

Local Abbreviation a := (answers order_id).
Local Abbreviation final :=
  (_check_pending_limit_orders cfg st current_time answers).


End PendingRefusals.


(** ** The detectors of the extreme-market protection *)

(** X22.  The two detectors that read single candles of the held symbol.  A
    flash crash is reported exactly when the 15m candle opened above zero
    and closed below 92% of its open or dipped below 88% of it.  A
    volatility surge is reported exactly when the 4h ATR is positive and
    the 15m ATR is more than one and a half times it, and the increase it
    prints is above 50%. *)
Theorem candle_detectors_iff market_data :
  let candle := get (md_15m market_data) empty_candle in
  let atr_15m := get (c_atr candle) 0 in
  let atr_4h := get (c_atr (get (md_4h market_data) empty_candle)) 0 in
  (is_Some (check_flash_crash market_data)
   <-> 0 < get (c_open candle) 0
       /\ (get (c_close candle) 0 < 0.92 * get (c_open candle) 0
           \/ get (c_low candle) 0 < 0.88 * get (c_open candle) 0))
  /\ (is_Some (check_volatility_surge market_data)
      <-> 0 < atr_4h /\ 1.5 * atr_4h < atr_15m)
  /\ (forall pct,
        check_volatility_surge market_data = Some (ReasonVolatility pct) ->
        50 < pct).
Proof.
  split.
  { cbv zeta. unfold check_flash_crash, flash_crash_threshold.
    set (o := get (c_open _) 0). set (c := get (c_close _) 0).
    set (l := get (c_low _) 0).
    destruct (Qleb o 0) eqn:E0.
    { qprop. split; [intros [x Hx]; discriminate | intros [Hx _]; lra]. }
    assert (Ho : 0 < o) by (qprop; exact E0).
    assert (Hdrop : forall x k, k < (o - x) / o <-> x < (1 - k) * o).
    { intros x k.
      assert (Hx : x == (x / o) * o) by (field; lra).
      assert (Hd : (o - x) / o == 1 - x / o) by (field; lra).
      rewrite Hd. set (q := x / o) in *. split; intros H; nra. }
    destruct (Qgtb ((o - c) / o) 0.08) eqn:E1.
    { split; [| eauto]. intros _. split; [exact Ho |]. left.
      qprop. apply Hdrop in E1. lra. }
    destruct (Qgtb ((o - l) / o) (0.08 * 1.5)) eqn:E2.
    { split; [| eauto]. intros _. split; [exact Ho |]. right.
      qprop. apply Hdrop in E2. lra. }
    split; [intros [x Hx]; discriminate |].
    intros [_ [Hx | Hx]]; qprop.
    - assert (H1 : 0.08 < (o - c) / o) by (apply Hdrop; lra). lra.
    - assert (H1 : 0.08 * 1.5 < (o - l) / o) by (apply Hdrop; lra). lra. }
  { cbv zeta. unfold check_volatility_surge, atr_surge_threshold.
    set (x := get (c_atr (get (md_15m market_data) empty_candle)) 0).
    set (y := get (c_atr (get (md_4h market_data) empty_candle)) 0).
    destruct (Qgtb y 0) eqn:E0; cbn [andb].
    2:{ qprop. split; [| intros pct Hx; discriminate].
        split; [intros [z Hz]; discriminate | intros [Hx _]; lra]. }
    destruct (Qgtb x (y * 1.50)) eqn:E1.
    - qprop. split.
      + split; [| eauto]. intros _. split; lra.
      + intros pct [= <-].
        assert (Hx : x == (x / y) * y) by (field; lra).
        set (q := x / y) in *. nra.
    - qprop. split; [| intros pct Hx; discriminate].
      split; [intros [z Hz]; discriminate | intros [_ Hx]; lra]. }
Qed.



(** ** The stop-loss window, the daily baseline and the trigger log *)

Lemma filter_window_compose (w1 w2 : Q) (stops : list Q) :
  w1 <= w2 ->
  filter (fun t => Qgtb t w2 = true) (filter (fun t => Qgtb t w1 = true) stops)
  = filter (fun t => Qgtb t w2 = true) stops.
Proof.
  intros Hw. induction stops as [| t stops IH]; [reflexivity |].
  rewrite (filter_cons (fun t => Qgtb t w1 = true)).
  rewrite (filter_cons (fun t => Qgtb t w2 = true) t stops).
  destruct (decide (Qgtb t w1 = true)) as [H1 | H1].
  - rewrite filter_cons. destruct (decide (Qgtb t w2 = true));
      now rewrite IH.
  - destruct (decide (Qgtb t w2 = true)) as [H2 | H2]; [| exact IH].
    exfalso. apply H1. qprop. lra.
Qed.

Lemma check_consecutive_stops_unfold self timestamp :
  check_consecutive_stops self timestamp
  = ({| recent_stop_losses :=
          stops_in_window (recent_stop_losses self) timestamp;
        daily_start_balance := daily_start_balance self;
        current_day := current_day self;
        protection_triggers := protection_triggers self |},
     if Nat.leb 3 (length (stops_in_window (recent_stop_losses self)
                             timestamp))
     then Some (ReasonConsecutiveStops
                  (length (stops_in_window (recent_stop_losses self)
                             timestamp)))
     else None).
Proof.
  unfold check_consecutive_stops, stops_in_window, stop_loss_window_hours,
    max_stops_in_period.
  cbv zeta. now destruct (Nat.leb _ _).
Qed.

(** X24.  The window of [check_consecutive_stops] holds the recorded stops that
    are strictly younger than four hours, in the order they were
    recorded; the check reports exactly when there are three or more of
    them, and with their number.  A stop recorded with [record_stop_loss]
    enters the window at its end.  Checking at an earlier time first does
    not change what a later check keeps or reports. *)
Theorem consecutive_stops_window self timestamp :
  recent_stop_losses (fst (check_consecutive_stops self timestamp))
  = stops_in_window (recent_stop_losses self) timestamp
  /\ snd (check_consecutive_stops self timestamp)
     = (if Nat.leb 3 (length (stops_in_window (recent_stop_losses self)
                                timestamp))
        then Some (ReasonConsecutiveStops
                     (length (stops_in_window (recent_stop_losses self)
                                timestamp)))
        else None)
  /\ (forall t,
        stops_in_window (recent_stop_losses (record_stop_loss self t))
          timestamp
        = stops_in_window (recent_stop_losses self) timestamp
          ++ (if Qltb (timestamp - 4 * 3600) t then [t] else []))
  /\ (forall earlier,
        earlier <= timestamp ->
        check_consecutive_stops (fst (check_consecutive_stops self earlier))
          timestamp
        = check_consecutive_stops self timestamp).
Proof.
  rewrite check_consecutive_stops_unfold. cbn [fst snd recent_stop_losses].
  split; [reflexivity |]. split; [reflexivity |]. split.
  - intros t. unfold stops_in_window.
    cbn [recent_stop_losses record_stop_loss].
    rewrite filter_app. f_equal.
    rewrite filter_cons, filter_nil. unfold Qgtb.
    destruct (decide (Qltb (timestamp - 4 * 3600) t = true)) as [H | H].
    + now rewrite H.
    + apply not_true_is_false in H. now rewrite H.
  - intros earlier Hle. rewrite !check_consecutive_stops_unfold.
    cbn [fst recent_stop_losses daily_start_balance current_day
         protection_triggers].
    unfold stops_in_window.
    rewrite filter_window_compose by lra. reflexivity.
Qed.

Lemma consecutive_stops_window_witness :
  check_consecutive_stops
    (fst (check_consecutive_stops
            (record_stop_loss protection_reset 1700000000) 1700003600))
    1700014400
  = check_consecutive_stops (record_stop_loss protection_reset 1700000000)
      1700014400.
Proof.
  apply (proj2 (proj2 (proj2
           (consecutive_stops_window
              (record_stop_loss protection_reset 1700000000) 1700014400)))).
  vm_compute. discriminate.
Defined.

(** X25.  Two calls of [check_max_daily_loss] on the same calendar day, the
    first one opening the day: the first call takes its balance as the
    day's baseline and reports nothing; the second call leaves the
    baseline alone and, for a positive baseline, reports exactly when the
    balance is below 85% of it.  A baseline of zero makes the second call
    raise. *)
Theorem daily_loss_two_calls self opening later t1 t2 :
  current_day self <> Some (date_of t1) ->
  date_of t2 = date_of t1 ->
  let first := check_max_daily_loss self opening t1 in
  let second := check_max_daily_loss (fst first) later t2 in
  snd first = DailyOk
  /\ daily_start_balance (fst first) = Some opening
  /\ fst second = fst first
  /\ (0 < opening ->
      (later < 0.85 * opening ->
       snd second
       = DailyTriggered
           (ReasonDailyLoss ((opening - later) / opening * 100)))
      /\ (0.85 * opening <= later -> snd second = DailyOk))
  /\ (opening == 0 -> snd second = DailyRaised).
Proof.
  intros Hday Hsame. cbv zeta.
  assert (Hfirst : check_max_daily_loss self opening t1
                   = (set_daily self (Some (date_of t1)) (Some opening),
                      DailyOk)).
  { unfold check_max_daily_loss.
    now rewrite (bool_decide_eq_false_2 _ Hday). }
  rewrite Hfirst. cbn [fst snd].
  split; [reflexivity |]. split; [reflexivity |].
  unfold check_max_daily_loss.
  cbn [current_day daily_start_balance set_daily]. rewrite Hsame.
  rewrite bool_decide_eq_true_2 by reflexivity. cbn [negb].
  unfold max_daily_loss_pct.
  destruct (Qeqb opening 0) eqn:E0.
  { qprop. split; [reflexivity |]. split; [intros Hx; lra |]. reflexivity. }
  assert (Hpct : 0 < opening ->
                 (15 < (opening - later) / opening * 100
                  <-> later < 0.85 * opening)).
  { intros Hp.
    assert (Hb : later == (later / opening) * opening) by (field; lra).
    assert (Hd : (opening - later) / opening * 100
                 == 100 - 100 * (later / opening)) by (field; lra).
    rewrite Hd. set (q := later / opening) in *. split; intros H; nra. }
  destruct (Qgtb _ 15) eqn:E1; cbn [fst snd]; qprop.
  - split; [reflexivity |]. split; [| intros Hx; contradiction].
    intros Hp. split; [reflexivity |].
    intros Hx. exfalso. apply (Hpct Hp) in E1. lra.
  - split; [reflexivity |]. split; [| intros Hx; contradiction].
    intros Hp. split; [| reflexivity].
    intros Hx. exfalso. apply (Hpct Hp) in Hx. lra.
Qed.

Lemma daily_loss_two_calls_witness :
  snd (check_max_daily_loss
         (fst (check_max_daily_loss protection_reset 1000 1700000000))
         840 1700003600)
  = DailyTriggered (ReasonDailyLoss ((1000 - 840) / 1000 * 100)).
Proof.
  destruct (daily_loss_two_calls protection_reset 1000 840 1700000000
              1700003600 ltac:(discriminate) eq_refl)
    as (_ & _ & _ & Hpos & _).
  exact (proj1 (Hpos eq_refl) eq_refl).
Defined.

(** What one noted detector adds to the trigger log. *)
Lemma note_trigger_log timestamp ty found acc :
  (forall r, found = Some r -> reason_type r = Some ty) ->
  exists added,
    protection_triggers (fst (note timestamp ty found acc))
    = protection_triggers (fst acc) ++ added
    /\ snd (note timestamp ty found acc) = snd acc ++ map trg_reason added
    /\ Forall (fun g => trg_timestamp g = timestamp
                        /\ reason_type (trg_reason g) = Some (trg_type g))
         added
    /\ daily_start_balance (fst (note timestamp ty found acc))
       = daily_start_balance (fst acc)
    /\ current_day (fst (note timestamp ty found acc)) = current_day (fst acc).
Proof.
  intros Hty. destruct found as [r |]; cbn [note].
  - exists [{| trg_timestamp := timestamp; trg_type := ty;
               trg_reason := r |}].
    cbn [fst snd add_trigger protection_triggers daily_start_balance
         current_day map trg_reason].
    repeat split; try reflexivity.
    repeat constructor; cbn; auto.
  - exists []. cbn [map]. rewrite !app_nil_r.
    repeat split; try reflexivity. constructor.
Qed.

(** X26.  [comprehensive_check] logs what it reports: the triggers it appends
    carry, in order, exactly the reasons it returns, each with the
    timestamp of the call and the type of its detector; it asks for
    protection exactly when it returns a reason; and it never touches the
    daily baseline. *)
Theorem comprehensive_check_logs self now_minute all_market_data balance
    timestamp has_position current_symbol :
  let res := comprehensive_check self now_minute all_market_data balance
               timestamp has_position current_symbol in
  (exists added,
     protection_triggers (fst res) = protection_triggers self ++ added
     /\ map trg_reason added = snd (snd res)
     /\ Forall (fun g => trg_timestamp g = timestamp
                         /\ reason_type (trg_reason g) = Some (trg_type g))
          added)
  /\ (fst (snd res) = true <-> snd (snd res) <> [])
  /\ daily_start_balance (fst res) = daily_start_balance self
  /\ current_day (fst res) = current_day self
  /\ recent_stop_losses (fst res)
     = stops_in_window (recent_stop_losses self) timestamp.
Proof.
  cbv zeta. unfold comprehensive_check.
  set (acc0 := (self, @nil Reason)).
  destruct (note_trigger_log timestamp multi_asset_crash
              (check_multi_asset_crash all_market_data) acc0
              (check_multi_asset_crash_type all_market_data))
    as (add1 & T1 & R1 & F1 & D1 & C1).
  pose proof (note_stops timestamp multi_asset_crash
                (check_multi_asset_crash all_market_data) acc0) as S1.
  set (acc1 := note timestamp multi_asset_crash _ acc0) in *.
  set (held := if has_position && truthy current_symbol then _ else None).
  assert (H2 : exists add2,
             let acc2 :=
               match held with
               | Some market_data =>
                   note timestamp volatility_surge
                     (check_volatility_surge market_data)
                     (note timestamp liquidity_crisis
                        (check_liquidity_crisis now_minute market_data)
                        (note timestamp flash_crash
                           (check_flash_crash market_data) acc1))
               | None => acc1
               end in
             protection_triggers (fst acc2)
             = protection_triggers (fst acc1) ++ add2
             /\ snd acc2 = snd acc1 ++ map trg_reason add2
             /\ Forall (fun g => trg_timestamp g = timestamp
                                 /\ reason_type (trg_reason g)
                                    = Some (trg_type g)) add2
             /\ daily_start_balance (fst acc2)
                = daily_start_balance (fst acc1)
             /\ current_day (fst acc2) = current_day (fst acc1)
             /\ recent_stop_losses (fst acc2)
                = recent_stop_losses (fst acc1)).
  { destruct held as [market_data |].
    - destruct (note_trigger_log timestamp flash_crash
                  (check_flash_crash market_data) acc1
                  (check_flash_crash_type market_data))
        as (a1 & Ta & Ra & Fa & Da & Ca).
      pose proof (note_stops timestamp flash_crash
                    (check_flash_crash market_data) acc1) as Sa.
      set (x1 := note timestamp flash_crash _ acc1) in *.
      destruct (note_trigger_log timestamp liquidity_crisis
                  (check_liquidity_crisis now_minute market_data) x1
                  (check_liquidity_crisis_type now_minute market_data))
        as (a2 & Tb & Rb & Fb & Db & Cb).
      pose proof (note_stops timestamp liquidity_crisis
                    (check_liquidity_crisis now_minute market_data) x1) as Sb.
      set (x2 := note timestamp liquidity_crisis _ x1) in *.
      destruct (note_trigger_log timestamp volatility_surge
                  (check_volatility_surge market_data) x2
                  (check_volatility_surge_type market_data))
        as (a3 & Tc & Rc & Fc & Dc & Cc).
      pose proof (note_stops timestamp volatility_surge
                    (check_volatility_surge market_data) x2) as Sc.
      exists (a1 ++ a2 ++ a3). cbv zeta.
      rewrite Tc, Tb, Ta, Rc, Rb, Ra, !map_app, <- !app_assoc.
      repeat split; try congruence.
      repeat (apply Forall_app; split); assumption.
    - exists []. cbv zeta. cbn [map]. rewrite !app_nil_r.
      repeat split; try reflexivity. constructor. }
  destruct H2 as (add2 & T2 & R2 & F2 & D2 & C2 & S2). cbv zeta in *.
  set (acc2 := match held with Some _ => _ | None => acc1 end) in *.
  rewrite check_consecutive_stops_unfold.
  set (self3 := Build_ExtremeMarketProtection _ _ _ _).
  set (found := if Nat.leb 3 _ then _ else None).
  assert (Hty : forall r, found = Some r -> reason_type r = Some consecutive_stops).
  { subst found. intros r. destruct (Nat.leb 3 _); intros [= <-]. reflexivity. }
  destruct (note_trigger_log timestamp consecutive_stops found
              (self3, snd acc2) Hty) as (add3 & T3 & R3 & F3 & D3 & C3).
  pose proof (note_stops timestamp consecutive_stops found (self3, snd acc2))
    as S3.
  set (acc3 := note timestamp consecutive_stops found (self3, snd acc2)) in *.
  cbn [fst snd] in *.
  subst self3. cbn [protection_triggers daily_start_balance current_day
                    recent_stop_losses] in *.
  split; [| split; [| split; [| split]]].
  - exists (add1 ++ add2 ++ add3).
    rewrite T3, T2, T1, R3, R2, R1, !map_app, <- !app_assoc.
    subst acc0. cbn [fst snd app].
    repeat split. repeat (apply Forall_app; split); assumption.
  - destruct (snd acc3) as [| r rest]; cbn.
    + split; [discriminate | congruence].
    + split; [discriminate | reflexivity].
  - rewrite D3, D2, D1. reflexivity.
  - rewrite C3, C2, C1. reflexivity.
  - rewrite S3, S2, S1. reflexivity.
Qed.

(** ** Protection statistics *)

Lemma count_of_bump ttype key counts :
  count_of key (bump ttype counts)
  = (count_of key counts + (if bool_decide (ttype = key) then 1 else 0))%nat.
Proof.
  unfold count_of. induction counts as [| [k n] counts IH]; cbn [bump].
  - cbn [List.find fst snd]. destruct (bool_decide (ttype = key)); reflexivity.
  - destruct (decide (k = ttype)) as [-> | Hne].
    + rewrite bool_decide_eq_true_2 by reflexivity.
      cbn [List.find fst snd].
      destruct (bool_decide (ttype = key)); cbn [snd]; lia.
    + rewrite bool_decide_eq_false_2 by exact Hne.
      cbn [List.find fst snd].
      destruct (decide (k = key)) as [-> | Hnk].
      * rewrite bool_decide_eq_true_2 by reflexivity. cbn [snd].
        rewrite bool_decide_eq_false_2 by congruence. lia.
      * rewrite bool_decide_eq_false_2 by exact Hnk. exact IH.
Qed.

Ltac sum_cons :=
  repeat match goal with
    | |- context [list_sum (?a :: ?l)] =>
        change (list_sum (a :: l)) with (a + list_sum l)%nat
    end.

Lemma bump_keys ttype counts :
  NoDup (map fst counts) ->
  NoDup (map fst (bump ttype counts))
  /\ (forall key, key ∈ map fst (bump ttype counts)
                  <-> key = ttype \/ key ∈ map fst counts)
  /\ (list_sum (map snd (bump ttype counts))
      = S (list_sum (map snd counts)))%nat.
Proof.
  induction counts as [| [k n] counts IH]; intros Hnd; cbn [bump].
  - cbn. split; [repeat constructor; apply not_elem_of_nil |].
    split; [| reflexivity].
    intros key. rewrite list_elem_of_singleton. split; [auto |].
    intros [H | H]; [exact H | now apply not_elem_of_nil in H].
  - cbn [map fst] in Hnd. apply NoDup_cons in Hnd as [Hk Hnd].
    destruct (decide (k = ttype)) as [-> | Hne].
    + rewrite bool_decide_eq_true_2 by reflexivity. cbn [map fst snd list_sum].
      split; [now apply NoDup_cons |].
      split; [| sum_cons; lia].
      intros key. rewrite elem_of_cons. tauto.
    + rewrite bool_decide_eq_false_2 by exact Hne.
      destruct (IH Hnd) as (I1 & I2 & I3).
      cbn [map fst snd list_sum].
      split; [| split].
      * apply NoDup_cons. split; [| exact I1].
        rewrite I2. intros [H | H]; [congruence | contradiction].
      * intros key. rewrite !elem_of_cons, I2. tauto.
      * sum_cons. rewrite I3. lia.
Qed.

(** X27.  [get_protection_stats] counts every trigger once: the types listed
    are distinct, each listed with the number of logged triggers of that
    type, a type with no trigger is not listed, and the counts add up to
    [total_triggers]. *)
Theorem protection_stats_consistent self :
  let stats := get_protection_stats self in
  fst stats = length (protection_triggers self)
  /\ NoDup (map fst (snd stats))
  /\ list_sum (map snd (snd stats)) = fst stats
  /\ (forall ttype,
        count_of ttype (snd stats)
        = length (filter (fun g => trg_type g = ttype)
                    (protection_triggers self)))
  /\ (forall ttype,
        ttype ∈ map fst (snd stats)
        <-> exists g, g ∈ protection_triggers self /\ trg_type g = ttype).
Proof.
  cbv zeta. unfold get_protection_stats. cbn [fst snd].
  split; [reflexivity |].
  assert (H : forall triggers counts,
             NoDup (map fst counts) ->
             let counts' :=
               fold_left (fun counts trigger => bump (trg_type trigger) counts)
                 triggers counts in
             NoDup (map fst counts')
             /\ list_sum (map snd counts')
                = (list_sum (map snd counts) + length triggers)%nat
             /\ (forall ttype,
                   count_of ttype counts'
                   = (count_of ttype counts
                      + length (filter (fun g => trg_type g = ttype)
                                  triggers))%nat)
             /\ (forall ttype,
                   ttype ∈ map fst counts'
                   <-> ttype ∈ map fst counts
                       \/ exists g, g ∈ triggers /\ trg_type g = ttype)).
  { induction triggers as [| g triggers IH]; intros counts Hnd;
      cbn [fold_left].
    - cbv zeta. split; [exact Hnd |]. split; [cbn; lia |].
      split; [intros ttype; cbn; lia |].
      intros ttype. split; [auto |].
      intros [Hx | (g & Hg & _)]; [exact Hx |].
      now apply not_elem_of_nil in Hg.
    - destruct (bump_keys (trg_type g) counts Hnd) as (B1 & B2 & B3).
      destruct (IH _ B1) as (I1 & I2 & I3 & I4). cbv zeta in *.
      split; [exact I1 |]. split; [rewrite I2, B3; cbn [length]; lia |].
      split.
      + intros ttype. rewrite I3, count_of_bump, filter_cons.
        destruct (decide (trg_type g = ttype)) as [Heq | Hne].
        * rewrite bool_decide_eq_true_2 by exact Heq. cbn [length]. lia.
        * rewrite bool_decide_eq_false_2 by exact Hne. lia.
      + intros ttype. rewrite I4, B2. split.
        * intros [[Hx | Hx] | (g' & Hg' & Ht)].
          -- right. exists g. split; [apply list_elem_of_here | congruence].
          -- now left.
          -- right. exists g'. split; [now apply list_elem_of_further | exact Ht].
        * intros [Hx | (g' & Hg' & Ht)]; [left; now right |].
          apply elem_of_cons in Hg' as [-> | Hg'].
          -- left. left. congruence.
          -- right. exists g'. auto. }
  destruct (H (protection_triggers self) [] (NoDup_nil_2))
    as (H1 & H2 & H3 & H4). cbv zeta in *.
  split; [exact H1 |]. split; [rewrite H2; cbn; lia |].
  split; [intros ttype; rewrite H3; cbn; lia |].
  intros ttype. rewrite H4. split; [| auto].
  intros [Hx | Hx]; [now apply not_elem_of_nil in Hx | exact Hx].
Qed.

(** ** The order of one loop iteration *)

Lemma drawdown_and_analyze_frame st balance :
  api_log (_check_drawdown_and_analyze st balance) = api_log st
  /\ pending_limit_orders (_check_drawdown_and_analyze st balance)
     = pending_limit_orders st
  /\ position_fields (_check_drawdown_and_analyze st balance)
     = position_fields st.
Proof.
  unfold _check_drawdown_and_analyze.
  destruct (Qgtb balance _); cbn [peak_balance set_drawdown];
    (destruct (Qgtb _ 0); [| auto]);
    destruct (_ && _); auto.
Qed.

(** X28.  An iteration that finds no market data does nothing after the check
    of the pending orders.  An iteration that ends in the protection
    pause had market data and at least one reason from
    [comprehensive_check]; the policy's decision is not executed: after
    the check of the pending orders it sends at most the one reduce-only
    order of the emergency close, and it tracks no new order. *)
Theorem loop_protection_pause cfg st a :
  let st0 := _check_pending_limit_orders cfg st (la_time a) (la_pending a) in
  let res := trading_loop_iteration cfg st a in
  (snd res = NoMarketData -> la_market a = ∅ /\ fst res = st0)
  /\ (forall reasons,
        snd res = ProtectionPause reasons ->
        la_market a <> ∅
        /\ reasons <> []
        /\ pending_limit_orders (fst res) = pending_limit_orders st0
        /\ exists closes,
             api_log (fst res) = api_log st0 ++ closes
             /\ Forall (fun r => is_opening r = false) closes
             /\ (length closes <= 1)%nat).
Proof.
  cbv zeta. unfold trading_loop_iteration.
  set (st0 := _check_pending_limit_orders cfg st (la_time a) (la_pending a)).
  destruct (bool_decide (la_market a = ∅)) eqn:Em.
  { apply bool_decide_eq_true in Em. cbn [fst snd].
    split; [auto | intros reasons Hx; discriminate]. }
  apply bool_decide_eq_false in Em.
  pose proof (get_position_info_frame st0 (la_info a)) as (L1 & P1 & _).
  destruct (_get_position_info st0 (la_info a)) as [st1 balance].
  cbn [fst] in L1, P1.
  set (st2 := if Qgtb balance 0 then _ else st1).
  assert (H2 : api_log st2 = api_log st1
               /\ pending_limit_orders st2 = pending_limit_orders st1).
  { subst st2. destruct (Qgtb balance 0); [| auto].
    destruct (drawdown_and_analyze_frame st1 balance) as (Hx & Hy & _). auto. }
  destruct H2 as [L2 P2]. clearbody st2.
  pose proof (comprehensive_check_reasons (extreme_protection st2)
                (la_now_minute a) (la_market a) balance (la_timestamp a)
                (bool_decide (current_position st2 <> None))
                (current_symbol st2)) as [_ Hv].
  cbv zeta in Hv.
  destruct (comprehensive_check _ _ _ _ _ _ _)
    as [protection [should_protect found]].
  cbn [fst snd] in Hv.
  set (st3 := set_protection st2 protection).
  assert (L3 : api_log st3 = api_log st0) by (cbn; congruence).
  assert (P3 : pending_limit_orders st3 = pending_limit_orders st0)
    by (cbn; congruence).
  destruct should_protect.
  - cbn [fst snd]. split; [intros Hx; discriminate |].
    intros reasons [= <-]. split; [exact Em |].
    split.
    { intros ->. cbn in Hv. discriminate. }
    destruct (truthy (current_position st3)).
    + split; [now rewrite close_position_pending |].
      unfold _close_position.
      destruct (negb _ || negb _).
      { exists []. rewrite app_nil_r. repeat split; auto. }
      destruct (ca_positions (la_emergency a)) as [[| pos rest] |];
        try (exists []; rewrite app_nil_r; repeat split; auto; fail).
      destruct (Qeqb (pr_size pos) 0).
      { exists []. rewrite app_nil_r. repeat split; auto. }
      exists [PlaceOrder (bybit_symbol_of (get (current_symbol st3) ""))
                (if String.eqb (get (current_position st3) "") "Buy"
                 then "Sell" else "Buy")
                "Market" (pr_size pos) None true None None].
      split; [| split; [repeat constructor | cbn; lia]].
      destruct (truthy (ca_order_id (la_emergency a)));
        [| cbn [api_log count_failure set_counters send]; now rewrite L3].
      destruct (ca_bookkeeping (la_emergency a));
        [| cbn [api_log count_failure count_success set_counters send];
           now rewrite L3 |].
      all: match goal with
           | |- context [_get_position_info ?s ?i] =>
               pose proof (get_position_info_frame s i) as (Hlog & _);
               destruct (_get_position_info s i) as [st4 balance4]
           end;
        cbn [fst] in Hlog;
        destruct (drawdown_after_close_frame st4 balance4) as (Hl & _);
        destruct (_check_drawdown_after_close st4 balance4) as [st5 flag];
        cbn [fst] in Hl;
        cbn [api_log set_entry_record set_position count_failure
             set_counters];
        rewrite Hl, Hlog;
        cbn [api_log count_success set_counters send]; now rewrite L3.
    + split; [exact P3 |]. exists []. rewrite app_nil_r. repeat split; auto.
  - destruct (_execute_decision _ _ _ _ _); cbn [fst snd];
      (split; [intros Hx; discriminate | intros reasons Hx; discriminate]).
Qed.

Lemma loop_protection_pause_witness :
  exists closes,
    api_log (fst (trading_loop_iteration sample_config engine_in_long
                    crash_loop_answers))
    = api_log (_check_pending_limit_orders sample_config engine_in_long
                 (la_time crash_loop_answers) (la_pending crash_loop_answers))
      ++ closes
    /\ Forall (fun r => is_opening r = false) closes.
Proof.
  destruct (proj2 (loop_protection_pause sample_config engine_in_long
                     crash_loop_answers)
              _ ltac:(vm_compute; reflexivity))
    as (_ & _ & _ & closes & Hlog & Hall & _).
  exists closes. split; [exact Hlog | exact Hall].
Defined.

(** ** The API client *)

(** X29.  After a successful synchronisation the timestamp of a request is the
    server time of the answer, in milliseconds, plus the whole
    milliseconds the local clock has advanced since: it equals the
    server time when taken at once, never falls behind it, and within
    five seconds it stays inside the receive window.  A synchronisation
    that fails in any way leaves the offset as it was. *)
Theorem timestamp_after_sync self response now :
  (match response with
   | None => True
   | Some r => tr_status_code r <> 200%Z \/ tr_retCode r <> Some 0%Z
               \/ tr_timeSecond r = None
   end ->
   _sync_server_time self response now = self)
  /\ (forall r seconds later,
        response = Some r ->
        tr_status_code r = 200%Z -> tr_retCode r = Some 0%Z ->
        tr_timeSecond r = Some seconds ->
        0 <= now -> now <= later ->
        let synced := _sync_server_time self response now in
        _get_timestamp synced now = (seconds * 1000)%Z
        /\ _get_timestamp synced later
           = (seconds * 1000 + (py_int (later * 1000) - py_int (now * 1000)))%Z
        /\ (seconds * 1000 <= _get_timestamp synced later)%Z
        /\ (later - now <= 5 ->
            (_get_timestamp synced later <= seconds * 1000 + 5000)%Z)
        /\ recv_window synced = recv_window self).
Proof.
  split.
  - destruct response as [r |]; [| reflexivity].
    intros [H | [H | H]]; unfold _sync_server_time.
    + apply Z.eqb_neq in H. now rewrite H.
    + rewrite (bool_decide_eq_false_2 _ H). now destruct (Z.eqb _ _).
    + rewrite H. destruct (Z.eqb _ _); [| reflexivity].
      now destruct (bool_decide _).
  - intros r seconds later -> Hs Hc Ht Hnow Hlater. cbv zeta.
    unfold _sync_server_time, _get_timestamp.
    apply Z.eqb_eq in Hs. rewrite Hs, Ht.
    rewrite (bool_decide_eq_true_2 _ Hc). cbn [time_offset recv_window].
    assert (Hm : (py_int (now * 1000) <= py_int (later * 1000))%Z)
      by (apply py_int_mono; lra).
    split; [lia |]. split; [lia |]. split; [lia |]. split; [| reflexivity].
    intros Hw.
    destruct (py_int_floor_bounds (now * 1000) ltac:(lra)) as [N1 N2].
    destruct (py_int_floor_bounds (later * 1000) ltac:(lra)) as [L1 L2].
    assert (Hq : inject_Z (py_int (later * 1000))
                 < inject_Z (py_int (now * 1000) + 5000) + 1).
    { rewrite inject_Z_plus. change (inject_Z 5000) with 5000. lra. }
    apply inject_Z_lt_succ in Hq. lia.
Qed.

Lemma timestamp_after_sync_witness :
  _get_timestamp
    (_sync_server_time new_client
       (Some {| tr_status_code := 200; tr_retCode := Some 0%Z;
                tr_timeSecond := Some 1700000000%Z |})
       1699999999.5)
    1700000002.25
  = 1700000002750%Z.
Proof.
  destruct (proj2 (timestamp_after_sync new_client
                     (Some {| tr_status_code := 200; tr_retCode := Some 0%Z;
                              tr_timeSecond := Some 1700000000%Z |})
                     1699999999.5)
              _ 1700000000%Z 1700000002.25 eq_refl eq_refl eq_refl eq_refl
              ltac:(vm_compute; discriminate) ltac:(vm_compute; discriminate))
    as (_ & H & _).
  rewrite H. reflexivity.
Defined.

(** X30.  What the write calls of the client report.  [_send_request] hands
    back a body exactly when the HTTP layer delivered one whose [retCode]
    is 0 or 110043 (leverage already set); every other code, the
    zero-position answer included, comes back as nothing.
    [cancel_order] and [set_leverage] succeed exactly then.
    [set_trading_stop] without a stop and a target posts nothing.
    [place_order] posts nothing for a limit order without a price, and
    returns an order id exactly when it posted, the answer passed and its
    result carries that id; a limit order carries the given time in
    force, an opening market order IOC, a reduce-only market order
    none, and a price is only sent with a limit order. *)
Theorem api_write_outcomes symbol side order_type qty price time_in_force
    reduce_only close_on_trigger stop_loss take_profit
    (answer : HttpOutcome (option string)) :
  let passes := fun result : ApiResult (option string) =>
    answer = HttpJson result
    /\ (js_retCode result = Some 0%Z \/ js_retCode result = Some 110043%Z) in
  let placed := place_order symbol side order_type qty price time_in_force
                  reduce_only close_on_trigger stop_loss take_profit answer in
  (forall result, _send_request answer = Some result <-> passes result)
  /\ (cancel_order answer = true <-> exists result, passes result)
  /\ (set_leverage answer = true <-> exists result, passes result)
  /\ (truthy stop_loss = false -> truthy take_profit = false ->
      set_trading_stop stop_loss take_profit answer = (false, false))
  /\ (order_type = "Limit" -> truthy price = false -> placed = (None, None))
  /\ (forall order_id,
        snd placed = Some order_id
        <-> is_Some (fst placed)
            /\ exists result,
                 passes result /\ js_result result = Some (Some order_id))
  /\ (forall params,
        fst placed = Some params ->
        op_timeInForce params
        = (if String.eqb order_type "Limit" then Some time_in_force
           else if String.eqb order_type "Market" && negb reduce_only
                then Some "IOC" else None)
        /\ op_price params
           = (if String.eqb order_type "Limit" then price else None)
        /\ op_reduceOnly params = reduce_only
        /\ op_stopLoss params <> Some ""
        /\ op_takeProfit params <> Some "").
Proof.
  cbv zeta.
  assert (Hsend : forall result : ApiResult (option string),
             _send_request answer = Some result
             <-> answer = HttpJson result
                 /\ (js_retCode result = Some 0%Z
                     \/ js_retCode result = Some 110043%Z)).
  { intros result. unfold _send_request.
    destruct answer as [| body].
    { split; [discriminate | intros [Hx _]; discriminate]. }
    destruct (decide (js_retCode body = Some 0%Z)) as [H0 | H0].
    { rewrite (bool_decide_eq_true_2 _ H0). cbn [negb].
      split; [intros [= <-]; auto | intros [[= <-] _]; reflexivity]. }
    rewrite (bool_decide_eq_false_2 _ H0). cbn [negb].
    destruct (decide (js_retCode body = Some 110043%Z)) as [H1 | H1].
    { rewrite H1.
      rewrite !bool_decide_eq_false_2 by discriminate.
      rewrite bool_decide_eq_true_2 by reflexivity.
      split; [intros [= <-]; auto | intros [[= <-] _]; reflexivity]. }
    assert (Hnone : (if bool_decide (js_retCode body = Some 10002%Z) then None
                     else if bool_decide (js_retCode body = Some 10003%Z)
                     then None
                     else if bool_decide (js_retCode body = Some 10004%Z)
                     then None
                     else if bool_decide (js_retCode body = Some 10006%Z)
                     then None
                     else if bool_decide (js_retCode body = Some 110043%Z)
                     then Some body
                     else if bool_decide (js_retCode body = Some 10001%Z)
                             && str_in "zero position"
                                  (get (js_retMsg body) "Unknown error")
                     then None else None) = @None (ApiResult (option string))).
    { rewrite (bool_decide_eq_false_2 _ H1).
      repeat match goal with
        | |- context [if ?b then _ else _] => destruct b
        end; reflexivity. }
    rewrite Hnone.
    split; [discriminate | intros [[= <-] [Hx | Hx]]; contradiction]. }
  assert (Hsome : _send_request answer <> None
                  <-> exists result : ApiResult (option string),
                        answer = HttpJson result
                        /\ (js_retCode result = Some 0%Z
                            \/ js_retCode result = Some 110043%Z)).
  { split.
    - intros Hn. destruct (_send_request answer) as [result |] eqn:E;
        [| contradiction].
      exists result. now apply Hsend.
    - intros [result Hp]. apply Hsend in Hp. rewrite Hp. discriminate. }
  split; [exact Hsend |].
  split; [unfold cancel_order; now rewrite bool_decide_eq_true |].
  split; [unfold set_leverage; now rewrite bool_decide_eq_true |].
  split.
  { intros Hs Ht. unfold set_trading_stop. now rewrite Hs, Ht. }
  unfold place_order, place_order_params.
  split.
  { intros -> Hp. rewrite Hp. reflexivity. }
  destruct (String.eqb order_type "Limit" && negb (truthy price)) eqn:Eg;
    cbn [fst snd].
  { split.
    - intros order_id. split; [discriminate |].
      intros [[x Hx] _]. discriminate.
    - intros params Hx. discriminate. }
  split.
  - intros order_id. split.
    + destruct (_send_request answer) as [result |] eqn:E; [| discriminate].
      destruct (js_result result) as [payload |] eqn:Ep; [| discriminate].
      intros ->. split; [eauto |]. exists result.
      split; [now apply Hsend | exact Ep].
    + intros [_ (result & Hp & Hr)]. apply Hsend in Hp.
      now rewrite Hp, Hr.
  - intros params [= <-].
    cbn [op_timeInForce op_price op_reduceOnly op_stopLoss op_takeProfit].
    split.
    { destruct (String.eqb order_type "Limit") eqn:El.
      - apply String.eqb_eq in El. subst order_type. reflexivity.
      - destruct (String.eqb order_type "Market"), reduce_only; reflexivity. }
    split; [reflexivity |]. split; [reflexivity |].
    split.
    + destruct stop_loss as [[| c s] |]; cbn; congruence.
    + destruct take_profit as [[| c s] |]; cbn; congruence.
Qed.

Lemma api_write_outcomes_witness :
  place_order "BTCUSDT" "Buy" "Limit" "0.02" None "GTC" false false None None
    (HttpJson {| js_retCode := Some 0%Z; js_retMsg := None;
                 js_result := Some (Some "order-1") |})
  = (None, None).
Proof.
  apply (proj1 (proj2 (proj2 (proj2 (proj2
           (api_write_outcomes "BTCUSDT" "Buy" "Limit" "0.02" None "GTC"
              false false None None
              (HttpJson {| js_retCode := Some 0%Z; js_retMsg := None;
                           js_result := Some (Some "order-1") |}))))))
           eq_refl eq_refl).
Defined.
